(** * The Council orchestration core of sandironratio-node

  A shallow embedding of the Python sources under [src/council]:
  the sovereign-territory guard ([protected_repos.py]), the agent
  admission gate ([agents/base_agent.py]), the six scoring functions,
  the chair's routing and redistribution ([agents/tess.py]), the
  diligence ledger ([diligence_ledger.py]) and the convening ceremony
  ([convening.py]).

  Conventions of the embedding:
  - a Python [str] is a [string] (a sequence of bytes);
  - a Python [float] is a primitive binary64 [float], so that every
    product, sum and comparison rounds as it does in the program;
  - a Python [int] is a [Z];
  - a [dict] whose iteration order is observed (the council itself)
    is an association list, any other [dict] keyed by strings a [gmap];
  - [datetime.utcnow()] is an explicit clock reading passed to the
    operation that asks for it;
  - a method that mutates [self] takes the object and returns it. *)

From Stdlib Require Import Floats ZArith Uint63 Ascii String Sorted.
From stdpp Require Import gmap strings list pretty.

Set Warnings "-inexact-float".
Set Default Proof Using "Type".

(** ** Python primitives used by the sources *)

Module Py.

Local Open Scope string_scope.

(** [needle in hay] on strings. *)
Fixpoint contains (needle hay : string) : bool :=
  String.prefix needle hay ||
  match hay with
  | EmptyString => false
  | String _ hay' => contains needle hay'
  end.

(** [any(term in s for term in terms)]. *)
Definition any_in (terms : list string) (s : string) : bool :=
  existsb (fun term => contains term s) terms.

(** [sum(1 for keyword in keywords if keyword in s)]. *)
Definition count_in (keywords : list string) (s : string) : Z :=
  Z.of_nat (length (filter (fun keyword => contains keyword s = true) keywords)).

(** [x in xs] for a list of strings. *)
Definition mem (x : string) (xs : list string) : bool :=
  existsb (String.eqb x) xs.

(** [c.lower()] on one byte: only the letters A-Z move. *)
Definition lower_ascii (c : ascii) : ascii :=
  let n := nat_of_ascii c in
  if (65 <=? n)%nat && (n <=? 90)%nat then ascii_of_nat (n + 32) else c.

(** [s.lower()]. *)
Fixpoint lower (s : string) : string :=
  match s with
  | EmptyString => EmptyString
  | String c s' => String (lower_ascii c) (lower s')
  end.

(** [s.split(sep)] for a one-character separator. *)
Fixpoint split (sep : ascii) (s : string) : list string :=
  match s with
  | EmptyString => [EmptyString]
  | String c s' =>
      if Ascii.eqb c sep then EmptyString :: split sep s'
      else match split sep s' with
           | [] => [String c EmptyString]
           | seg :: segs => String c seg :: segs
           end
  end.

(** [xs[-1]] for a list that [split] returned (never empty). *)
Definition last_item (xs : list string) : string := List.last xs EmptyString.

(** [s[:n]]. *)
Definition take_prefix (n : nat) (s : string) : string := String.substring 0 n s.

(** [fnmatch.fnmatch(name, pat)] on a POSIX host, where [normcase]
    is the identity: [*] matches any run of characters, [?] any one
    character, every other character itself.  Bracket classes are
    outside this model; no pattern of the program contains a bracket. *)
Fixpoint fnmatch_from (pat : string) : string -> bool :=
  match pat with
  | EmptyString => fun name => match name with EmptyString => true | _ => false end
  | String p pat' =>
      if Ascii.eqb p "*" then
        fix star (name : string) : bool :=
          fnmatch_from pat' name ||
          match name with
          | EmptyString => false
          | String _ name' => star name'
          end
      else if Ascii.eqb p "?" then
        fun name => match name with
                    | EmptyString => false
                    | String _ name' => fnmatch_from pat' name'
                    end
      else
        fun name => match name with
                    | EmptyString => false
                    | String c name' => Ascii.eqb c p && fnmatch_from pat' name'
                    end
  end.

Definition fnmatch (name pat : string) : bool := fnmatch_from pat name.

(** What a glob pattern means, stated on its own: the relation the
    matcher above is checked against. *)
Inductive glob : string -> string -> Prop :=
| glob_end : glob EmptyString EmptyString
| glob_star pat skipped rest :
    glob pat rest -> glob (String "*" pat) (skipped ++ rest)
| glob_one pat c rest :
    glob pat rest -> glob (String "?" pat) (String c rest)
| glob_lit pat c rest :
    c <> "*"%char -> c <> "?"%char ->
    glob pat rest -> glob (String c pat) (String c rest).

(** The outcome of a call: it returns a value or raises. *)
Inductive outcome (E A : Type) : Type :=
| Returned (a : A)
| Raised (e : E).
Arguments Returned {E A} a.
Arguments Raised {E A} e.

(** Sequencing: what follows a call runs only if the call returned. *)
Definition and_then {E A B} (call : outcome E A) (rest : A -> outcome E B) : outcome E B :=
  match call with
  | Returned a => rest a
  | Raised e => Raised e
  end.

(** Float helpers, with Python's argument order. *)
Local Open Scope float_scope.

(** [min(a, b)]: [b] when [b < a], else [a]. *)
Definition fmin (a b : float) : float := if b <? a then b else a.
(** [max(a, b)]: [b] when [b > a], else [a]. *)
Definition fmax (a b : float) : float := if a <? b then b else a.

(** [float(n)] for an [int]: exact below 2^53. *)
Definition float_of_Z (n : Z) : float :=
  match n with
  | Z0 => 0
  | Zpos _ => PrimFloat.of_uint63 (Uint63.of_Z n)
  | Zneg p => - PrimFloat.of_uint63 (Uint63.of_Z (Zpos p))
  end.

(** [sum(xs)] over floats: a left fold that starts at zero. *)
Definition fsum (xs : list float) : float := fold_left PrimFloat.add xs 0.

End Py.

(** ** The order of binary64 values, read off their specification *)

Module FloatOrder.

(** A float that compares with itself: anything but a NaN. *)
Definition comparable (x : float) : Prop := (x =? x)%float = true.

(** Where a specification float sits on the line: its class (infinite
    or finite, negative or positive, zero in the middle), then exponent
    and mantissa, both negated on the negative side. *)
Definition rank (f : spec_float) : Z * Z * Z :=
  match f with
  | S754_infinity true => (-2, 0, 0)
  | S754_finite true m e => (-1, - e, - Zpos m)
  | S754_zero _ => (0, 0, 0)
  | S754_nan => (0, 0, 0)
  | S754_finite false m e => (1, e, Zpos m)
  | S754_infinity false => (2, 0, 0)
  end%Z.

(** The lexicographic order of ranks. *)
Definition below (p q : Z * Z * Z) : Prop :=
  (p.1.1 < q.1.1 \/
   (p.1.1 = q.1.1 /\ (p.1.2 < q.1.2 \/ (p.1.2 = q.1.2 /\ p.2 < q.2))))%Z.

End FloatOrder.

(** ** protected_repos.py *)

Module ProtectedRepos.
Import Py.
Local Open Scope string_scope.

Definition SOVEREIGN_TERRITORY : list string :=
  ["sofie-llama-backend"; "sofie-backend"].

Definition PROTECTED_PATTERNS : list string :=
  ["sofie-*"; "*sofie*"].

(** The exception; its message is a rendering of these two fields. *)
Record SovereignTerritoryError := mkSovereignTerritoryError {
  repo_name : string;
  attempted_action : string
}.

(** The name the checks run on: the text after the last slash. *)
Definition bare_name (repo_name : string) : string :=
  if contains "/" repo_name then last_item (split "/" repo_name) else repo_name.

Definition is_sovereign_territory (repo_name : string) : bool :=
  let repo_name := bare_name repo_name in
  if mem repo_name SOVEREIGN_TERRITORY then true
  else existsb (fun pattern => fnmatch repo_name pattern) PROTECTED_PATTERNS.

Definition validate_repo_access (repo_name attempted_action : string)
  : outcome SovereignTerritoryError unit :=
  if is_sovereign_territory repo_name
  then Raised (mkSovereignTerritoryError repo_name attempted_action)
  else Returned tt.

Definition get_permitted_repos (all_repos : list string) : list string :=
  filter (fun repo => is_sovereign_territory repo = false) all_repos.

Definition PERMITTED_ECOSYSTEM_REPOS : list string :=
  ["pollen"; "sandironratio-node"; "terracare-ledger"; "terracare-bridge";
   "hive-api"; "heartware"; "harmonic-balance"; "terratrek";
   "nectar-tracker"; "sofie-dashboard"; "wellness-bridge"].

Definition get_ecosystem_build_targets : list string := PERMITTED_ECOSYSTEM_REPOS.

End ProtectedRepos.

(** ** agents/base_agent.py *)

Module BaseAgent.
Import Py.

Inductive AgentStatus := IDLE | WORKING | DELIBERATING | REVIEWING | RECOVERY | OFFLINE.

Inductive TaskPriority := CRITICAL | HIGH | NORMAL | LOW.

(** A [datetime]: microseconds since the epoch. *)
Definition datetime := Z.

(** [delta.total_seconds()] for a difference of two clock readings
    (exact for differences below 2^53 microseconds). *)
Definition total_seconds (delta : Z) : float := (float_of_Z delta / 1000000)%float.

(** [(later - earlier).total_seconds() / 3600]. *)
Definition hours_between (later earlier : datetime) : float :=
  (total_seconds (later - earlier) / 3600)%float.

Record AgentBiometrics := mkAgentBiometrics {
  stress_level : float;
  cognitive_load : float;
  concurrent_tasks : Z;
  hours_worked_today : float;
  last_break_timestamp : datetime;
  last_rest_timestamp : datetime;
  current_status : AgentStatus
}.

(** The wellness thresholds: dataclass defaults that no code assigns. *)
Definition MAX_CONCURRENT_TASKS : Z := 3.
Definition MAX_HOURS_PER_DAY : float := 8.0.
Definition BREAK_INTERVAL_HOURS : float := 4.0.
Definition REST_DURATION_MINUTES : float := 15.0.
Definition STRESS_THRESHOLD : float := 0.7.

(** [AgentBiometrics()] at clock reading [now]. *)
Definition new_biometrics (now : datetime) : AgentBiometrics :=
  {| stress_level := 0.0; cognitive_load := 0.0; concurrent_tasks := 0;
     hours_worked_today := 0.0; last_break_timestamp := now;
     last_rest_timestamp := now; current_status := IDLE |}.

Definition needs_break (self : AgentBiometrics) (now : datetime) : bool :=
  (BREAK_INTERVAL_HOURS <=? hours_between now (last_break_timestamp self))%float.

Definition needs_rest (self : AgentBiometrics) : bool :=
  (STRESS_THRESHOLD <? stress_level self)%float
  || (MAX_HOURS_PER_DAY <=? hours_worked_today self)%float
  || (0.8 <? cognitive_load self)%float.

Definition is_recovery (s : AgentStatus) : bool :=
  match s with RECOVERY => true | _ => false end.

Definition can_accept_task (self : AgentBiometrics) : bool :=
  if (MAX_CONCURRENT_TASKS <=? concurrent_tasks self)%Z then false
  else if needs_rest self then false
  else if is_recovery (current_status self) then false
  else true.

Record Task := mkTask {
  id : string;
  title : string;
  description : string;
  repo : string;
  priority : TaskPriority;
  estimated_hours : float;
  dependencies : list string;
  assigned_at : option datetime;
  started_at : option datetime;
  completed_at : option datetime;
  status : string;
  nectar_accrued : float;
  quality_score : float
}.

(** [Task(id, title, description, repo, priority, estimated_hours)]. *)
Definition new_task (id title description repo : string) (priority : TaskPriority)
    (estimated_hours : float) : Task :=
  {| id := id; title := title; description := description; repo := repo;
     priority := priority; estimated_hours := estimated_hours; dependencies := [];
     assigned_at := None; started_at := None; completed_at := None;
     status := "pending"; nectar_accrued := 0.0; quality_score := 1.0 |}.

(** Sofie's briefing, a [dict]: the keys the council reads, each
    possibly absent, and whatever else the sender put in. *)
Record EcosystemState := mkEcosystemState {
  build_stage : option string;
  active_repos : option (list string)
}.

Record Briefing := mkBriefing {
  ecosystem_state : option EcosystemState;
  critical_path : option (list string);
  protected_notice : option string;
  other_entries : list (string * string)
}.

(** The state every agent carries.  A task object is held by value:
    [tasks], [current_task] and [task_history] keep the task as it was
    when it was stored there. *)
Record BaseAgent := mkBaseAgent {
  name : string;
  specialization : string;
  capabilities : list string;
  hexagonal_position : Z;
  biometrics : AgentBiometrics;
  tasks : gmap string Task;
  task_history : list Task;
  current_task : option Task;
  total_hours_worked : float;
  total_nectar_accrued : float;
  deliberation_notes : list string;
  sofie_briefing : option Briefing
}.

(** [BaseAgent.__init__]; the two event callbacks start unset and no
    operation below sets them, so they are left out of the state. *)
Definition init (name specialization : string) (capabilities : list string)
    (hexagonal_position : Z) (now : datetime) : BaseAgent :=
  {| name := name; specialization := specialization; capabilities := capabilities;
     hexagonal_position := hexagonal_position; biometrics := new_biometrics now;
     tasks := ∅; task_history := []; current_task := None;
     total_hours_worked := 0.0; total_nectar_accrued := 0.0;
     deliberation_notes := []; sofie_briefing := None |}.

Definition set_biometrics (self : BaseAgent) (b : AgentBiometrics) : BaseAgent :=
  {| name := name self; specialization := specialization self;
     capabilities := capabilities self; hexagonal_position := hexagonal_position self;
     biometrics := b; tasks := tasks self; task_history := task_history self;
     current_task := current_task self; total_hours_worked := total_hours_worked self;
     total_nectar_accrued := total_nectar_accrued self;
     deliberation_notes := deliberation_notes self; sofie_briefing := sofie_briefing self |}.

Definition receive_briefing (self : BaseAgent) (briefing : Briefing) : BaseAgent :=
  {| name := name self; specialization := specialization self;
     capabilities := capabilities self; hexagonal_position := hexagonal_position self;
     biometrics := biometrics self; tasks := tasks self; task_history := task_history self;
     current_task := current_task self; total_hours_worked := total_hours_worked self;
     total_nectar_accrued := total_nectar_accrued self;
     deliberation_notes := []; sofie_briefing := Some briefing |}.

Record CapacityReport := mkCapacityReport {
  cr_agent : string;
  cr_specialization : string;
  cr_can_accept_task : bool;
  cr_current_load : Z;
  cr_max_load : Z;
  cr_biometrics : AgentBiometrics;
  cr_current_task : option Task
}.

Definition report_capacity (self : BaseAgent) : CapacityReport :=
  {| cr_agent := name self; cr_specialization := specialization self;
     cr_can_accept_task := can_accept_task (biometrics self);
     cr_current_load := concurrent_tasks (biometrics self);
     cr_max_load := MAX_CONCURRENT_TASKS;
     cr_biometrics := biometrics self; cr_current_task := current_task self |}.

(** [assign_task]: the flag it returns and the agent afterwards. *)
Definition assign_task (self : BaseAgent) (task : Task) (now : datetime) : bool * BaseAgent :=
  if negb (can_accept_task (biometrics self)) then (false, self)
  else
    let task :=
      {| id := id task; title := title task; description := description task;
         repo := repo task; priority := priority task;
         estimated_hours := estimated_hours task; dependencies := dependencies task;
         assigned_at := Some now; started_at := started_at task;
         completed_at := completed_at task; status := "pending";
         nectar_accrued := nectar_accrued task; quality_score := quality_score task |} in
    let b := biometrics self in
    (true,
     {| name := name self; specialization := specialization self;
        capabilities := capabilities self; hexagonal_position := hexagonal_position self;
        biometrics :=
          {| stress_level := stress_level b; cognitive_load := cognitive_load b;
             concurrent_tasks := concurrent_tasks b + 1;
             hours_worked_today := hours_worked_today b;
             last_break_timestamp := last_break_timestamp b;
             last_rest_timestamp := last_rest_timestamp b;
             current_status := current_status b |};
        tasks := <[id task := task]> (tasks self);
        task_history := task_history self; current_task := current_task self;
        total_hours_worked := total_hours_worked self;
        total_nectar_accrued := total_nectar_accrued self;
        deliberation_notes := deliberation_notes self;
        sofie_briefing := sofie_briefing self |}).

Definition start_task (self : BaseAgent) (task_id : string) (now : datetime) : bool * BaseAgent :=
  match tasks self !! task_id with
  | None => (false, self)
  | Some task =>
      let task :=
        {| id := id task; title := title task; description := description task;
           repo := repo task; priority := priority task;
           estimated_hours := estimated_hours task; dependencies := dependencies task;
           assigned_at := assigned_at task; started_at := Some now;
           completed_at := completed_at task; status := "in_progress";
           nectar_accrued := nectar_accrued task; quality_score := quality_score task |} in
      let b := biometrics self in
      (true,
       {| name := name self; specialization := specialization self;
          capabilities := capabilities self; hexagonal_position := hexagonal_position self;
          biometrics :=
            {| stress_level := stress_level b; cognitive_load := cognitive_load b;
               concurrent_tasks := concurrent_tasks b;
               hours_worked_today := hours_worked_today b;
               last_break_timestamp := last_break_timestamp b;
               last_rest_timestamp := last_rest_timestamp b;
               current_status := WORKING |};
          tasks := <[task_id := task]> (tasks self);
          task_history := task_history self; current_task := Some task;
          total_hours_worked := total_hours_worked self;
          total_nectar_accrued := total_nectar_accrued self;
          deliberation_notes := deliberation_notes self;
          sofie_briefing := sofie_briefing self |})
  end.

(** The completion report; the program shows the three amounts rounded
    to two decimals, the record keeps them as computed. *)
Record CompletionReport := mkCompletionReport {
  rep_agent : string;
  rep_task_id : string;
  rep_task_title : string;
  rep_duration_hours : float;
  rep_quality_score : float;
  rep_nectar_accrued : float;
  rep_total_accrued : float;
  rep_result : list (string * string)
}.

Inductive CompletionOutcome :=
| TaskNotFound
| Completed (report : CompletionReport).

Definition complete_task (self : BaseAgent) (task_id : string)
    (result : list (string * string)) (quality_score : float) (now : datetime)
  : CompletionOutcome * BaseAgent :=
  match tasks self !! task_id with
  | None => (TaskNotFound, self)
  | Some task =>
      let duration :=
        match started_at task with
        | Some started => hours_between now started
        | None => estimated_hours task
        end in
      let b := biometrics self in
      let concurrent := (concurrent_tasks b - 1)%Z in
      let base_nectar := (10.0 * duration)%float in
      let task :=
        {| id := id task; title := title task; description := description task;
           repo := repo task; priority := priority task;
           estimated_hours := estimated_hours task; dependencies := dependencies task;
           assigned_at := assigned_at task; started_at := started_at task;
           completed_at := Some now; status := "completed";
           nectar_accrued := (base_nectar * quality_score)%float;
           quality_score := quality_score |} in
      let total_nectar := (total_nectar_accrued self + nectar_accrued task)%float in
      (Completed
         {| rep_agent := name self; rep_task_id := task_id; rep_task_title := title task;
            rep_duration_hours := duration; rep_quality_score := quality_score;
            rep_nectar_accrued := nectar_accrued task;
            rep_total_accrued := total_nectar; rep_result := result |},
       {| name := name self; specialization := specialization self;
          capabilities := capabilities self; hexagonal_position := hexagonal_position self;
          biometrics :=
            {| stress_level := stress_level b;
               cognitive_load := fmax 0 (cognitive_load b - 0.2)%float;
               concurrent_tasks := concurrent;
               hours_worked_today := (hours_worked_today b + duration)%float;
               last_break_timestamp := last_break_timestamp b;
               last_rest_timestamp := last_rest_timestamp b;
               current_status := if (concurrent =? 0)%Z then IDLE else current_status b |};
          tasks := <[task_id := task]> (tasks self);
          task_history := task_history self ++ [task];
          current_task := if (concurrent =? 0)%Z then None else current_task self;
          total_hours_worked := (total_hours_worked self + duration)%float;
          total_nectar_accrued := total_nectar;
          deliberation_notes := deliberation_notes self;
          sofie_briefing := sofie_briefing self |})
  end.

Definition take_break (self : BaseAgent) (now : datetime) : BaseAgent :=
  let b := biometrics self in
  let rested :=
    {| stress_level := fmax 0 (stress_level b - 0.3)%float;
       cognitive_load := fmax 0 (cognitive_load b - 0.3)%float;
       concurrent_tasks := concurrent_tasks b;
       hours_worked_today := hours_worked_today b;
       last_break_timestamp := now;
       last_rest_timestamp := last_rest_timestamp b;
       current_status := RECOVERY |} in
  set_biometrics self
    (if can_accept_task rested
     then {| stress_level := stress_level rested; cognitive_load := cognitive_load rested;
             concurrent_tasks := concurrent_tasks rested;
             hours_worked_today := hours_worked_today rested;
             last_break_timestamp := last_break_timestamp rested;
             last_rest_timestamp := last_rest_timestamp rested;
             current_status := IDLE |}
     else rested).

Definition rest (self : BaseAgent) (now : datetime) : BaseAgent :=
  let b := biometrics self in
  set_biometrics self
    {| stress_level := 0.0; cognitive_load := 0.0;
       concurrent_tasks := concurrent_tasks b;
       hours_worked_today := hours_worked_today b;
       last_break_timestamp := last_break_timestamp b;
       last_rest_timestamp := now;
       current_status := RECOVERY |}.

(** [get_neighbor_agents]: the agents of [all_agents], in their order,
    that sit one position to the left or to the right on the ring;
    [None] for an empty list, where taking the position modulo zero
    raises. *)
Definition get_neighbor_agents (self : BaseAgent) (all_agents : list BaseAgent)
  : option (list BaseAgent) :=
  let num_agents := Z.of_nat (length all_agents) in
  if (num_agents =? 0)%Z then None
  else
    let left_pos := ((hexagonal_position self - 1) mod num_agents)%Z in
    let right_pos := ((hexagonal_position self + 1) mod num_agents)%Z in
    Some (filter (fun agent => hexagonal_position agent = left_pos
                               \/ hexagonal_position agent = right_pos)
                 all_agents).

(** The public operations of an agent, as one step function. *)
Inductive AgentOp :=
| OpAssignTask (task : Task) (now : datetime)
| OpStartTask (task_id : string) (now : datetime)
| OpCompleteTask (task_id : string) (result : list (string * string))
                 (quality_score : float) (now : datetime)
| OpTakeBreak (now : datetime)
| OpRest (now : datetime).

Definition step (self : BaseAgent) (op : AgentOp) : BaseAgent :=
  match op with
  | OpAssignTask task now => snd (assign_task self task now)
  | OpStartTask task_id now => snd (start_task self task_id now)
  | OpCompleteTask task_id result quality_score now =>
      snd (complete_task self task_id result quality_score now)
  | OpTakeBreak now => take_break self now
  | OpRest now => rest self now
  end.

Definition run (self : BaseAgent) (ops : list AgentOp) : BaseAgent :=
  fold_left step ops self.

End BaseAgent.

(** ** diligence_ledger.py *)

Module DiligenceLedger.
Import Py.

Record NectarAccrualRecord := mkNectarAccrualRecord {
  agent_name : string;
  task_id : string;
  task_title : string;
  repo : string;
  hours_worked : float;
  base_rate : float;
  quality_multiplier : float;
  nectar_accrued : float;
  timestamp : BaseAgent.datetime;
  blockchain_eligible : bool
}.

(** One entry of [agent_totals]. *)
Record AgentTotals := mkAgentTotals {
  total_nectar : float;
  total_hours : float;
  tasks_completed : Z
}.

(** The in-memory ledger: the records in the order they were appended
    and the running totals per agent. *)
Record Ledger := mkLedger {
  records : list NectarAccrualRecord;
  agent_totals : gmap string AgentTotals
}.

(** What [_save] writes and [_load] reads back. *)
Record Document := mkDocument {
  doc_records : list NectarAccrualRecord;
  doc_totals : gmap string AgentTotals;
  doc_last_updated : BaseAgent.datetime
}.

(** [__init__] with [_load]: [on_disk] is the document found at the
    ledger path, [None] when there is no file or it cannot be read. *)
Definition init (on_disk : option Document) : Ledger :=
  match on_disk with
  | Some data => {| records := doc_records data; agent_totals := doc_totals data |}
  | None => {| records := []; agent_totals := ∅ |}
  end.


(** The [task] argument is duck-typed: the three attributes the ledger
    probes with [hasattr], and [str(task)] for those that are missing. *)
Record TaskLike := mkTaskLike {
  attr_id : option string;
  attr_title : option string;
  attr_repo : option string;
  as_str : string
}.

(** A [Task] of the council seen through those probes. *)
Definition of_task (rendering : string) (task : BaseAgent.Task) : TaskLike :=
  {| attr_id := Some (BaseAgent.id task); attr_title := Some (BaseAgent.title task);
     attr_repo := Some (BaseAgent.repo task); as_str := rendering |}.

(** What [record_completion] returns; the program rounds the three
    amounts to two decimals, the record keeps them as computed. *)
Record Accrual := mkAccrual {
  acc_agent : string;
  acc_task : string;
  acc_nectar_accrued : float;
  acc_multiplier : float;
  acc_total_accrued : float
}.

Definition zero_totals : AgentTotals :=
  {| total_nectar := 0.0; total_hours := 0.0; tasks_completed := 0 |}.

Definition record_completion (self : Ledger) (agent_name : string) (task : TaskLike)
    (hours_worked quality_score : float)
    (tested wellness_approved cross_repo documented : bool)
    (now : BaseAgent.datetime) : Accrual * Ledger :=
  let multiplier := quality_score in
  let multiplier := if tested then (multiplier * 2.0)%float else multiplier in
  let multiplier := if wellness_approved then (multiplier * 1.5)%float else multiplier in
  let multiplier := if cross_repo then (multiplier * 2.0)%float else multiplier in
  let multiplier := if documented then (multiplier * 1.3)%float else multiplier in
  let base_rate := 10.0%float in
  let nectar := (hours_worked * base_rate * multiplier)%float in
  let record :=
    {| agent_name := agent_name;
       task_id := default (as_str task) (attr_id task);
       task_title := default (as_str task) (attr_title task);
       repo := default "unknown" (attr_repo task);
       hours_worked := hours_worked;
       base_rate := base_rate;
       quality_multiplier := multiplier;
       nectar_accrued := nectar;
       timestamp := now;
       blockchain_eligible := true |} in
  let totals := default zero_totals (agent_totals self !! agent_name) in
  let totals :=
    {| total_nectar := (total_nectar totals + nectar)%float;
       total_hours := (total_hours totals + hours_worked)%float;
       tasks_completed := tasks_completed totals + 1 |} in
  ({| acc_agent := agent_name; acc_task := task_title record;
      acc_nectar_accrued := nectar; acc_multiplier := multiplier;
      acc_total_accrued := total_nectar totals |},
   {| records := records self ++ [record];
      agent_totals := <[agent_name := totals]> (agent_totals self) |}).

(** The multiplier as the specification words it: the quality score
    times the factor of each condition that holds, in the order tested,
    wellness-approved, cross-repository, documented. *)
Definition times_if (applies : bool) (factor amount : float) : float :=
  if applies then (amount * factor)%float else amount.

Definition specified_multiplier (quality_score : float)
    (tested wellness_approved cross_repo documented : bool) : float :=
  times_if documented 1.3
    (times_if cross_repo 2.0
       (times_if wellness_approved 1.5
          (times_if tested 2.0 quality_score))).

(** One call of [record_completion], with its arguments. *)
Record Completion := mkCompletion {
  c_agent_name : string;
  c_task : TaskLike;
  c_hours_worked : float;
  c_quality_score : float;
  c_tested : bool;
  c_wellness_approved : bool;
  c_cross_repo : bool;
  c_documented : bool;
  c_now : BaseAgent.datetime
}.

Definition apply_completion (self : Ledger) (c : Completion) : Ledger :=
  snd (record_completion self (c_agent_name c) (c_task c) (c_hours_worked c)
         (c_quality_score c) (c_tested c) (c_wellness_approved c)
         (c_cross_repo c) (c_documented c) (c_now c)).

Definition record_all (self : Ledger) (calls : list Completion) : Ledger :=
  fold_left apply_completion calls self.

(** The records of one agent, in ledger order. *)
Definition records_of (self : Ledger) (agent : string) : list NectarAccrualRecord :=
  filter (fun r => agent_name r = agent) (records self).

(** [get_agent_summary], without the rounding and the recent-accruals
    excerpt: zeros for an agent the ledger has never seen. *)
Definition get_agent_summary (self : Ledger) (agent : string) : AgentTotals :=
  default zero_totals (agent_totals self !! agent).

End DiligenceLedger.

(** ** The six agents: veda.py, aura.py, hex.py, node.py, spark.py, tess.py *)

Module Agents.
Import Py.
Local Open Scope string_scope.

Inductive AgentKind := Veda | Aura | Hex | Node | Spark | Tess.

Definition VEDA_KEYWORDS : list string :=
  ["backend"; "api"; "server"; "database"; "algorithm";
   "python"; "node"; "typescript"; "logic"; "core";
   "architecture"; "schema"; "migration"; "orm";
   "microservice"; "docker"; "kubernetes"; "infrastructure"].

Definition AURA_KEYWORDS : list string :=
  ["review"; "validate"; "audit"; "test"; "check";
   "wellness"; "health"; "stress"; "calm"; "accessibility";
   "documentation"; "quality"; "safety"; "compliance"].

Definition HEX_KEYWORDS : list string :=
  ["nectar"; "token"; "economic"; "diligence"; "ledger";
   "accrual"; "reward"; "compensation"; "blockchain"; "genesis"].

Definition NODE_KEYWORDS : list string :=
  ["docker"; "kubernetes"; "k8s"; "devops"; "ci/cd"; "pipeline";
   "integration"; "bridge"; "api"; "service"; "port"; "container";
   "deployment"; "orchestration"; "health"; "monitoring"].

Definition SPARK_KEYWORDS : list string :=
  ["frontend"; "ui"; "ux"; "design"; "css"; "react"; "vue";
   "component"; "interface"; "visual"; "creative"; "documentation";
   "template"; "html"; "responsive"; "calm"; "accessible"].

Definition TESS_KEYWORDS : list string :=
  ["coordinate"; "facilitate"; "chair"; "optimize"; "balance";
   "timeline"; "dependency"; "conflict"; "topology"; "distribute";
   "manage"; "resolve"; "plan"; "architecture"].

(** [matches / d] for an [int] count and an [int] divisor. *)
Definition ratio (matches d : Z) : float := (float_of_Z matches / float_of_Z d)%float.

Definition veda_can_handle_task (task_description : string) : float :=
  let description_lower := lower task_description in
  let matches := count_in VEDA_KEYWORDS description_lower in
  let confidence := fmin 1.0 (ratio matches 3) in
  let confidence :=
    if any_in ["api"; "backend"; "server"; "database"] description_lower
    then fmin 1.0 (confidence + 0.3)%float else confidence in
  let confidence :=
    if any_in ["ui"; "frontend"; "css"; "react component"] description_lower
    then (confidence * 0.3)%float else confidence in
  confidence.

Definition aura_can_handle_task (task_description : string) : float :=
  let description_lower := lower task_description in
  let matches := count_in AURA_KEYWORDS description_lower in
  let confidence := fmin 1.0 (ratio matches 2) in
  let confidence :=
    if any_in ["review"; "validate"; "audit"] description_lower
    then fmin 1.0 (confidence + 0.4)%float else confidence in
  confidence.

Definition hex_can_handle_task (task_description : string) : float :=
  let description_lower := lower task_description in
  let matches := count_in HEX_KEYWORDS description_lower in
  fmin 1.0 (ratio matches 2).

Definition node_can_handle_task (task_description : string) : float :=
  let description_lower := lower task_description in
  let matches := count_in NODE_KEYWORDS description_lower in
  let confidence := fmin 1.0 (ratio matches 3) in
  let confidence :=
    if contains "bridge" description_lower || contains "integration" description_lower
    then fmin 1.0 (confidence + 0.4)%float else confidence in
  confidence.

Definition spark_can_handle_task (task_description : string) : float :=
  let description_lower := lower task_description in
  let matches := count_in SPARK_KEYWORDS description_lower in
  let confidence := fmin 1.0 (ratio matches 2) in
  let confidence :=
    if any_in ["design"; "ui"; "ux"; "creative"] description_lower
    then fmin 1.0 (confidence + 0.4)%float else confidence in
  let confidence :=
    if any_in ["backend"; "database"; "algorithm"] description_lower
    then (confidence * 0.2)%float else confidence in
  confidence.

Definition tess_can_handle_task (task_description : string) : float :=
  let description_lower := lower task_description in
  let matches := count_in TESS_KEYWORDS description_lower in
  let confidence := fmin 1.0 (ratio matches 2) in
  let confidence :=
    if any_in ["coordinate"; "plan"; "chair"; "manage"] description_lower
    then fmin 1.0 (confidence + 0.4)%float else confidence in
  confidence.

(** The overridden method, selected by the class of the agent. *)
Definition can_handle_task (kind : AgentKind) (task_description : string) : float :=
  match kind with
  | Veda => veda_can_handle_task task_description
  | Aura => aura_can_handle_task task_description
  | Hex => hex_can_handle_task task_description
  | Node => node_can_handle_task task_description
  | Spark => spark_can_handle_task task_description
  | Tess => tess_can_handle_task task_description
  end.

End Agents.

(** ** agents/__init__.py and the state the subclasses add *)

Module Council.
Import Py Agents.
Local Open Scope string_scope.

Inductive PyError :=
| KeyError (key : string)
| AttributeError (attribute : string)
| TypeError (what : string)
| ValueError (what : string)
| ZeroDivisionError.

(** A concern of the wellness validation.  Its [message] is a rendering
    of the data kept here. *)
Inductive ConcernMessage :=
| AlreadyAtCapacity (agent_name : string)
| TotalWorkloadMayCauseStress (total_hours : float).

Record Concern := mkConcern {
  concern_type : string;
  concern_agent : option string;
  concern_message : ConcernMessage;
  concern_suggestion : option string
}.

(** Aura's veto declaration (its [message] is a rendering of the title
    and of the reasons). *)
Record VetoDeclaration := mkVetoDeclaration {
  authority : string;
  vetoed_proposal : option string;
  veto_timestamp : BaseAgent.datetime;
  reasons : list Concern;
  can_override : bool;
  requires_redesign : bool
}.

(** Tess's [current_meeting]. *)
Record Meeting := mkMeeting {
  meeting_started_at : BaseAgent.datetime;
  meeting_briefing : BaseAgent.Briefing;
  agents_present : list string;
  meeting_phase : string
}.

Record DeliberationRecord := mkDeliberationRecord {
  topic : string;
  started_at : BaseAgent.datetime;
  ended_at : option BaseAgent.datetime;
  participants : list string;
  decisions : list string;
  conflicts : list string;
  stress_level : float
}.

(** What each subclass adds to [BaseAgent], as far as the ceremony
    reads or writes it. *)
Inductive SubclassState :=
| VedaAgent (current_complexity_score complexity_threshold : float)
| AuraAgent (vetoes_issued : list VetoDeclaration)
| HexAgent
| NodeAgent
| SparkAgent
| TessAgent (current_meeting : option Meeting)
            (deliberation_history : list DeliberationRecord).

Record Agent := mkAgent {
  base : BaseAgent.BaseAgent;
  subclass : SubclassState
}.

Definition kind (agent : Agent) : AgentKind :=
  match subclass agent with
  | VedaAgent _ _ => Veda
  | AuraAgent _ => Aura
  | HexAgent => Hex
  | NodeAgent => Node
  | SparkAgent => Spark
  | TessAgent _ _ => Tess
  end.

Definition set_base (agent : Agent) (b : BaseAgent.BaseAgent) : Agent :=
  {| base := b; subclass := subclass agent |}.

(** The council: a [dict] read in insertion order. *)
Definition Agents := list (string * Agent).

Fixpoint get (agents : Agents) (name : string) : option Agent :=
  match agents with
  | [] => None
  | (key, agent) :: rest => if String.eqb key name then Some agent else get rest name
  end.

(** The agent under [name] replaced by the same object after a mutation. *)
Fixpoint put (agents : Agents) (name : string) (agent : Agent) : Agents :=
  match agents with
  | [] => []
  | (key, old) :: rest =>
      if String.eqb key name then (key, agent) :: rest
      else (key, old) :: put rest name agent
  end.

Definition keys (agents : Agents) : list string := map fst agents.

(** The name of the agent seated at a position of the ring. *)
Definition agent_at (agents : Agents) (position : Z) : option string :=
  fst <$> List.find (fun entry : string * Agent =>
                       (BaseAgent.hexagonal_position (base (snd entry)) =? position)%Z)
                    agents.

Definition new_veda (now : BaseAgent.datetime) : Agent :=
  {| base := BaseAgent.init "veda" "Backend Architecture & Complex Systems"
       ["backend_development"; "api_design"; "database_schema";
        "algorithm_implementation"; "code_refactoring"; "test_writing";
        "python"; "nodejs"; "typescript"; "sql"; "docker"; "microservices"] 0 now;
     subclass := VedaAgent 0.0 0.7 |}.

Definition new_aura (now : BaseAgent.datetime) : Agent :=
  {| base := BaseAgent.init "aura" "Wellness Validation & QA with Absolute Veto"
       ["wellness_validation"; "code_review"; "accessibility_audit";
        "stress_pattern_detection"; "documentation_review"; "dark_pattern_detection";
        "biometric_impact_assessment"; "calm_architecture_validation"; "veto_power"] 1 now;
     subclass := AuraAgent [] |}.

Definition new_hex (now : BaseAgent.datetime) : Agent :=
  {| base := BaseAgent.init "hex" "NECTAR Diligence Tracking & Tokenomics"
       ["nectar_tracking"; "accrual_calculation"; "genesis_preparation";
        "diligence_reporting"; "economic_modeling"; "consensus_participation";
        "ledger_maintenance"] 2 now;
     subclass := HexAgent |}.

Definition new_node (now : BaseAgent.datetime) : Agent :=
  {| base := BaseAgent.init "node" "DevOps & API Bridge Development"
       ["docker"; "kubernetes"; "cicd"; "microservices"; "api_integration"; "devops";
        "service_mesh"; "load_balancing"; "health_checks"; "port_management";
        "bridge_development"] 3 now;
     subclass := NodeAgent |}.

Definition new_spark (now : BaseAgent.datetime) : Agent :=
  {| base := BaseAgent.init "spark" "Frontend, UI/UX & Calm Architecture"
       ["frontend_development"; "ui_design"; "ux_design"; "css_architecture"; "react";
        "vue"; "html"; "creative_writing"; "documentation"; "visual_design";
        "calm_architecture"; "accessibility"; "responsive_design"] 4 now;
     subclass := SparkAgent |}.

Definition new_tess (now : BaseAgent.datetime) : Agent :=
  {| base := BaseAgent.init "tess" "Council Chair & Systems Architecture"
       ["meeting_facilitation"; "task_optimization"; "load_balancing";
        "dependency_management"; "timeline_estimation"; "conflict_resolution";
        "hexagonal_topology"; "cross_repo_coordination"; "technical_debt_tracking";
        "chair_authority"] 5 now;
     subclass := TessAgent None [] |}.

Definition create_council (now : BaseAgent.datetime) : Agents :=
  [("veda", new_veda now); ("aura", new_aura now); ("hex", new_hex now);
   ("node", new_node now); ("spark", new_spark now); ("tess", new_tess now)].

(** [AuraAgent.veto_proposal]: the declaration, recorded in
    [vetoes_issued].  [None] when the object is not an [AuraAgent]. *)
Definition veto_proposal (self : Agent) (proposal_title : option string)
    (reasons : list Concern) (now : BaseAgent.datetime) : option (VetoDeclaration * Agent) :=
  match subclass self with
  | AuraAgent vetoes_issued =>
      let veto_declaration :=
        {| authority := "aura_absolute_veto"; vetoed_proposal := proposal_title;
           veto_timestamp := now; reasons := reasons;
           can_override := false; requires_redesign := true |} in
      Some (veto_declaration,
            {| base := base self; subclass := AuraAgent (vetoes_issued ++ [veto_declaration]) |})
  | _ => None
  end.

End Council.

(** ** agents/tess.py: the chair *)

Module TessAgent.
Import Py Agents Council.
Local Open Scope string_scope.

Record Contender := mkContender {
  contender_agent : string;
  confidence : float;
  available : bool
}.

Record Conflict := mkConflict {
  conflict_task : string;
  between : list string;
  resolution : string
}.

Record Proposal := mkProposal {
  task : string;
  assigned_to : string;
  proposal_confidence : float;
  alternatives : list string
}.

(** An assignment of the plan, a [dict]: the keys that are always
    there and those only some branches set. *)
Record Assignment := mkAssignment {
  agent : string;
  assigned_task : string;
  estimated_hours : option float;
  repo : option string;
  redistributed_from : option string;
  status : option string;
  reason : option string;
  depends_on : option (list string)
}.

Record AgentLoad := mkAgentLoad {
  current_tasks : Z;
  max_tasks : Z;
  stress : float;
  available_capacity : Z
}.

(** The timeline; the program also reports the days rounded and
    converted to weeks. *)
Record Timeline := mkTimeline {
  total_hours : float;
  estimated_days : float
}.

Record Deliberation := mkDeliberation {
  proposals : list Proposal;
  conflicts : list Conflict;
  conflicts_resolved_by : option string
}.

Record OptimizedPlan := mkOptimizedPlan {
  assignments : list Assignment;
  timeline : Timeline;
  redistributions : nat;
  load_balance : gmap string AgentLoad
}.

(** The agents that clear the consideration threshold, in council order. *)
Definition contenders_of (agents : Agents) (task_desc : string) : list Contender :=
  omap (fun entry : string * Agent =>
          let confidence := can_handle_task (kind (snd entry)) task_desc in
          if (0.3 <? confidence)%float
          then Some {| contender_agent := fst entry; confidence := confidence;
                       available := BaseAgent.can_accept_task (BaseAgent.biometrics (base (snd entry))) |}
          else None)
       agents.

(** [contenders.sort(key=confidence, reverse=True)]: a stable sort,
    highest confidence first, equal confidences in their former order. *)
Fixpoint insert_by_confidence (c : Contender) (sorted : list Contender) : list Contender :=
  match sorted with
  | [] => [c]
  | d :: rest =>
      if (confidence c <? confidence d)%float
      then d :: insert_by_confidence c rest
      else c :: d :: rest
  end.

Definition sort_by_confidence (contenders : list Contender) : list Contender :=
  foldr insert_by_confidence [] contenders.

Definition nonempty (s : string) : bool :=
  match s with EmptyString => false | _ => true end.

(** One turn of the loop over the critical path: the conflict it
    records, if any, and the proposal it appends, if any. *)
Definition deliberate_task (agents : Agents) (task_desc : string)
  : option Conflict * option Proposal :=
  let contenders := sort_by_confidence (contenders_of agents task_desc) in
  let '(conflict, best_agent) :=
    match contenders with
    | first :: second :: _ =>
        if (confidence first - confidence second <? 0.2)%float
        then (Some {| conflict_task := task_desc;
                      between := [contender_agent first; contender_agent second];
                      resolution := "tess_decides" |},
              contender_agent first)
        else (None, contender_agent first)
    | [first] => (None, contender_agent first)
    | [] => (None, "veda")
    end in
  (conflict,
   if nonempty best_agent
   then Some {| task := task_desc; assigned_to := best_agent;
                proposal_confidence :=
                  match contenders with first :: _ => confidence first | [] => 0.3%float end;
                alternatives :=
                  match contenders with
                  | _ :: (_ :: _) as others => map contender_agent others
                  | _ => []
                  end |}
   else None).

(** [max(floats)]: the first of the largest; [None] on an empty list,
    where the program raises. *)
Definition max_float (xs : list float) : option float :=
  match xs with
  | [] => None
  | x :: rest => Some (fold_left fmax rest x)
  end.

(** The chair, found in the council under its own name. *)
Definition chair_state (agents : Agents)
  : outcome PyError (Agent * option Meeting * list DeliberationRecord) :=
  match get agents "tess" with
  | None => Raised (KeyError "tess")
  | Some tess =>
      match subclass tess with
      | TessAgent current_meeting deliberation_history =>
          Returned (tess, current_meeting, deliberation_history)
      | _ => Raised (AttributeError "TessAgent")
      end
  end.

(** [convene_council]: the meeting is opened, every agent receives the
    briefing and reports its capacity.  The chair is the council's entry
    under "tess", as the ceremony calls it; the one-line summary of the
    briefing is a rendering and is left out. *)
Definition convene_council (agents : Agents) (sofie_briefing : BaseAgent.Briefing)
    (now : BaseAgent.datetime)
  : outcome PyError (list string * list BaseAgent.CapacityReport) * Agents :=
  match chair_state agents with
  | Raised e => (Raised e, agents)
  | Returned (tess, _, deliberation_history) =>
      let meeting :=
        {| meeting_started_at := now; meeting_briefing := sofie_briefing;
           agents_present := keys agents; meeting_phase := "convened" |} in
      let agents :=
        put agents "tess" {| base := base tess;
                             subclass := TessAgent (Some meeting) deliberation_history |} in
      let agents :=
        map (fun entry : string * Agent =>
               (fst entry, set_base (snd entry)
                             (BaseAgent.receive_briefing (base (snd entry)) sofie_briefing)))
            agents in
      (Returned (keys agents,
                 map (fun entry : string * Agent => BaseAgent.report_capacity (base (snd entry)))
                     agents),
       agents)
  end.

(** [facilitate_deliberation]: the briefing is read from the first agent
    of the council, each task of its critical path is routed, and the
    deliberation is recorded in the chair's history. *)
Definition facilitate_deliberation (agents : Agents) (now : BaseAgent.datetime)
  : outcome PyError Deliberation * Agents :=
  match chair_state agents with
  | Raised e => (Raised e, agents)
  | Returned (tess, current_meeting, deliberation_history) =>
      match head agents with
      | None => (Raised (ValueError "max() arg is an empty sequence"), agents)
      | Some (_, first_agent) =>
          match BaseAgent.sofie_briefing (base first_agent) with
          | None => (Raised (AttributeError "get"), agents)
          | Some briefing =>
              let critical_path := default [] (BaseAgent.critical_path briefing) in
              let turns := map (deliberate_task agents) critical_path in
              let proposals := omap snd turns in
              let conflicts := omap fst turns in
              match max_float (map (fun entry : string * Agent =>
                                      BaseAgent.stress_level
                                        (BaseAgent.biometrics (base (snd entry))))
                                   agents) with
              | None => (Raised (ValueError "max() arg is an empty sequence"), agents)
              | Some stress =>
                  let record :=
                    {| topic := "Sofie's Briefing";
                       started_at :=
                         match current_meeting with
                         | Some meeting => meeting_started_at meeting
                         | None => now
                         end;
                       ended_at := Some now;
                       participants := keys agents;
                       decisions :=
                         map (fun p => assigned_to p ++ " → " ++ take_prefix 30 (task p))
                             proposals;
                       Council.conflicts :=
                         map (fun c => take_prefix 30 (conflict_task c)) conflicts;
                       stress_level := stress |} in
                  (Returned {| proposals := proposals; conflicts := conflicts;
                               conflicts_resolved_by :=
                                 match conflicts with [] => None | _ => Some "tess" end |},
                   put agents "tess"
                       {| base := base tess;
                          subclass := TessAgent current_meeting
                                                (deliberation_history ++ [record]) |})
              end
          end
      end
  end.

Definition _estimate_hours (task : string) : float :=
  if contains "simple" (lower task) || contains "docs" (lower task) then 4.0%float
  else if contains "complex" (lower task) || contains "architecture" (lower task) then 16.0%float
  else 8.0%float.

Definition _determine_repo (task : string) : string :=
  let task_lower := lower task in
  if contains "wellness" task_lower then "pollen"
  else if contains "bridge" task_lower || contains "api" task_lower then "terracare-bridge"
  else if contains "hive" task_lower then "hive-api"
  else "sandironratio-node".

Definition neighbor_map : list (string * list string) :=
  [("veda", ["tess"; "aura"]);
   ("aura", ["veda"; "hex"]);
   ("hex", ["aura"; "node"]);
   ("node", ["hex"; "spark"]);
   ("spark", ["node"; "tess"]);
   ("tess", ["spark"; "veda"])].

Fixpoint neighbors_of (map : list (string * list string)) (name : string) : list string :=
  match map with
  | [] => []
  | (key, neighbors) :: rest => if String.eqb key name then neighbors else neighbors_of rest name
  end.

(** The loop of [_redistribute_to_neighbor] over the neighbours. *)
Fixpoint first_able_neighbor (neighbors : list string) (task : string) (agents : Agents)
    (agent_loads : gmap string AgentLoad) : outcome PyError (option string) :=
  match neighbors with
  | [] => Returned None
  | neighbor_name :: rest =>
      match get agents neighbor_name with
      | None => first_able_neighbor rest task agents agent_loads
      | Some neighbor =>
          match agent_loads !! neighbor_name with
          | None => Raised (KeyError neighbor_name)
          | Some load =>
              if (available_capacity load <=? 0)%Z
              then first_able_neighbor rest task agents agent_loads
              else if (0.3 <? can_handle_task (kind neighbor) task)%float
                   then Returned (Some neighbor_name)
                   else first_able_neighbor rest task agents agent_loads
          end
      end
  end.

(** A neighbour that redistribution may pick: present in the council,
    with capacity left in [agent_loads], and scoring above the threshold
    on the task. *)
Definition able_neighbor (task : string) (agents : Agents)
    (agent_loads : gmap string AgentLoad) (neighbor_name : string) : bool :=
  match get agents neighbor_name, agent_loads !! neighbor_name with
  | Some neighbor, Some load =>
      (0 <? available_capacity load)%Z
      && (0.3 <? can_handle_task (kind neighbor) task)%float
  | _, _ => false
  end.

Definition _redistribute_to_neighbor (overloaded_agent task : string) (agents : Agents)
    (agent_loads : gmap string AgentLoad) : outcome PyError (option string) :=
  first_able_neighbor (neighbors_of neighbor_map overloaded_agent) task agents agent_loads.

Definition reserve (load : AgentLoad) : AgentLoad :=
  {| current_tasks := current_tasks load; max_tasks := max_tasks load;
     stress := stress load; available_capacity := available_capacity load - 1 |}.

(** The first pass of [optimize_distribution]: the assignments so far
    and the loads are threaded through the proposals. *)
Fixpoint distribute (proposals : list Proposal) (agents : Agents)
    (agent_loads : gmap string AgentLoad) (assignments : list Assignment)
  : outcome PyError (list Assignment * gmap string AgentLoad) :=
  match proposals with
  | [] => Returned (assignments, agent_loads)
  | proposal :: rest =>
      let preferred := assigned_to proposal in
      let task := task proposal in
      match agent_loads !! preferred with
      | None => Raised (KeyError preferred)
      | Some load =>
          if (0 <? available_capacity load)%Z then
            distribute rest agents (<[preferred := reserve load]> agent_loads)
              (assignments ++
                 [{| agent := preferred; assigned_task := task;
                     estimated_hours := Some (_estimate_hours task);
                     repo := Some (_determine_repo task);
                     redistributed_from := None; status := None; reason := None;
                     depends_on := None |}])
          else
            match _redistribute_to_neighbor preferred task agents agent_loads with
            | Raised e => Raised e
            | Returned (Some alternative) =>
                match agent_loads !! alternative with
                | None => Raised (KeyError alternative)
                | Some alternative_load =>
                    distribute rest agents
                      (<[alternative := reserve alternative_load]> agent_loads)
                      (assignments ++
                         [{| agent := alternative; assigned_task := task;
                             estimated_hours := Some (_estimate_hours task);
                             repo := Some (_determine_repo task);
                             redistributed_from := Some preferred; status := None;
                             reason := Some "preferred_agent_at_capacity";
                             depends_on := None |}])
                end
            | Returned None =>
                distribute rest agents agent_loads
                  (assignments ++
                     [{| agent := preferred; assigned_task := task;
                         estimated_hours := None; repo := None;
                         redistributed_from := None; status := Some "queued";
                         reason := Some "waiting_for_capacity"; depends_on := None |}])
            end
      end
  end.

Definition initial_loads (agents : Agents) : gmap string AgentLoad :=
  list_to_map
    (map (fun entry : string * Agent =>
            let b := BaseAgent.biometrics (base (snd entry)) in
            (fst entry,
             {| current_tasks := BaseAgent.concurrent_tasks b;
                max_tasks := BaseAgent.MAX_CONCURRENT_TASKS;
                stress := BaseAgent.stress_level b;
                available_capacity :=
                  BaseAgent.MAX_CONCURRENT_TASKS - BaseAgent.concurrent_tasks b |}))
         agents).

(** [sum(a.get("estimated_hours", 4) for a in assignments)]. *)
Definition sum_estimated_hours (assignments : list Assignment) : float :=
  fsum (map (fun a => default 4%float (estimated_hours a)) assignments).

Definition _calculate_timeline (assignments : list Assignment) (agents : Agents)
  : outcome PyError Timeline :=
  let total_hours := sum_estimated_hours assignments in
  let max_concurrent := Z.of_nat (length agents) in
  if (max_concurrent * 8 =? 0)%Z then Raised ZeroDivisionError
  else Returned
         {| total_hours := total_hours;
            estimated_days := fmax 1 (total_hours / float_of_Z (max_concurrent * 8))%float |}.

(** [optimize_distribution]: it reads the council and changes nothing
    in it. *)
Definition optimize_distribution (proposals : list Proposal) (agents : Agents)
  : outcome PyError OptimizedPlan :=
  and_then (distribute proposals agents (initial_loads agents) []) (fun done =>
  and_then (_calculate_timeline (fst done) agents) (fun timeline =>
  Returned
    {| assignments := fst done; timeline := timeline;
       redistributions :=
         length (filter (fun a => is_Some (redistributed_from a)) (fst done));
       load_balance := snd done |})).

(** [a.get("task_id", "")]: no assignment carries a task id. *)
Definition _find_backend_tasks (assignments : list Assignment) : list string :=
  map (fun _ => "")
      (filter (fun a => contains "backend" (lower (assigned_task a)) = true) assignments).

Definition _find_component_tasks (assignments : list Assignment) : list string :=
  map (fun _ => "")
      (filter (fun a => any_in ["component"; "service"; "api"] (lower (assigned_task a)) = true)
              assignments).

Definition set_depends_on (a : Assignment) (deps : list string) : Assignment :=
  {| agent := agent a; assigned_task := assigned_task a;
     estimated_hours := estimated_hours a; repo := repo a;
     redistributed_from := redistributed_from a; status := status a;
     reason := reason a; depends_on := Some deps |}.

(** [a.get("depends_on")] as a truth value. *)
Definition has_dependencies (a : Assignment) : bool :=
  match depends_on a with
  | Some (_ :: _) => true
  | _ => false
  end.

Definition _topological_sort (assignments : list Assignment) : list Assignment :=
  filter (fun a => has_dependencies a = false) assignments
  ++ filter (fun a => has_dependencies a = true) assignments.

Definition coordinate_dependencies (assignments : list Assignment) : list Assignment :=
  let annotate (a : Assignment) : Assignment :=
    let task := assigned_task a in
    let a :=
      if contains "bridge" (lower task) || contains "api" (lower task)
      then set_depends_on a (_find_backend_tasks assignments) else a in
    if contains "integration" (lower task)
    then set_depends_on a (_find_component_tasks assignments) else a in
  _topological_sort (map annotate assignments).

Inductive ExecutionResult :=
| Failed (assignment : Assignment) (missing_agent : string)
| Deployed (assignment : Assignment) (task_id : string) (agent_name : string)
| Queued (assignment : Assignment) (reason : string) (agent_name : string).

(** [f"council_{agent_name}_{datetime.utcnow().timestamp()}"], the
    clock reading rendered as its count of microseconds. *)
Definition council_task_id (agent_name : string) (now : BaseAgent.datetime) : string :=
  "council_" ++ agent_name ++ "_" ++ pretty now.

(** The loop of [execute_deployment]; [clock n] is the clock reading
    while the [n]-th assignment of the plan is handled. *)
Fixpoint deploy_assignments (plan : list Assignment) (agents : Agents)
    (clock : nat -> BaseAgent.datetime) (n : nat) : list ExecutionResult * Agents :=
  match plan with
  | [] => ([], agents)
  | assignment :: rest =>
      let agent_name := agent assignment in
      match get agents agent_name with
      | None =>
          let '(results, agents) := deploy_assignments rest agents clock (S n) in
          (Failed assignment agent_name :: results, agents)
      | Some target =>
          let task :=
            BaseAgent.new_task (council_task_id agent_name (clock n))
              (assigned_task assignment) (assigned_task assignment)
              (default "unknown" (repo assignment)) BaseAgent.HIGH
              (default 4%float (estimated_hours assignment)) in
          let '(assigned, b) := BaseAgent.assign_task (base target) task (clock n) in
          if assigned then
            let '(_, b) := BaseAgent.start_task b (BaseAgent.id task) (clock n) in
            let '(results, agents) :=
              deploy_assignments rest (put agents agent_name (set_base target b)) clock (S n) in
            (Deployed assignment (BaseAgent.id task) agent_name :: results, agents)
          else
            let '(results, agents) :=
              deploy_assignments rest (put agents agent_name (set_base target b)) clock (S n) in
            (Queued assignment "agent_at_capacity" agent_name :: results, agents)
      end
  end.

(** [execute_deployment]: a task is created, assigned and started for
    each assignment whose agent accepts it; then the meeting is marked
    deployed, which needs a meeting to have been opened. *)
Definition execute_deployment (authorized_plan : list Assignment) (agents : Agents)
    (clock : nat -> BaseAgent.datetime) : outcome PyError (list ExecutionResult) * Agents :=
  match chair_state agents with
  | Raised e => (Raised e, agents)
  | Returned _ =>
      let '(execution_results, agents) := deploy_assignments authorized_plan agents clock 0 in
      match chair_state agents with
      | Raised e => (Raised e, agents)
      | Returned (tess, None, _) => (Raised (TypeError "current_meeting"), agents)
      | Returned (tess, Some meeting, deliberation_history) =>
          (Returned execution_results,
           put agents "tess"
               {| base := base tess;
                  subclass :=
                    TessAgent (Some {| meeting_started_at := meeting_started_at meeting;
                                       meeting_briefing := meeting_briefing meeting;
                                       agents_present := agents_present meeting;
                                       meeting_phase := "deployed" |})
                              deliberation_history |})
      end
  end.

End TessAgent.

(** ** convening.py: the ceremony *)

Module Convening.
Import Py Agents Council.
Local Open Scope string_scope.

Inductive ConveningPhase :=
| IDLE
| RECEIVING_BRIEFING
| DELIBERATING
| PROPOSING
| AWAITING_AUTHORIZATION
| DEPLOYING
| COMPLETE.

(** [HexAgent.calculate_accrual_estimate]'s result; the total is
    reported rounded to two decimals. *)
Record NectarEstimate := mkNectarEstimate {
  by_agent : gmap string (Z * float);
  total_nectar : float
}.

(** [deliberation_record]: one of the two dicts [deliberate] stores. *)
Inductive DeliberationRecord :=
| Vetoed (by_agent_name : string) (reason : VetoDeclaration)
| Complete (assignments : list TessAgent.Assignment) (timeline : TessAgent.Timeline)
           (wellness_approved : bool) (nectar_estimate : NectarEstimate).

Record CouncilPlan := mkCouncilPlan {
  objective : string;
  plan_assignments : list TessAgent.Assignment;
  total_timeline : TessAgent.Timeline;
  total_diligence_accrual : NectarEstimate;
  wellness_validation : string;
  sovereign_boundary : string;
  council_version : string
}.

(** The proposal, a [dict] that [authorize] writes into; the constant
    risk assessment and the unset deadline are left out. *)
Record Proposal := mkProposal {
  proposal_status : string;
  proposal_timestamp : BaseAgent.datetime;
  council_plan : CouncilPlan;
  agent_status : list (string * BaseAgent.CapacityReport);
  awaiting_chief_architect_authorization : bool;
  authorized_by : option string;
  authorized_at : option BaseAgent.datetime;
  rejected_at : option BaseAgent.datetime
}.

Record CouncilConvening := mkCouncilConvening {
  agents : Agents;
  ledger : DiligenceLedger.Ledger;
  phase : ConveningPhase;
  current_briefing : option BaseAgent.Briefing;
  current_proposal : option Proposal;
  deliberation_record : option DeliberationRecord;
  meeting_start : option BaseAgent.datetime
}.

(** [CouncilConvening()]. *)
Definition init (now : BaseAgent.datetime) (on_disk : option DiligenceLedger.Document)
  : CouncilConvening :=
  {| agents := create_council now; ledger := DiligenceLedger.init on_disk;
     phase := IDLE; current_briefing := None; current_proposal := None;
     deliberation_record := None; meeting_start := None |}.

Definition set_phase (self : CouncilConvening) (p : ConveningPhase) : CouncilConvening :=
  {| agents := agents self; ledger := ledger self; phase := p;
     current_briefing := current_briefing self; current_proposal := current_proposal self;
     deliberation_record := deliberation_record self; meeting_start := meeting_start self |}.

Definition set_agents (self : CouncilConvening) (a : Agents) : CouncilConvening :=
  {| agents := a; ledger := ledger self; phase := phase self;
     current_briefing := current_briefing self; current_proposal := current_proposal self;
     deliberation_record := deliberation_record self; meeting_start := meeting_start self |}.

Definition set_deliberation_record (self : CouncilConvening) (r : DeliberationRecord)
  : CouncilConvening :=
  {| agents := agents self; ledger := ledger self; phase := phase self;
     current_briefing := current_briefing self; current_proposal := current_proposal self;
     deliberation_record := Some r; meeting_start := meeting_start self |}.

Definition set_current_proposal (self : CouncilConvening) (p : Proposal) : CouncilConvening :=
  {| agents := agents self; ledger := ledger self; phase := phase self;
     current_briefing := current_briefing self; current_proposal := Some p;
     deliberation_record := deliberation_record self; meeting_start := meeting_start self |}.

(** [not sofie_briefing]: the dict has no key at all. *)
Definition is_empty_briefing (b : BaseAgent.Briefing) : bool :=
  match BaseAgent.ecosystem_state b, BaseAgent.critical_path b,
        BaseAgent.protected_notice b, BaseAgent.other_entries b with
  | None, None, None, [] => true
  | _, _, _, _ => false
  end.

Definition with_default_notice (b : BaseAgent.Briefing) : BaseAgent.Briefing :=
  match BaseAgent.protected_notice b with
  | Some (String _ _) => b
  | _ =>
      {| BaseAgent.ecosystem_state := BaseAgent.ecosystem_state b;
         BaseAgent.critical_path := BaseAgent.critical_path b;
         BaseAgent.protected_notice :=
           Some "sofie-llama-backend is sovereign territory - council builds external interfaces only";
         BaseAgent.other_entries := BaseAgent.other_entries b |}
  end.

Inductive BriefingResult :=
| EmptyBriefingReceived
| Convened (agent_names : list string).

(** Phases 1 and 2. *)
Definition receive_briefing (self : CouncilConvening) (sofie_briefing : BaseAgent.Briefing)
    (now : BaseAgent.datetime) : outcome PyError BriefingResult * CouncilConvening :=
  let self :=
    {| agents := agents self; ledger := ledger self; phase := RECEIVING_BRIEFING;
       current_briefing := current_briefing self; current_proposal := current_proposal self;
       deliberation_record := deliberation_record self; meeting_start := Some now |} in
  if is_empty_briefing sofie_briefing then (Returned EmptyBriefingReceived, self)
  else
    let sofie_briefing := with_default_notice sofie_briefing in
    let self :=
      {| agents := agents self; ledger := ledger self; phase := phase self;
         current_briefing := Some sofie_briefing; current_proposal := current_proposal self;
         deliberation_record := deliberation_record self; meeting_start := meeting_start self |} in
    match TessAgent.convene_council (agents self) sofie_briefing now with
    | (Raised e, agents) => (Raised e, set_agents self agents)
    | (Returned convening_result, agents) =>
        (Returned (Convened (fst convening_result)), set_agents self agents)
    end.

Record WellnessCheck := mkWellnessCheck {
  approved : bool;
  concerns : list Concern
}.

Definition _validate_deliberation_wellness (self : CouncilConvening)
    (assignments : list TessAgent.Assignment) : WellnessCheck :=
  let overloaded :=
    omap (fun assignment =>
            let agent_name := TessAgent.agent assignment in
            match get (agents self) agent_name with
            | Some agent =>
                if negb (BaseAgent.can_accept_task (BaseAgent.biometrics (base agent)))
                then Some {| concern_type := "agent_overload";
                             concern_agent := Some agent_name;
                             concern_message := AlreadyAtCapacity agent_name;
                             concern_suggestion := None |}
                else None
            | None => None
            end)
         assignments in
  let total_hours := TessAgent.sum_estimated_hours assignments in
  let concerns :=
    if (40 <? total_hours)%float
    then (overloaded ++
          [{| concern_type := "heavy_workload"; concern_agent := None;
              concern_message := TotalWorkloadMayCauseStress total_hours;
              concern_suggestion := Some "Consider breaking into sprints" |}])%list
    else overloaded in
  {| approved := match concerns with [] => true | _ => false end;
     concerns := concerns |}.

(** [HexAgent.calculate_accrual_estimate] on the assignments of the
    plan.  It reads the keys [estimated_duration] and [description],
    which no assignment carries, so each one counts for zero hours and
    never as cross-repository work. *)
Definition calculate_accrual_estimate (assignments : list TessAgent.Assignment)
  : NectarEstimate :=
  fold_left
    (fun estimate assignment =>
       let agent := TessAgent.agent assignment in
       let hours := 0%Z in
       let estimated_nectar := (float_of_Z hours * 10.0)%float in
       let entry := default (0%Z, float_of_Z 0) (by_agent estimate !! agent) in
       {| by_agent :=
            <[agent := ((fst entry + hours)%Z, (snd entry + estimated_nectar)%float)]>
              (by_agent estimate);
          total_nectar := (total_nectar estimate + estimated_nectar)%float |})
    assignments
    {| by_agent := ∅; total_nectar := 0.0 |}.

Inductive DeliberateResult :=
| Blocked (veto : VetoDeclaration)
| Deliberated (assignments : nat) (timeline : TessAgent.Timeline)
              (nectar_estimate : NectarEstimate).

(** Phase 3.  The state is returned as the call leaves it, also when
    it raises. *)
Definition deliberate (self : CouncilConvening) (now : BaseAgent.datetime)
  : outcome PyError DeliberateResult * CouncilConvening :=
  let self := set_phase self DELIBERATING in
  match TessAgent.facilitate_deliberation (agents self) now with
  | (Raised e, agents) => (Raised e, set_agents self agents)
  | (Returned deliberation, agents) =>
      let self := set_agents self agents in
      match TessAgent.optimize_distribution (TessAgent.proposals deliberation) (Convening.agents self) with
      | Raised e => (Raised e, self)
      | Returned optimized =>
          let with_dependencies :=
            TessAgent.coordinate_dependencies (TessAgent.assignments optimized) in
          match get (Convening.agents self) "aura" with
          | None => (Raised (KeyError "aura"), self)
          | Some aura =>
              let wellness_check := _validate_deliberation_wellness self with_dependencies in
              if negb (approved wellness_check) then
                match veto_proposal aura (Some "Council Plan") (concerns wellness_check) now with
                | None => (Raised (AttributeError "veto_proposal"), self)
                | Some (veto, aura) =>
                    let self := set_agents self (put (Convening.agents self) "aura" aura) in
                    (Returned (Blocked veto),
                     set_deliberation_record self (Vetoed "aura" veto))
                end
              else
                match get (Convening.agents self) "hex" with
                | None => (Raised (KeyError "hex"), self)
                | Some hex_agent =>
                    match subclass hex_agent with
                    | HexAgent =>
                        let nectar_estimate := calculate_accrual_estimate with_dependencies in
                        (Returned (Deliberated (length with_dependencies)
                                               (TessAgent.timeline optimized) nectar_estimate),
                         set_deliberation_record self
                           (Complete with_dependencies (TessAgent.timeline optimized)
                                     true nectar_estimate))
                    | _ => (Raised (AttributeError "calculate_accrual_estimate"), self)
                    end
                end
          end
      end
  end.


(** [s.replace("_", " ")]. *)
Fixpoint underscores_to_spaces (s : string) : string :=
  match s with
  | EmptyString => EmptyString
  | String c s' => String (if Ascii.eqb c "_" then " "%char else c) (underscores_to_spaces s')
  end.

Definition is_upper (c : ascii) : bool :=
  let n := nat_of_ascii c in (65 <=? n)%nat && (n <=? 90)%nat.

Definition is_lower (c : ascii) : bool :=
  let n := nat_of_ascii c in (97 <=? n)%nat && (n <=? 122)%nat.

Definition upper_ascii (c : ascii) : ascii :=
  if is_lower c then ascii_of_nat (nat_of_ascii c - 32) else c.

(** [s.title()]: a letter after a non-letter is upper-cased, a letter
    after a letter lower-cased. *)
Fixpoint title_from (after_letter : bool) (s : string) : string :=
  match s with
  | EmptyString => EmptyString
  | String c s' =>
      String (if after_letter then lower_ascii c else upper_ascii c)
             (title_from (is_upper c || is_lower c) s')
  end.

Definition _extract_objective (self : CouncilConvening) : string :=
  match current_briefing self with
  | None => "Ecosystem Development"
  | Some briefing =>
      let stage :=
        match BaseAgent.ecosystem_state briefing with
        | Some state => default "development" (BaseAgent.build_stage state)
        | None => "development"
        end in
      "Ecosystem " ++ title_from false (underscores_to_spaces stage)
  end.

Inductive ProposalResult :=
| NoDeliberationRecord
| Proposed (proposal : Proposal).

(** Phase 4.  A vetoed deliberation record has no assignments to
    propose: reading them raises. *)
Definition generate_proposal (self : CouncilConvening) (now : BaseAgent.datetime)
  : outcome PyError ProposalResult * CouncilConvening :=
  let self := set_phase self PROPOSING in
  match deliberation_record self with
  | None => (Returned NoDeliberationRecord, self)
  | Some record =>
      match get (agents self) "tess" with
      | None => (Raised (KeyError "tess"), self)
      | Some _ =>
          match record with
          | Vetoed _ _ => (Raised (KeyError "assignments"), self)
          | Complete assignments timeline _ nectar_estimate =>
              let proposal :=
                {| proposal_status := "proposed";
                   proposal_timestamp := now;
                   council_plan :=
                     {| objective := _extract_objective self;
                        plan_assignments := assignments;
                        total_timeline := timeline;
                        total_diligence_accrual := nectar_estimate;
                        wellness_validation := "approved_by_aura";
                        sovereign_boundary := "strict - no sofie-llama-backend access required";
                        council_version := "1.0.0" |};
                   agent_status :=
                     map (fun entry : string * Agent =>
                            (fst entry, BaseAgent.report_capacity (base (snd entry))))
                         (agents self);
                   awaiting_chief_architect_authorization := true;
                   authorized_by := None;
                   authorized_at := None;
                   rejected_at := None |} in
              (Returned (Proposed proposal),
               set_phase (set_current_proposal self proposal) AWAITING_AUTHORIZATION)
          end
      end
  end.

Inductive AuthorizationResult :=
| NoProposalToAuthorize
| Authorized (plan : CouncilPlan)
| Rejected.

(** Phase 5. *)
Definition authorize (self : CouncilConvening) (proposal_id : string) (authorized : bool)
    (now : BaseAgent.datetime) : AuthorizationResult * CouncilConvening :=
  match current_proposal self with
  | None => (NoProposalToAuthorize, self)
  | Some proposal =>
      if authorized then
        (Authorized (council_plan proposal),
         set_current_proposal self
           {| proposal_status := proposal_status proposal;
              proposal_timestamp := proposal_timestamp proposal;
              council_plan := council_plan proposal;
              agent_status := agent_status proposal;
              awaiting_chief_architect_authorization := false;
              authorized_by := Some "chief_architect";
              authorized_at := Some now;
              rejected_at := rejected_at proposal |})
      else
        (Rejected,
         set_phase
           (set_current_proposal self
              {| proposal_status := proposal_status proposal;
                 proposal_timestamp := proposal_timestamp proposal;
                 council_plan := council_plan proposal;
                 agent_status := agent_status proposal;
                 awaiting_chief_architect_authorization :=
                   awaiting_chief_architect_authorization proposal;
                 authorized_by := authorized_by proposal;
                 authorized_at := authorized_at proposal;
                 rejected_at := Some now |})
           IDLE)
  end.

Inductive DeployResult :=
| NoAuthorizedProposal
| DeploymentDone (results : list TessAgent.ExecutionResult).

(** [proposal.get("authorized_by")] as a truth value. *)
Definition is_authorized (proposal : Proposal) : bool :=
  match authorized_by proposal with
  | Some (String _ _) => true
  | _ => false
  end.

(** Phase 6. *)
Definition deploy (self : CouncilConvening) (clock : nat -> BaseAgent.datetime)
  : outcome PyError DeployResult * CouncilConvening :=
  let self := set_phase self DEPLOYING in
  match current_proposal self with
  | None => (Returned NoAuthorizedProposal, self)
  | Some proposal =>
      if negb (is_authorized proposal) then (Returned NoAuthorizedProposal, self)
      else
        match TessAgent.execute_deployment (plan_assignments (council_plan proposal))
                (agents self) clock with
        | (Raised e, agents) => (Raised e, set_agents self agents)
        | (Returned results, agents) =>
            (Returned (DeploymentDone results), set_phase (set_agents self agents) COMPLETE)
        end
  end.

(** How a deployment result reads in a status report. *)
Definition result_summary (r : TessAgent.ExecutionResult) : string * string :=
  match r with
  | TessAgent.Failed _ agent_name => ("failed", agent_name)
  | TessAgent.Deployed _ _ agent_name => ("deployed", agent_name)
  | TessAgent.Queued _ _ agent_name => ("queued", agent_name)
  end.

End Convening.

(** ** github_client.py *)

Module GitHubClient.
Import Py ProtectedRepos.
Local Open Scope string_scope.

Record CouncilGitHubClient := mkCouncilGitHubClient {
  github_token : option string;
  workspace : string;
  owner : string
}.

(** What an operation returns when it goes through; the path of a clone
    and the address of a pull request are renderings of the workspace,
    the owner and the repository name. *)
Inductive Receipt :=
| Cloned (repo branch : string)
| BranchCreated (repo branch base : string)
| Committed (repo branch commit_message : string) (files_changed : nat)
| PrSubmitted (repo branch title : string) (reviewers : list string).

Definition clone_repo (self : CouncilGitHubClient) (repo_name branch : string)
  : outcome SovereignTerritoryError Receipt :=
  if is_sovereign_territory repo_name
  then Raised (mkSovereignTerritoryError repo_name "clone")
  else Returned (Cloned repo_name branch).

Definition create_branch (self : CouncilGitHubClient) (repo_name branch_name base : string)
  : outcome SovereignTerritoryError Receipt :=
  if is_sovereign_territory repo_name
  then Raised (mkSovereignTerritoryError repo_name "create_branch")
  else Returned (BranchCreated repo_name branch_name base).

Definition commit_changes (self : CouncilGitHubClient) (repo_name branch message : string)
    (files : list string) : outcome SovereignTerritoryError Receipt :=
  if is_sovereign_territory repo_name
  then Raised (mkSovereignTerritoryError repo_name "commit")
  else Returned (Committed repo_name branch message (length files)).

(** [reviewers or default_reviewers]: no list, or an empty one, gives
    the default. *)
Definition submit_pr (self : CouncilGitHubClient) (repo_name branch title description : string)
    (reviewers : option (list string)) : outcome SovereignTerritoryError Receipt :=
  if is_sovereign_territory repo_name
  then Raised (mkSovereignTerritoryError repo_name "submit_pr")
  else
    let default_reviewers := ["aura"; "tess"] in
    let reviewers :=
      match reviewers with
      | Some (r :: rs) => r :: rs
      | _ => default_reviewers
      end in
    Returned (PrSubmitted repo_name branch title reviewers).

Record RepoStatus := mkRepoStatus {
  status_repo : string;
  status : string;
  accessible : bool;
  in_workspace : option bool
}.

(** [get_repo_status]; [on_disk] tells whether the repository is found
    in the workspace directory. *)
Definition get_repo_status (self : CouncilGitHubClient) (repo_name : string) (on_disk : bool)
  : RepoStatus :=
  if is_sovereign_territory repo_name
  then {| status_repo := repo_name; status := "SOVEREIGN_TERRITORY";
          accessible := false; in_workspace := None |}
  else {| status_repo := repo_name; status := "accessible";
          accessible := true; in_workspace := Some on_disk |}.

Definition list_permitted_repos (self : CouncilGitHubClient) : list string :=
  PERMITTED_ECOSYSTEM_REPOS.

Definition get_protected_list (self : CouncilGitHubClient) : list string :=
  SOVEREIGN_TERRITORY.

Record WorkPlanValidation := mkWorkPlanValidation {
  valid : bool;
  permitted : list string;
  violations : list string;
  can_proceed : bool
}.

(** The loop of [validate_work_plan]: each repository goes to the end
    of one of the two lists. *)
Fixpoint sort_repos (repos violations permitted : list string) : list string * list string :=
  match repos with
  | [] => (violations, permitted)
  | repo :: rest =>
      if is_sovereign_territory repo
      then sort_repos rest (violations ++ [repo]) permitted
      else sort_repos rest violations (permitted ++ [repo])
  end.

Definition validate_work_plan (self : CouncilGitHubClient) (repos : list string)
  : WorkPlanValidation :=
  let '(violations, permitted) := sort_repos repos [] [] in
  {| valid := (length violations =? 0)%nat;
     permitted := permitted;
     violations := violations;
     can_proceed := (length violations =? 0)%nat |}.

End GitHubClient.

(** ** convening.py: the daily report and the record of a completion *)

Module Reports.
Import Py Council Convening.
Local Open Scope string_scope.

Record StandupReport := mkStandupReport {
  report_agent : string;
  report_status : BaseAgent.AgentStatus;
  report_current_task : option string;
  tasks_completed_today : Z;
  report_biometrics : BaseAgent.AgentBiometrics;
  report_nectar_accrued : float
}.

(** The count [daily_standup] takes over one history.  A task without
    [completed_at] is passed over; on one that has it the program asks
    the [datetime] for [startswith], which a [datetime] does not have. *)
Fixpoint completed_today (history : list BaseAgent.Task) : outcome PyError Z :=
  match history with
  | [] => Returned 0%Z
  | t :: rest =>
      match BaseAgent.completed_at t with
      | Some _ => Raised (AttributeError "startswith")
      | None => completed_today rest
      end
  end.

(** The loop of [daily_standup] over the council. *)
Fixpoint standup_reports (agents : Agents) : outcome PyError (list StandupReport) :=
  match agents with
  | [] => Returned []
  | (name, agent) :: rest =>
      and_then (completed_today (BaseAgent.task_history (base agent))) (fun count =>
      and_then (standup_reports rest) (fun reports =>
      Returned
        ({| report_agent := name;
            report_status := BaseAgent.current_status (BaseAgent.biometrics (base agent));
            report_current_task := BaseAgent.title <$> BaseAgent.current_task (base agent);
            tasks_completed_today := count;
            report_biometrics := BaseAgent.biometrics (base agent);
            report_nectar_accrued := BaseAgent.total_nectar_accrued (base agent) |}
         :: reports)))
  end.

Definition _assess_council_health (self : CouncilConvening) : string :=
  let stressed_agents :=
    filter (fun entry : string * Agent =>
              (0.6 <? BaseAgent.stress_level (BaseAgent.biometrics (base (snd entry))))%float
              = true)
           (agents self) in
  if (3 <? length stressed_agents)%nat then "critical - multiple agents stressed"
  else match stressed_agents with
       | _ :: _ => "caution - some agents need rest"
       | [] => "healthy - all agents operational"
       end.

Definition _identify_blockers (self : CouncilConvening) : list string :=
  map (fun entry : string * Agent => fst entry ++ " in recovery")
      (filter (fun entry : string * Agent =>
                 match BaseAgent.current_status (BaseAgent.biometrics (base (snd entry))) with
                 | BaseAgent.RECOVERY => true
                 | _ => false
                 end = true)
              (agents self)).

Record Standup := mkStandup {
  standup_timestamp : BaseAgent.datetime;
  reports : list StandupReport;
  council_health : string;
  blockers : list string
}.

(** [daily_standup]: the reports are built first, then the health and
    the blockers are read. *)
Definition daily_standup (self : CouncilConvening) (now : BaseAgent.datetime)
  : outcome PyError Standup :=
  and_then (standup_reports (agents self)) (fun reports =>
  Returned {| standup_timestamp := now; reports := reports;
              council_health := _assess_council_health self;
              blockers := _identify_blockers self |}).

Inductive CompletionRecord :=
| UnknownAgent (agent_name : string)
| TaskNotFound (task_id : string)
| Recorded (task_id agent_name : string) (nectar_accrued total_accrued : float).

(** [record_task_completion]: the agent completes the task, then the
    ledger records it with the hours and the quality the caller gives.
    [now] is the clock reading when the agent completes the task,
    [later] the one when the ledger stamps its record; [rendering] is
    [str(task)], which the ledger reads only from a task without
    attributes.  The task handed to the ledger is the object the agent
    has just completed. *)
Definition record_task_completion (self : CouncilConvening) (agent_name task_id : string)
    (hours_worked quality_score : float) (rendering : string)
    (now later : BaseAgent.datetime) : CompletionRecord * CouncilConvening :=
  match get (agents self) agent_name with
  | None => (UnknownAgent agent_name, self)
  | Some agent =>
      match BaseAgent.tasks (base agent) !! task_id with
      | None => (TaskNotFound task_id, self)
      | Some task =>
          let completed := (BaseAgent.complete_task (base agent) task_id [] quality_score now).2 in
          let task := default task (BaseAgent.tasks completed !! task_id) in
          let '(accrual, ledger) :=
            DiligenceLedger.record_completion (ledger self) agent_name
              (DiligenceLedger.of_task rendering task) hours_worked quality_score
              false false false false later in
          (Recorded task_id agent_name (DiligenceLedger.acc_nectar_accrued accrual)
                    (DiligenceLedger.acc_total_accrued accrual),
           {| agents := put (agents self) agent_name (set_base agent completed);
              ledger := ledger; phase := phase self;
              current_briefing := current_briefing self;
              current_proposal := current_proposal self;
              deliberation_record := deliberation_record self;
              meeting_start := meeting_start self |})
      end
  end.

End Reports.

(** ** agents/aura.py: reviews *)

Module AuraReview.
Import Py.
Local Open Scope string_scope.

Inductive VetoReason :=
| DARK_PATTERN
| ADDICTIVE_MECHANISM
| STRESS_INDUCING
| ACCESSIBILITY_VIOLATION
| HIGH_COGNITIVE_LOAD
| BIOMETRIC_IMPACT
| PRIVACY_RISK.

(** The anti-patterns, in the order the dict lists them. *)
Definition VETO_PATTERNS : list (VetoReason * list string) :=
  [(DARK_PATTERN,
    ["dark pattern"; "deceptive"; "tricky"; "roach motel";
     "forced continuity"; "hidden opt"; "preselected"]);
   (ADDICTIVE_MECHANISM,
    ["infinite scroll"; "pull to refresh"; "variable reward";
     "hook model"; "sticky"; "engagement loop"; "dopamine"]);
   (STRESS_INDUCING,
    ["urgent"; "hurry"; "limited time"; "countdown"; "fomo";
     "fear of missing"; "only X left"; "others viewing"]);
   (HIGH_COGNITIVE_LOAD,
    ["complex form"; "many steps"; "confusing"; "overwhelming"])].

Definition wellness_indicators : list string :=
  ["calm"; "mindful"; "intentional"; "wellness"; "accessible";
   "gentle"; "respectful"; "privacy"; "secure"].

(** An issue of a review; its message is a rendering of the type and
    the pattern. *)
Record Issue := mkIssue {
  issue_type : VetoReason;
  issue_pattern : string;
  issue_severity : string
}.

(** The keys of a proposal that a review reads. *)
Record ProposalDict := mkProposalDict {
  title : option string;
  description : option string
}.

(** The result of a review; the warnings and the suggestions are always
    empty, and the score is reported rounded. *)
Record ReviewResult := mkReviewResult {
  reviewed_proposal : option string;
  wellness_score : float;
  issues : list Issue;
  positive_indicators : Z;
  approved : bool;
  veto_issued : bool
}.

Record VetoDeclaration := mkVetoDeclaration {
  vetoed_proposal : option string;
  veto_timestamp : BaseAgent.datetime;
  reasons : list Issue
}.

Record Approval := mkApproval {
  approved_proposal : option string;
  approval_timestamp : BaseAgent.datetime;
  approval_score : float
}.

(** What Aura keeps of her reviews. *)
Record AuraAgent := mkAuraAgent {
  vetoes_issued : list VetoDeclaration;
  approvals_issued : list Approval
}.

(** The two nested loops over the anti-patterns. *)
Definition find_issues (description : string) : list Issue :=
  concat
    (map (fun entry : VetoReason * list string =>
            map (fun pattern =>
                   {| issue_type := fst entry; issue_pattern := pattern;
                      issue_severity := "critical" |})
                (filter (fun pattern => contains pattern description = true) (snd entry)))
         VETO_PATTERNS).

Definition veto_proposal (self : AuraAgent) (proposal : ProposalDict) (reasons : list Issue)
    (now : BaseAgent.datetime) : VetoDeclaration * AuraAgent :=
  let veto_declaration :=
    {| vetoed_proposal := title proposal; veto_timestamp := now; reasons := reasons |} in
  (veto_declaration,
   {| vetoes_issued := vetoes_issued self ++ [veto_declaration];
      approvals_issued := approvals_issued self |}).

Definition review_proposal (self : AuraAgent) (proposal : ProposalDict)
    (now : BaseAgent.datetime) : ReviewResult * AuraAgent :=
  let description := lower (default "" (description proposal)) in
  let issues := find_issues description in
  let warnings : list Issue := [] in
  let positive_count := count_in wellness_indicators description in
  let base_score := 10.0%float in
  let base_score := (base_score - float_of_Z (Z.of_nat (length issues) * 3))%float in
  let base_score := (base_score - float_of_Z (Z.of_nat (length warnings) * 1))%float in
  let base_score := (base_score + float_of_Z positive_count * 0.5)%float in
  let wellness_score := fmax 0 (fmin 10 base_score) in
  let approved := (Z.of_nat (length issues) =? 0)%Z && (6.0 <=? wellness_score)%float in
  let veto_issued := negb approved && (0 <? Z.of_nat (length issues))%Z in
  let review_result :=
    {| reviewed_proposal := title proposal; wellness_score := wellness_score;
       issues := issues; positive_indicators := positive_count;
       approved := approved; veto_issued := veto_issued |} in
  (review_result,
   if veto_issued then snd (veto_proposal self proposal issues now)
   else {| vetoes_issued := vetoes_issued self;
           approvals_issued :=
             approvals_issued self
             ++ [{| approved_proposal := title proposal; approval_timestamp := now;
                    approval_score := wellness_score |}] |}).

(** [AuraAgent.execute_task]: the task is reviewed as a proposal. *)
Definition execute_task (self : AuraAgent) (task : BaseAgent.Task) (now : BaseAgent.datetime)
  : ReviewResult * AuraAgent :=
  review_proposal self
    {| title := Some (BaseAgent.title task);
       description := Some (BaseAgent.description task) |}
    now.

(** A concern of [validate_agent_wellness], with the level it quotes. *)
Inductive WellnessConcern :=
| HighStressLevel (level : float)
| MaxHoursExceeded (hours : float)
| BreakOverdue.

Record WellnessAssessment := mkWellnessAssessment {
  assessed_agent : string;
  fit_for_duty : bool;
  wellness_concerns : list WellnessConcern;
  assessed_biometrics : BaseAgent.AgentBiometrics
}.

(** [validate_agent_wellness]; each concern comes with one
    recommendation, a sentence that names the agent. *)
Definition validate_agent_wellness (agent : BaseAgent.BaseAgent) (now : BaseAgent.datetime)
  : WellnessAssessment :=
  let biometrics := BaseAgent.biometrics agent in
  let concerns :=
    ((if (0.7 <? BaseAgent.stress_level biometrics)%float
      then [HighStressLevel (BaseAgent.stress_level biometrics)] else [])
     ++ (if (8 <? BaseAgent.hours_worked_today biometrics)%float
         then [MaxHoursExceeded (BaseAgent.hours_worked_today biometrics)] else [])
     ++ (if BaseAgent.needs_break biometrics now then [BreakOverdue] else []))%list in
  {| assessed_agent := BaseAgent.name agent;
     fit_for_duty := match concerns with [] => true | _ => false end;
     wellness_concerns := concerns;
     assessed_biometrics := biometrics |}.

End AuraReview.

(** ** Reading a plan of the chair *)

Module Plan.
Import Council TessAgent.

(** The slots of [name] that a plan takes: its assignments that are not
    queued. *)
Definition booked (name : string) (plan : list Assignment) : Z :=
  Z.of_nat (length (filter (fun a => agent a = name /\ status a = None) plan)).

(** The loads have an entry for the agents of the council and for
    nobody else. *)
Definition loads_match (agents : Agents) (agent_loads : gmap string AgentLoad) : Prop :=
  forall name, is_Some (agent_loads !! name) <-> name ∈ keys agents.

End Plan.

(** ** Two ceremonies, used as concrete runs *)

Module Scenarios.
Import Py Council Convening.
Local Open Scope string_scope.
Local Open Scope Z_scope.

Definition briefing_of (critical_path : list string) : BaseAgent.Briefing :=
  {| BaseAgent.ecosystem_state :=
       Some {| BaseAgent.build_stage := Some "early_build";
               BaseAgent.active_repos := Some ["pollen"; "hive-api"] |};
     BaseAgent.critical_path := Some critical_path;
     BaseAgent.protected_notice := Some "sofie-llama-backend is sovereign territory";
     BaseAgent.other_entries := [("command", "convene")] |}.

(** A council created at time 0 that received a briefing at time 1. *)
Definition convened (critical_path : list string) : CouncilConvening :=
  (receive_briefing (init 0 None) (briefing_of critical_path) 1).2.

(** Two routine tasks, deliberated at time 2 and proposed at time 3. *)
Definition proposed : CouncilConvening :=
  (generate_proposal (deliberate (convened ["build backend API"; "design UI component"]) 2).2 3).2.


Definition clock (n : nat) : BaseAgent.datetime := 10 + Z.of_nat n.

End Scenarios.

(** ** More concrete inputs *)

Module Examples.
Import Py Council.
Local Open Scope string_scope.
Local Open Scope Z_scope.

(** A fresh agent that accepted the task "t1" at time 1. *)
Definition busy_agent : BaseAgent.BaseAgent :=
  (BaseAgent.assign_task
     (BaseAgent.init "veda" "Backend Architecture & Complex Systems" [] 0 0)
     (BaseAgent.new_task "t1" "Build the API" "build backend API" "terracare-bridge"
                         BaseAgent.HIGH 8)
     1).2.


End Examples.

(** * Facts about the embedding *)

(** ** Strings and glob patterns *)

Section StringFacts.
Import Py.
Local Open Scope string_scope.

Lemma append_nil (s : string) : "" ++ s = s.
Proof. reflexivity. Qed.

Lemma append_cons (c : ascii) (s t : string) : String c s ++ t = String c (s ++ t).
Proof. reflexivity. Qed.

Lemma append_nil_r (s : string) : s ++ "" = s.
Proof. induction s as [|c s IH]; [done|]. by rewrite append_cons, IH. Qed.

Lemma prefix_app (p rest : string) : String.prefix p (p ++ rest) = true.
Proof.
  induction p as [|c p IH].
  - rewrite append_nil. by destruct rest.
  - rewrite append_cons. simpl.
    destruct (ascii_dec c c) as [_|Hne]; [exact IH | by destruct Hne].
Qed.

Lemma prefix_inv (p s : string) :
  String.prefix p s = true -> exists rest, s = p ++ rest.
Proof.
  revert s. induction p as [|c p IH]; intros s H.
  - by exists s.
  - destruct s as [|d s]; simpl in H; [done|].
    destruct (ascii_dec c d) as [->|_]; [|done].
    destruct (IH s H) as [rest ->]. by exists rest.
Qed.

Lemma contains_prefix (needle hay : string) :
  String.prefix needle hay = true -> contains needle hay = true.
Proof. intros H. destruct hay; cbn [contains]; by rewrite H. Qed.

Lemma contains_app (needle before after : string) :
  contains needle (before ++ needle ++ after) = true.
Proof.
  induction before as [|c before IH].
  - rewrite append_nil. apply contains_prefix, prefix_app.
  - rewrite append_cons. cbn [contains]. rewrite IH. apply orb_true_r.
Qed.

Lemma contains_inv (needle hay : string) :
  contains needle hay = true -> exists before after, hay = before ++ needle ++ after.
Proof.
  induction hay as [|c hay IH]; cbn [contains]; intros H.
  - rewrite orb_false_r in H. destruct (prefix_inv _ _ H) as [rest ->].
    by exists "", rest.
  - apply orb_true_iff in H as [H|H].
    + destruct (prefix_inv _ _ H) as [rest ->]. by exists "", rest.
    + destruct (IH H) as (before & after & ->). by exists (String c before), after.
Qed.

(** A one-character needle is found exactly when that character occurs. *)
Lemma contains_char_cons (sep c : ascii) (s : string) :
  contains (String sep "") (String c s) = Ascii.eqb c sep || contains (String sep "") s.
Proof.
  simpl. destruct (ascii_dec sep c) as [->|Hne].
  - rewrite Ascii.eqb_refl. by destruct s.
  - destruct (Ascii.eqb_spec c sep) as [->|_]; [by destruct Hne|]. done.
Qed.

Lemma split_nonempty (sep : ascii) (s : string) : split sep s <> [].
Proof.
  induction s as [|c s IH]; simpl; [done|].
  destruct (Ascii.eqb c sep); [done|]. by destruct (split sep s).
Qed.

Lemma split_no_separator (sep : ascii) (s : string) :
  contains (String sep "") s = false -> split sep s = [s].
Proof.
  induction s as [|c s IH]; [done|].
  rewrite contains_char_cons. intros H. apply orb_false_iff in H as [Hc Hs].
  simpl. rewrite Hc, (IH Hs). done.
Qed.

Lemma last_item_cons (x : string) (xs : list string) :
  xs <> [] -> last_item (x :: xs) = last_item xs.
Proof. by destruct xs. Qed.

Lemma last_item_split_app (sep : ascii) (owner name : string) :
  last_item (split sep (owner ++ String sep name)) = last_item (split sep name).
Proof.
  induction owner as [|c owner IH].
  - rewrite append_nil. simpl. rewrite Ascii.eqb_refl. apply last_item_cons, split_nonempty.
  - rewrite append_cons. simpl. destruct (Ascii.eqb c sep).
    + rewrite last_item_cons; [exact IH | apply split_nonempty].
    + destruct (split sep (owner ++ String sep name)) as [|seg segs] eqn:E.
      { by destruct (split_nonempty sep (owner ++ String sep name)). }
      destruct segs as [|seg' segs]; [|exact IH].
      (* one segment only: impossible, the separator starts a second one *)
      exfalso. clear IH. revert seg E.
      induction owner as [|d owner IH]; intros seg E;
        [rewrite append_nil in E | rewrite append_cons in E]; simpl in E.
      * rewrite Ascii.eqb_refl in E. injection E as _ E.
        by destruct (split_nonempty sep name).
      * destruct (Ascii.eqb d sep).
        -- injection E as _ E. by destruct (split_nonempty sep (owner ++ String sep name)).
        -- destruct (split sep (owner ++ String sep name)) as [|s1 [|s2 segs]] eqn:E'.
           ++ by destruct (split_nonempty sep (owner ++ String sep name)).
           ++ by eapply IH.
           ++ done.
Qed.

(** The matcher agrees with the meaning of glob patterns. *)
Lemma fnmatch_from_star (pat : string) (name : string) :
  fnmatch_from (String "*" pat) name =
  fnmatch_from pat name ||
  match name with EmptyString => false | String _ name' => fnmatch_from (String "*" pat) name' end.
Proof. by destruct name. Qed.

Lemma fnmatch_from_one (pat : string) (name : string) :
  fnmatch_from (String "?" pat) name =
  match name with EmptyString => false | String _ name' => fnmatch_from pat name' end.
Proof. done. Qed.

Lemma fnmatch_from_lit (p : ascii) (pat : string) (name : string) :
  p <> "*"%char -> p <> "?"%char ->
  fnmatch_from (String p pat) name =
  match name with
  | EmptyString => false
  | String c name' => Ascii.eqb c p && fnmatch_from pat name'
  end.
Proof.
  intros H1 H2. simpl.
  destruct (Ascii.eqb_spec p "*"); [done|].
  destruct (Ascii.eqb_spec p "?"); [done|]. done.
Qed.

Lemma fnmatch_from_glob (pat name : string) :
  fnmatch_from pat name = true <-> glob pat name.
Proof.
  split.
  - revert name. induction pat as [|p pat IH]; intros name H.
    + destruct name; [constructor | done].
    + destruct (ascii_dec p "*") as [->|Hstar].
      * induction name as [|c name IHn].
        -- rewrite fnmatch_from_star, orb_false_r in H.
           apply (glob_star pat "" ""), IH, H.
        -- rewrite fnmatch_from_star in H. apply orb_true_iff in H as [H|H].
           ++ apply (glob_star pat "" (String c name)), IH, H.
           ++ specialize (IHn H). inversion IHn as [|pat' skipped rest Hrest| |]; subst.
              ** apply (glob_star pat (String c skipped) rest Hrest).
              ** done.
      * destruct (ascii_dec p "?") as [->|Hone].
        -- rewrite fnmatch_from_one in H. destruct name as [|c name]; [done|].
           constructor. by apply IH.
        -- rewrite fnmatch_from_lit in H by done. destruct name as [|c name]; [done|].
           apply andb_true_iff in H as [Hc H].
           apply Ascii.eqb_eq in Hc as ->. constructor; [done..|]. by apply IH.
  - induction 1 as [|pat skipped rest _ IH|pat c rest _ IH|pat c rest H1 H2 _ IH].
    + done.
    + induction skipped as [|c skipped IHs].
      * rewrite append_nil, fnmatch_from_star, IH. done.
      * rewrite append_cons, fnmatch_from_star, IHs. apply orb_true_r.
    + by rewrite fnmatch_from_one.
    + rewrite fnmatch_from_lit by done. by rewrite Ascii.eqb_refl, IH.
Qed.

End StringFacts.

Section ProtectedReposFacts.
Import Py ProtectedRepos.
Local Open Scope string_scope.

Lemma mem_elem_of (x : string) (xs : list string) : mem x xs = true <-> x ∈ xs.
Proof.
  unfold mem. rewrite existsb_exists. split.
  - intros (y & Hy & E). apply String.eqb_eq in E as ->. by apply list_elem_of_In.
  - intros H. exists x. split; [by apply list_elem_of_In | apply String.eqb_refl].
Qed.

Lemma bare_name_without_slash (name : string) :
  contains "/" name = false -> bare_name name = name.
Proof. intros H. unfold bare_name. by rewrite H. Qed.

Lemma bare_name_owner_prefix (owner name : string) :
  contains "/" name = false -> bare_name (owner ++ "/" ++ name) = name.
Proof.
  intros H. unfold bare_name. rewrite contains_app.
  change ("/" ++ name) with (String "/" name).
  rewrite last_item_split_app, split_no_separator; done.
Qed.

Lemma is_sovereign_territory_iff (repo_name : string) :
  is_sovereign_territory repo_name = true <->
  bare_name repo_name ∈ SOVEREIGN_TERRITORY \/
  exists pattern, pattern ∈ PROTECTED_PATTERNS /\ glob pattern (bare_name repo_name).
Proof.
  unfold is_sovereign_territory.
  destruct (mem (bare_name repo_name) SOVEREIGN_TERRITORY) eqn:Hmem.
  - split; [|done]. intros _. left. by apply mem_elem_of.
  - rewrite existsb_exists. split.
    + intros (pattern & Hin & Hmatch). right. exists pattern. split.
      * by apply list_elem_of_In.
      * by apply fnmatch_from_glob.
    + intros [Hin|(pattern & Hin & Hglob)].
      * apply mem_elem_of in Hin. congruence.
      * exists pattern. split; [by apply list_elem_of_In | by apply fnmatch_from_glob].
Qed.

(** C1.  [is_sovereign_territory] works on the bare name, the text
    left once an owner prefix is stripped, and answers true exactly when
    that bare name is one of the protected names or matches one of the
    protected glob patterns; the three names of the specification
    evaluate as it says. *)
Theorem is_sovereign_territory_spec :
  (forall owner name : string,
      contains "/" name = false -> bare_name (owner ++ "/" ++ name) = name) /\
  (forall name : string, contains "/" name = false -> bare_name name = name) /\
  (forall repo_name : string,
      is_sovereign_territory repo_name = true <->
      bare_name repo_name ∈ SOVEREIGN_TERRITORY \/
      exists pattern, pattern ∈ PROTECTED_PATTERNS /\ glob pattern (bare_name repo_name)) /\
  is_sovereign_territory "sofie-llama-backend" = true /\
  is_sovereign_territory "owner/sofie-llama-backend" = true /\
  is_sovereign_territory "pollen" = false.
Proof.
  split; [exact bare_name_owner_prefix|].
  split; [exact bare_name_without_slash|].
  split; [exact is_sovereign_territory_iff|].
  repeat split; reflexivity.
Qed.

(** C2.  [validate_repo_access] raises exactly when the repository is
    sovereign territory, the error carries the name and the action it
    was called with, and it returns normally otherwise; nothing
    sequenced after a refused check runs, as for the clone of
    sofie-backend. *)
Theorem validate_repo_access_spec (repo_name attempted_action : string) :
  (validate_repo_access repo_name attempted_action
     = Raised (mkSovereignTerritoryError repo_name attempted_action)
   <-> is_sovereign_territory repo_name = true) /\
  ((exists e, validate_repo_access repo_name attempted_action = Raised e)
   <-> is_sovereign_territory repo_name = true) /\
  (validate_repo_access repo_name attempted_action = Returned ()
   <-> is_sovereign_territory repo_name = false) /\
  (forall (B : Type) (operation : unit -> outcome SovereignTerritoryError B),
      and_then (validate_repo_access repo_name attempted_action) operation =
      if is_sovereign_territory repo_name
      then Raised (mkSovereignTerritoryError repo_name attempted_action)
      else operation ()) /\
  (forall (B : Type) (operation : unit -> outcome SovereignTerritoryError B),
      and_then (validate_repo_access "sofie-backend" "clone") operation =
      Raised (mkSovereignTerritoryError "sofie-backend" "clone")).
Proof.
  unfold validate_repo_access.
  repeat split; try done;
    destruct (is_sovereign_territory repo_name); try done.
  - by intros [e ?].
  - intros _. by eexists.
Qed.

Lemma contains_sofie_is_sovereign (repo_name : string) :
  contains "sofie" (bare_name repo_name) = true ->
  is_sovereign_territory repo_name = true.
Proof.
  intros H. apply is_sovereign_territory_iff. right.
  exists "*sofie*". split; [set_solver|].
  destruct (contains_inv _ _ H) as (before & after & ->).
  apply glob_star.
  do 5 (rewrite append_cons; apply glob_lit; [done..|]).
  rewrite append_nil, <- (append_nil_r after). apply glob_star, glob_end.
Qed.

(** C10.  Any name whose bare name contains "sofie" is sovereign
    territory; so "sofie-dashboard", although listed among the permitted
    ecosystem repositories and returned as a build target, is sovereign
    territory and [get_permitted_repos] removes it. *)
Theorem sofie_substring_is_sovereign :
  (forall repo_name : string,
      contains "sofie" (bare_name repo_name) = true ->
      is_sovereign_territory repo_name = true) /\
  "sofie-dashboard" ∈ PERMITTED_ECOSYSTEM_REPOS /\
  "sofie-dashboard" ∈ get_ecosystem_build_targets /\
  is_sovereign_territory "sofie-dashboard" = true /\
  get_permitted_repos PERMITTED_ECOSYSTEM_REPOS =
    ["pollen"; "sandironratio-node"; "terracare-ledger"; "terracare-bridge";
     "hive-api"; "heartware"; "harmonic-balance"; "terratrek";
     "nectar-tracker"; "wellness-bridge"] /\
  "sofie-dashboard" ∉ get_permitted_repos get_ecosystem_build_targets.
Proof.
  split; [exact contains_sofie_is_sovereign|].
  split; [set_solver|]. split; [set_solver|].
  split; [reflexivity|]. split; [reflexivity|].
  apply (bool_decide_unpack _). vm_compute. exact I.
Qed.

Lemma sofie_substring_is_sovereign_witness :
  contains "sofie" (bare_name "DudeAdrian/my-sofie-fork") = true /\
  is_sovereign_territory "DudeAdrian/my-sofie-fork" = true.
Proof.
  split; [reflexivity|].
  apply (proj1 sofie_substring_is_sovereign). reflexivity.
Defined.

End ProtectedReposFacts.

(** ** The admission gate of an agent *)

Section AdmissionGate.
Local Open Scope Z_scope.

Lemma can_accept_task_below_max (b : BaseAgent.AgentBiometrics) :
  BaseAgent.can_accept_task b = true ->
  BaseAgent.concurrent_tasks b < BaseAgent.MAX_CONCURRENT_TASKS.
Proof.
  unfold BaseAgent.can_accept_task.
  destruct (Z.leb_spec BaseAgent.MAX_CONCURRENT_TASKS (BaseAgent.concurrent_tasks b));
    [done | lia].
Qed.

Lemma assign_task_concurrent (self : BaseAgent.BaseAgent) (task : BaseAgent.Task)
    (now : BaseAgent.datetime) :
  BaseAgent.concurrent_tasks (BaseAgent.biometrics (BaseAgent.assign_task self task now).2) =
  if BaseAgent.can_accept_task (BaseAgent.biometrics self)
  then BaseAgent.concurrent_tasks (BaseAgent.biometrics self) + 1
  else BaseAgent.concurrent_tasks (BaseAgent.biometrics self).
Proof.
  unfold BaseAgent.assign_task.
  by destruct (BaseAgent.can_accept_task (BaseAgent.biometrics self)).
Qed.

Lemma start_task_concurrent (self : BaseAgent.BaseAgent) (task_id : string)
    (now : BaseAgent.datetime) :
  BaseAgent.concurrent_tasks (BaseAgent.biometrics (BaseAgent.start_task self task_id now).2) =
  BaseAgent.concurrent_tasks (BaseAgent.biometrics self).
Proof.
  unfold BaseAgent.start_task. by destruct (BaseAgent.tasks self !! task_id).
Qed.

Lemma complete_task_concurrent (self : BaseAgent.BaseAgent) (task_id : string)
    (result : list (string * string)) (quality_score : float) (now : BaseAgent.datetime) :
  BaseAgent.concurrent_tasks
    (BaseAgent.biometrics (BaseAgent.complete_task self task_id result quality_score now).2) =
  match BaseAgent.tasks self !! task_id with
  | Some _ => BaseAgent.concurrent_tasks (BaseAgent.biometrics self) - 1
  | None => BaseAgent.concurrent_tasks (BaseAgent.biometrics self)
  end.
Proof.
  unfold BaseAgent.complete_task. by destruct (BaseAgent.tasks self !! task_id).
Qed.

Lemma take_break_concurrent (self : BaseAgent.BaseAgent) (now : BaseAgent.datetime) :
  BaseAgent.concurrent_tasks (BaseAgent.biometrics (BaseAgent.take_break self now)) =
  BaseAgent.concurrent_tasks (BaseAgent.biometrics self).
Proof.
  unfold BaseAgent.take_break. cbn -[BaseAgent.can_accept_task].
  by destruct (BaseAgent.can_accept_task _).
Qed.

Lemma rest_concurrent (self : BaseAgent.BaseAgent) (now : BaseAgent.datetime) :
  BaseAgent.concurrent_tasks (BaseAgent.biometrics (BaseAgent.rest self now)) =
  BaseAgent.concurrent_tasks (BaseAgent.biometrics self).
Proof. reflexivity. Qed.

(** Every operation keeps the count within the ceiling. *)
Lemma step_within_capacity (self : BaseAgent.BaseAgent) (op : BaseAgent.AgentOp) :
  BaseAgent.concurrent_tasks (BaseAgent.biometrics self) <= BaseAgent.MAX_CONCURRENT_TASKS ->
  BaseAgent.concurrent_tasks (BaseAgent.biometrics (BaseAgent.step self op))
    <= BaseAgent.MAX_CONCURRENT_TASKS.
Proof.
  intros Hinv. destruct op as [task now|task_id now|task_id result quality now|now|now];
    unfold BaseAgent.step.
  - rewrite assign_task_concurrent.
    destruct (BaseAgent.can_accept_task (BaseAgent.biometrics self)) eqn:Hgate; [|done].
    apply can_accept_task_below_max in Hgate. lia.
  - by rewrite start_task_concurrent.
  - rewrite complete_task_concurrent. destruct (BaseAgent.tasks self !! task_id); lia.
  - by rewrite take_break_concurrent.
  - by rewrite rest_concurrent.
Qed.

Lemma run_within_capacity (ops : list BaseAgent.AgentOp) (self : BaseAgent.BaseAgent) :
  BaseAgent.concurrent_tasks (BaseAgent.biometrics self) <= BaseAgent.MAX_CONCURRENT_TASKS ->
  BaseAgent.concurrent_tasks (BaseAgent.biometrics (BaseAgent.run self ops))
    <= BaseAgent.MAX_CONCURRENT_TASKS.
Proof.
  revert self. induction ops as [|op ops IH]; intros self Hinv; [done|].
  apply IH, step_within_capacity, Hinv.
Qed.

(** C3.  Whatever sequence of [assign_task], [start_task],
    [complete_task], [take_break] and [rest] a freshly created agent goes
    through, its count of concurrent tasks never exceeds
    [MAX_CONCURRENT_TASKS], which is 3; [assign_task] adds one to the
    count exactly when [can_accept_task] holds, and that requires the
    count to be below 3. *)
Theorem concurrent_tasks_never_exceed_max :
  BaseAgent.MAX_CONCURRENT_TASKS = 3 /\
  (forall (name specialization : string) (capabilities : list string)
          (hexagonal_position : Z) (created : BaseAgent.datetime)
          (ops : list BaseAgent.AgentOp),
      BaseAgent.concurrent_tasks
        (BaseAgent.biometrics
           (BaseAgent.run
              (BaseAgent.init name specialization capabilities hexagonal_position created)
              ops))
      <= BaseAgent.MAX_CONCURRENT_TASKS) /\
  (forall (self : BaseAgent.BaseAgent) (task : BaseAgent.Task) (now : BaseAgent.datetime),
      BaseAgent.concurrent_tasks (BaseAgent.biometrics (BaseAgent.assign_task self task now).2) =
      if BaseAgent.can_accept_task (BaseAgent.biometrics self)
      then BaseAgent.concurrent_tasks (BaseAgent.biometrics self) + 1
      else BaseAgent.concurrent_tasks (BaseAgent.biometrics self)) /\
  (forall b : BaseAgent.AgentBiometrics,
      BaseAgent.can_accept_task b = true -> BaseAgent.concurrent_tasks b < 3).
Proof.
  split; [reflexivity|]. split; [|split].
  - intros. by apply run_within_capacity.
  - exact assign_task_concurrent.
  - exact can_accept_task_below_max.
Qed.

End AdmissionGate.

(** ** The diligence ledger *)

Section LedgerFacts.
Import Py DiligenceLedger.







(** Three completions, two of them by veda: the totals of each agent
    are the sums over its own records. *)
Example totals_after_three_completions :
  let task := {| attr_id := Some "t"%string; attr_title := Some "t"%string; attr_repo := None; as_str := "t"%string |} in
  let ledger :=
    record_all (init None)
      [{| c_agent_name := "veda"%string; c_task := task; c_hours_worked := 2; c_quality_score := 1;
          c_tested := true; c_wellness_approved := false; c_cross_repo := false;
          c_documented := false; c_now := 1%Z |};
       {| c_agent_name := "aura"%string; c_task := task; c_hours_worked := 1; c_quality_score := 0.5;
          c_tested := false; c_wellness_approved := true; c_cross_repo := false;
          c_documented := false; c_now := 2%Z |};
       {| c_agent_name := "veda"%string; c_task := task; c_hours_worked := 3; c_quality_score := 1;
          c_tested := true; c_wellness_approved := true; c_cross_repo := true;
          c_documented := true; c_now := 3%Z |}] in
  agent_totals ledger !! "veda"%string =
    Some {| total_nectar := (2 * 10 * 2 + 3 * 10 * (2 * 1.5 * 2 * 1.3))%float;
            total_hours := 5; tasks_completed := 2 |} /\
  agent_totals ledger !! "aura"%string =
    Some {| total_nectar := 7.5; total_hours := 1; tasks_completed := 1 |} /\
  agent_totals ledger !! "hex"%string = None.
Proof. repeat split; vm_compute; reflexivity. Qed.

(** C9.  [record_completion] appends one record whose multiplier is the
    quality score times 2.0 if tested, 1.5 if wellness-approved, 2.0 if
    cross-repository and 1.3 if documented, and whose accrual is the
    hours worked times 10.0 times that multiplier. *)
Theorem record_completion_amounts (self : Ledger) (agent : string) (task : TaskLike)
    (hours quality_score : float) (tested wellness_approved cross_repo documented : bool)
    (now : BaseAgent.datetime) :
  exists record,
    records (record_completion self agent task hours quality_score
               tested wellness_approved cross_repo documented now).2
      = records self ++ [record] /\
    agent_name record = agent /\
    hours_worked record = hours /\
    base_rate record = 10.0%float /\
    quality_multiplier record =
      specified_multiplier quality_score tested wellness_approved cross_repo documented /\
    nectar_accrued record = (hours * 10.0 * quality_multiplier record)%float.
Proof.
  eexists. split; [reflexivity|]. by repeat split.
Qed.

End LedgerFacts.

(** ** Comparing floats *)

Section FloatOrderFacts.
Import FloatOrder.

Lemma SFltb_below (a b : spec_float) :
  a <> S754_nan -> b <> S754_nan ->
  SFltb a b = true <-> below (rank a) (rank b).
Proof.
  intros Ha Hb. unfold SFltb, SFcompare, below.
  destruct a as [sa|sa| |sa ma ea], b as [sb|sb| |sb mb eb]; try done;
    try destruct sa; try destruct sb; cbn [rank fst snd];
    try (split; [done | lia]); try (split; [lia | done]); try (split; [intros _; lia | done]).
  - change (Pos.compare_cont Eq ma mb) with (Pos.compare ma mb).
    destruct (Z.compare_spec ea eb), (Pos.compare_spec ma mb); cbn [CompOpp];
      split; try done; lia.
  - change (Pos.compare_cont Eq ma mb) with (Pos.compare ma mb).
    destruct (Z.compare_spec ea eb), (Pos.compare_spec ma mb);
      split; try done; lia.
Qed.

Lemma SFeqb_refl_not_nan (a : spec_float) : SFeqb a a = true <-> a <> S754_nan.
Proof.
  unfold SFeqb, SFcompare.
  destruct a as [sa|sa| |sa ma ea]; try destruct sa; try done.
  - change (Pos.compare_cont Eq ma ma) with (Pos.compare ma ma).
    by rewrite Z.compare_refl, Pos.compare_refl.
  - change (Pos.compare_cont Eq ma ma) with (Pos.compare ma ma).
    by rewrite Z.compare_refl, Pos.compare_refl.
Qed.

Lemma SFltb_not_nan (a b : spec_float) :
  SFltb a b = true -> a <> S754_nan /\ b <> S754_nan.
Proof.
  unfold SFltb, SFcompare.
  destruct a as [sa|sa| |sa ma ea], b as [sb|sb| |sb mb eb]; done.
Qed.

Lemma comparable_spec (x : float) : comparable x <-> Prim2SF x <> S754_nan.
Proof. unfold comparable. rewrite FloatAxioms.eqb_spec. apply SFeqb_refl_not_nan. Qed.

(** Whatever lies strictly above or below another float is no NaN. *)
Lemma ltb_comparable (x y : float) :
  (x <? y)%float = true -> comparable x /\ comparable y.
Proof.
  intros H. rewrite FloatAxioms.ltb_spec in H. apply SFltb_not_nan in H as [Hx Hy].
  split; by apply comparable_spec.
Qed.

Lemma ltb_asym (x y : float) : (x <? y)%float = true -> (y <? x)%float = false.
Proof.
  intros H. destruct (ltb_comparable _ _ H) as [Hx Hy].
  apply comparable_spec in Hx, Hy.
  destruct (y <? x)%float eqn:E; [|done].
  rewrite FloatAxioms.ltb_spec in H, E. apply SFltb_below in H, E; try done.
  unfold below in *. lia.
Qed.


End FloatOrderFacts.

(** ** Routing: candidates, their order and the chair's choice *)

Section RoutingFacts.
Import Py Agents Council TessAgent FloatOrder.
Local Open Scope string_scope.

(** Every candidate is an agent of the council with its own score, and
    that score is above the consideration threshold. *)
Lemma contenders_of_spec (agents : Agents) (task_desc : string) (c : Contender) :
  c ∈ contenders_of agents task_desc <->
  exists name agent,
    (name, agent) ∈ agents /\
    (0.3 <? can_handle_task (kind agent) task_desc)%float = true /\
    c = {| contender_agent := name;
           confidence := can_handle_task (kind agent) task_desc;
           available := BaseAgent.can_accept_task (BaseAgent.biometrics (base agent)) |}.
Proof.
  unfold contenders_of. rewrite list_elem_of_omap. split.
  - intros ([name agent] & Hin & Hc). cbn [fst snd] in Hc.
    destruct (0.3 <? can_handle_task (kind agent) task_desc)%float eqn:E; [|done].
    injection Hc as <-. by exists name, agent.
  - intros (name & agent & Hin & E & ->). exists (name, agent).
    split; [done|]. cbn [fst snd]. by rewrite E.
Qed.


Lemma insert_by_confidence_perm (c : Contender) (sorted : list Contender) :
  insert_by_confidence c sorted ≡ₚ c :: sorted.
Proof.
  induction sorted as [|d rest IH]; [done|]. cbn [insert_by_confidence].
  destruct (confidence c <? confidence d)%float; [|done].
  rewrite IH. apply Permutation_swap.
Qed.

(** Sorting keeps the candidates. *)
Lemma sort_by_confidence_perm (contenders : list Contender) :
  sort_by_confidence contenders ≡ₚ contenders.
Proof.
  induction contenders as [|c rest IH]; [done|].
  cbn [sort_by_confidence foldr]. rewrite insert_by_confidence_perm.
  by f_equiv.
Qed.







End RoutingFacts.

(** ** Redistribution to a ring neighbour *)

Section RedistributionFacts.
Import Py Agents Council TessAgent.
Local Open Scope string_scope.

Lemma get_Some_keys (agents : Agents) (name : string) (agent : Agent) :
  get agents name = Some agent -> name ∈ keys agents.
Proof.
  induction agents as [|[key a] rest IH]; [done|]. cbn [get keys map fst].
  destruct (String.eqb_spec key name) as [->|_].
  - intros _. apply elem_of_cons. by left.
  - intros H. apply elem_of_cons. right. by apply IH.
Qed.

(** The loop returns the first neighbour that is able, in list order. *)
Lemma first_able_neighbor_find (neighbors : list string) (task : string) (agents : Agents)
    (agent_loads : gmap string AgentLoad) :
  Forall (fun name => is_Some (agent_loads !! name)) (keys agents) ->
  first_able_neighbor neighbors task agents agent_loads =
  Returned (List.find (able_neighbor task agents agent_loads) neighbors).
Proof.
  intros Hcover. induction neighbors as [|n rest IH]; [done|].
  cbn [first_able_neighbor List.find]. unfold able_neighbor at 1.
  destruct (get agents n) as [neighbor|] eqn:Hget; [|exact IH].
  rewrite Forall_forall in Hcover.
  destruct (Hcover n (get_Some_keys _ _ _ Hget)) as [load ->].
  destruct (Z.leb_spec (available_capacity load) 0) as [Hle|Hgt].
  - destruct (Z.ltb_spec 0 (available_capacity load)); [lia|]. exact IH.
  - destruct (Z.ltb_spec 0 (available_capacity load)); [|lia]. cbn [andb].
    by destruct (0.3 <? can_handle_task (kind neighbor) task)%float.
Qed.

Lemma find_some_elem_of {A : Type} (f : A -> bool) (xs : list A) (x : A) :
  List.find f xs = Some x -> x ∈ xs /\ f x = true.
Proof.
  intros H. apply find_some in H as [Hin Hf]. split; [by apply list_elem_of_In | done].
Qed.

(** Whatever the loop returns is one of the neighbours it was given. *)
Lemma first_able_neighbor_elem_of (neighbors : list string) (task : string) (agents : Agents)
    (agent_loads : gmap string AgentLoad) (chosen : string) :
  first_able_neighbor neighbors task agents agent_loads = Returned (Some chosen) ->
  chosen ∈ neighbors.
Proof.
  induction neighbors as [|n rest IH]; [done|]. cbn [first_able_neighbor].
  intros H. apply elem_of_cons.
  destruct (get agents n); [|right; by apply IH].
  destruct (agent_loads !! n) as [load|]; [|done].
  destruct (available_capacity load <=? 0)%Z; [right; by apply IH|].
  destruct (0.3 <? _)%float; [|right; by apply IH].
  left. congruence.
Qed.

(** Each proposal yields exactly one assignment, for the same task,
    held by the preferred agent or by one of its ring neighbours. *)
Lemma distribute_adjacent (proposals : list Proposal) (agents : Agents)
    (agent_loads loads' : gmap string AgentLoad) (done out : list Assignment) :
  distribute proposals agents agent_loads done = Returned (out, loads') ->
  exists new,
    out = (done ++ new)%list /\
    Forall2 (fun p a =>
               assigned_task a = task p /\
               (agent a = assigned_to p \/
                (agent a ∈ neighbors_of neighbor_map (assigned_to p) /\
                 redistributed_from a = Some (assigned_to p))) /\
               (agent a = assigned_to p -> redistributed_from a = None))
            proposals new.
Proof.
  revert agent_loads done. induction proposals as [|p rest IH]; intros agent_loads done H.
  - injection H as <- _. exists []. by rewrite app_nil_r.
  - cbn [distribute] in H.
    destruct (agent_loads !! assigned_to p) as [load|]; [|done].
    destruct (0 <? available_capacity load)%Z.
    + apply IH in H as (new & -> & Hnew). eexists (_ :: new).
      rewrite <- app_assoc. split; [done|]. constructor; [|done]. cbn. tauto.
    + destruct (_redistribute_to_neighbor _ _ _ _) as [[chosen|]|] eqn:Hr; [| |done].
      * apply first_able_neighbor_elem_of in Hr.
        destruct (agent_loads !! chosen); [|done].
        apply IH in H as (new & -> & Hnew). eexists (_ :: new).
        rewrite <- app_assoc. split; [done|]. constructor; [|done]. cbn.
        split; [done|]. split; [by right|].
        (* the preferred agent is not its own neighbour *)
        intros ->. exfalso. revert Hr. generalize (assigned_to p). intros n.
        unfold neighbor_map. cbn [neighbors_of].
        repeat match goal with
               | |- context [String.eqb ?key n] =>
                   destruct (String.eqb_spec key n) as [<-|_];
                   [intros Hin;
                    repeat (apply elem_of_cons in Hin as [?|Hin]; [done|]);
                    by apply elem_of_nil in Hin|]
               end.
        by intros ?%elem_of_nil.
      * apply IH in H as (new & -> & Hnew). eexists (_ :: new).
        rewrite <- app_assoc. split; [done|]. constructor; [|done]. cbn. tauto.
Qed.

(** The map of neighbours is the ring: left neighbour, then right. *)
Lemma neighbor_map_is_the_ring (now : BaseAgent.datetime) (name : string) (agent : Agent) :
  (name, agent) ∈ create_council now ->
  Some <$> neighbors_of neighbor_map name =
  [agent_at (create_council now) ((BaseAgent.hexagonal_position (base agent) - 1) mod 6);
   agent_at (create_council now) ((BaseAgent.hexagonal_position (base agent) + 1) mod 6)].
Proof.
  unfold create_council. intros Hin.
  repeat (apply elem_of_cons in Hin as [[= -> ->]|Hin]; [reflexivity|]).
  by apply elem_of_nil in Hin.
Qed.

Lemma reserve_is_alter (agent_loads : gmap string AgentLoad) (name : string) (load : AgentLoad) :
  agent_loads !! name = Some load ->
  <[name := reserve load]> agent_loads = alter reserve name agent_loads.
Proof.
  intros H. by rewrite <- (insert_id _ _ _ H) at 2; rewrite alter_insert_eq.
Qed.

(** The loads that [optimize_distribution] starts from have an entry for
    every agent of the council, and reserving a slot keeps it so. *)
Lemma initial_loads_cover (agents : Agents) :
  Forall (fun name => is_Some (initial_loads agents !! name)) (keys agents).
Proof.
  apply Forall_forall. intros name Hin. unfold initial_loads.
  apply not_eq_None_Some. intros Hnone. apply not_elem_of_list_to_map in Hnone.
  apply Hnone. rewrite <- list_fmap_compose. exact Hin.
Qed.

Lemma insert_keeps_cover (agents : Agents) (agent_loads : gmap string AgentLoad)
    (name : string) (load : AgentLoad) :
  Forall (fun name => is_Some (agent_loads !! name)) (keys agents) ->
  Forall (fun key => is_Some (<[name := load]> agent_loads !! key)) (keys agents).
Proof.
  intros Hcover. eapply Forall_impl; [exact Hcover|].
  intros key Hkey. rewrite lookup_insert_is_Some.
  destruct (decide (name = key)); [by left | by right].
Qed.

(** C5.  The neighbours searched for an agent are its two neighbours on
    the ring of six, the one at position - 1 before the one at
    position + 1.  When the preferred agent of a proposal has no
    capacity left, the task goes to the first of these neighbours that
    has capacity left and scores above 0.3 on it; when neither does, the
    assignment stays with the preferred agent, marked "queued".  Every
    proposal yields one assignment, held by the preferred agent or by one
    of its ring neighbours.  (The loads are required to have an entry
    for every agent of the council, as those [optimize_distribution]
    builds do.) *)
Theorem redistribution_goes_to_first_able_neighbor :
  (forall (now : BaseAgent.datetime) (name : string) (agent : Agent),
      (name, agent) ∈ create_council now ->
      Some <$> neighbors_of neighbor_map name =
      [agent_at (create_council now) ((BaseAgent.hexagonal_position (base agent) - 1) mod 6);
       agent_at (create_council now) ((BaseAgent.hexagonal_position (base agent) + 1) mod 6)]) /\
  (forall agents : Agents,
      Forall (fun name => is_Some (initial_loads agents !! name)) (keys agents)) /\
  (forall (agents : Agents) (agent_loads : gmap string AgentLoad)
          (proposal : Proposal) (rest : list Proposal) (done : list Assignment)
          (load : AgentLoad),
      Forall (fun name => is_Some (agent_loads !! name)) (keys agents) ->
      agent_loads !! assigned_to proposal = Some load ->
      (available_capacity load <= 0)%Z ->
      _redistribute_to_neighbor (assigned_to proposal) (task proposal) agents agent_loads =
        Returned (List.find (able_neighbor (task proposal) agents agent_loads)
                            (neighbors_of neighbor_map (assigned_to proposal))) /\
      distribute (proposal :: rest) agents agent_loads done =
        match List.find (able_neighbor (task proposal) agents agent_loads)
                        (neighbors_of neighbor_map (assigned_to proposal)) with
        | Some neighbor =>
            distribute rest agents (alter reserve neighbor agent_loads)
              (done ++
                 [{| agent := neighbor; assigned_task := task proposal;
                     estimated_hours := Some (_estimate_hours (task proposal));
                     repo := Some (_determine_repo (task proposal));
                     redistributed_from := Some (assigned_to proposal); status := None;
                     reason := Some "preferred_agent_at_capacity";
                     depends_on := None |}])
        | None =>
            distribute rest agents agent_loads
              (done ++
                 [{| agent := assigned_to proposal; assigned_task := task proposal;
                     estimated_hours := None; repo := None;
                     redistributed_from := None; status := Some "queued";
                     reason := Some "waiting_for_capacity"; depends_on := None |}])
        end) /\
  (forall (proposals : list Proposal) (agents : Agents) (plan : OptimizedPlan),
      optimize_distribution proposals agents = Returned plan ->
      Forall2 (fun p a =>
                 assigned_task a = task p /\
                 (agent a = assigned_to p \/
                  (agent a ∈ neighbors_of neighbor_map (assigned_to p) /\
                   redistributed_from a = Some (assigned_to p))) /\
                 (agent a = assigned_to p -> redistributed_from a = None))
              proposals (assignments plan)).
Proof.
  split; [exact neighbor_map_is_the_ring|]. split; [exact initial_loads_cover|]. split.
  - intros agents agent_loads proposal rest done load Hcover Hload Hfull.
    assert (_redistribute_to_neighbor (assigned_to proposal) (task proposal) agents agent_loads =
            Returned (List.find (able_neighbor (task proposal) agents agent_loads)
                                (neighbors_of neighbor_map (assigned_to proposal)))) as Hr
      by (by apply first_able_neighbor_find).
    split; [done|]. cbn [distribute]. rewrite Hload, Hr.
    destruct (Z.ltb_spec 0 (available_capacity load)); [lia|].
    destruct (List.find _ _) as [neighbor|] eqn:Hfind; [|done].
    apply find_some_elem_of in Hfind as [_ Hable]. unfold able_neighbor in Hable.
    destruct (get agents neighbor); [|done].
    destruct (agent_loads !! neighbor) as [neighbor_load|] eqn:Hn; [|done].
    by rewrite (reserve_is_alter _ _ _ Hn).
  - intros proposals agents plan. unfold optimize_distribution.
    destruct (distribute proposals agents (initial_loads agents) [])
      as [[out loads']|] eqn:Hd; [|done].
    cbn [and_then fst snd]. destruct (_calculate_timeline out agents); [|done].
    cbn [and_then]. intros [= <-]. cbn [assignments].
    by apply distribute_adjacent in Hd as (new & -> & Hnew).
Qed.

(** The second clause at work: veda has no capacity left, tess does not
    score on the task, aura does, and aura takes it. *)
Lemma redistribution_goes_to_first_able_neighbor_witness :
  distribute
    [{| task := "backend server database review"; assigned_to := "veda";
        proposal_confidence := 1; alternatives := ["aura"] |}]
    (create_council 0%Z)
    (<["veda" := {| current_tasks := 3; max_tasks := 3; stress := 0;
                    available_capacity := 0 |}]> (initial_loads (create_council 0%Z)))
    [] =
  Returned
    ([{| agent := "aura"; assigned_task := "backend server database review";
         estimated_hours := Some 8%float; repo := Some "sandironratio-node";
         redistributed_from := Some "veda"; status := None;
         reason := Some "preferred_agent_at_capacity"; depends_on := None |}],
     alter reserve "aura"
       (<["veda" := {| current_tasks := 3; max_tasks := 3; stress := 0;
                       available_capacity := 0 |}]> (initial_loads (create_council 0%Z)))).
Proof.
  pose proof (proj1 (proj2 (proj2 redistribution_goes_to_first_able_neighbor))) as step.
  specialize (step (create_council 0%Z)
    (<["veda" := {| current_tasks := 3; max_tasks := 3; stress := 0;
                    available_capacity := 0 |}]> (initial_loads (create_council 0%Z)))
    {| task := "backend server database review"; assigned_to := "veda";
       proposal_confidence := 1; alternatives := ["aura"] |}
    [] []
    {| current_tasks := 3; max_tasks := 3; stress := 0; available_capacity := 0 |}).
  destruct step as [_ step].
  - apply (bool_decide_unpack _). vm_compute. exact I.
  - reflexivity.
  - cbn. lia.
  - rewrite step. reflexivity.
Defined.

End RedistributionFacts.

(** ** The ceremony: veto and rejection *)

Section ConveningFacts.
Import Py Agents Council Convening.
Local Open Scope string_scope.
Local Open Scope Z_scope.







(** C8, as the code has it.  Rejecting while a proposal exists answers
    "rejected" and moves the ceremony to [IDLE]; the proposal is kept,
    stamped with the time of the rejection, and nothing else changes.  A
    proposal that was never authorized cannot be deployed afterwards:
    [deploy] refuses it. *)
Theorem rejection_returns_to_idle (self : CouncilConvening) (proposal_id : string)
    (now : BaseAgent.datetime) (proposal : Proposal) :
  current_proposal self = Some proposal ->
  (authorize self proposal_id false now).1 = Rejected /\
  phase (authorize self proposal_id false now).2 = IDLE /\
  current_proposal (authorize self proposal_id false now).2 =
    Some {| proposal_status := proposal_status proposal;
            proposal_timestamp := proposal_timestamp proposal;
            council_plan := council_plan proposal;
            agent_status := agent_status proposal;
            awaiting_chief_architect_authorization :=
              awaiting_chief_architect_authorization proposal;
            authorized_by := authorized_by proposal;
            authorized_at := authorized_at proposal;
            rejected_at := Some now |} /\
  agents (authorize self proposal_id false now).2 = agents self /\
  ledger (authorize self proposal_id false now).2 = ledger self /\
  deliberation_record (authorize self proposal_id false now).2 = deliberation_record self /\
  (is_authorized proposal = false ->
   forall clock,
     deploy (authorize self proposal_id false now).2 clock =
     (Returned NoAuthorizedProposal,
      set_phase (authorize self proposal_id false now).2 DEPLOYING)).
Proof.
  intros Hproposal. unfold authorize. rewrite Hproposal. cbn [fst snd].
  repeat split.
  intros Hunauthorized clock. unfold deploy.
  cbn [set_phase set_current_proposal current_proposal].
  unfold is_authorized in *. cbn [authorized_by].
  by destruct (authorized_by proposal) as [[|]|].
Qed.

(** The routine proposal, rejected at time 4 without ever having been
    authorized. *)
Lemma rejection_returns_to_idle_witness :
  phase (authorize Scenarios.proposed "proposal-1" false 4).2 = IDLE /\
  (rejected_at <$> current_proposal (authorize Scenarios.proposed "proposal-1" false 4).2)
    = Some (Some 4) /\
  (deploy (authorize Scenarios.proposed "proposal-1" false 4).2 Scenarios.clock).1
    = Returned NoAuthorizedProposal.
Proof.
  destruct (current_proposal Scenarios.proposed) as [proposal|] eqn:Hproposal;
    [|by vm_compute in Hproposal].
  destruct (rejection_returns_to_idle Scenarios.proposed "proposal-1" 4 proposal Hproposal)
    as (_ & Hphase & Hkept & _ & _ & _ & Hdeploy).
  split; [exact Hphase|]. split; [by rewrite Hkept|].
  rewrite Hdeploy; [done|].
  vm_compute in Hproposal. by injection Hproposal as <-.
Defined.

(** C8, as stated, fails: the rejected proposal is still the current
    proposal, and one that had been authorized before it was rejected is
    deployed by the next [deploy]. *)
Lemma rejected_proposal_is_kept :
  (rejected_at <$> current_proposal (authorize Scenarios.proposed "proposal-1" false 4).2)
    = Some (Some 4) /\
  current_proposal (authorize Scenarios.proposed "proposal-1" false 4).2 <> None /\
  match (deploy (authorize (authorize Scenarios.proposed "proposal-1" true 4).2
                           "proposal-1" false 5).2
                Scenarios.clock).1 with
  | Returned (DeploymentDone results) =>
      map result_summary results = [("deployed", "spark"); ("deployed", "node")]
  | _ => False
  end.
Proof. split; [|split]; by vm_compute. Qed.

End ConveningFacts.

(** ** More on the guard and the client that relies on it *)

Section GuardFacts.
Import Py ProtectedRepos GitHubClient.
Local Open Scope string_scope.

Lemma glob_literal_prefix (c : ascii) (pat name : string) :
  c <> "*"%char -> c <> "?"%char ->
  glob (String c pat) name -> exists rest, name = String c rest /\ glob pat rest.
Proof.
  intros Hstar Hone H. inversion H; subst; try done. by eexists.
Qed.

Lemma glob_star_split (pat name : string) :
  glob (String "*" pat) name -> exists skipped rest, name = skipped ++ rest /\ glob pat rest.
Proof.
  intros H. inversion H; subst; try done. by eexists _, _.
Qed.

(** A name that matches either protected pattern contains "sofie". *)
Lemma protected_pattern_contains_sofie (pattern name : string) :
  pattern ∈ PROTECTED_PATTERNS -> glob pattern name -> contains "sofie" name = true.
Proof.
  unfold PROTECTED_PATTERNS. intros Hin Hglob.
  apply elem_of_cons in Hin as [->|Hin].
  - do 5 (apply glob_literal_prefix in Hglob as (? & -> & Hglob); [|done..]).
    apply (contains_app "sofie" "").
  - apply elem_of_cons in Hin as [->|Hin]; [|by apply elem_of_nil in Hin].
    apply glob_star_split in Hglob as (skipped & rest & -> & Hglob).
    do 5 (apply glob_literal_prefix in Hglob as (? & -> & Hglob); [|done..]).
    apply (contains_app "sofie" skipped).
Qed.

(** X1.  The guard is a substring test: a repository is sovereign
    territory exactly when its bare name contains "sofie".  The list of
    protected names and the pattern "sofie-*" add nothing to the pattern
    "*sofie*". *)
Theorem sovereign_iff_contains_sofie (repo_name : string) :
  is_sovereign_territory repo_name = contains "sofie" (bare_name repo_name).
Proof.
  destruct (contains "sofie" (bare_name repo_name)) eqn:Hsofie.
  - by apply contains_sofie_is_sovereign.
  - destruct (is_sovereign_territory repo_name) eqn:Hsov; [|done].
    apply is_sovereign_territory_iff in Hsov as [Hlisted|(pattern & Hin & Hglob)].
    + unfold SOVEREIGN_TERRITORY in Hlisted.
      repeat (apply elem_of_cons in Hlisted as [Hname|Hlisted];
              [rewrite Hname in Hsofie; by vm_compute in Hsofie|]).
      by apply elem_of_nil in Hlisted.
    + rewrite (protected_pattern_contains_sofie _ _ Hin Hglob) in Hsofie. done.
Qed.

Lemma bare_name_trailing_slash (repo_name : string) : bare_name (repo_name ++ "/") = "".
Proof.
  unfold bare_name.
  assert (contains "/" (repo_name ++ "/") = true) as -> by apply (contains_app "/" repo_name "").
  apply (last_item_split_app "/" repo_name "").
Qed.

(** X2.  A name that ends in a slash is never sovereign territory,
    whatever stands before the slash: its bare name is empty.  So
    "sofie-llama-backend/" passes the guard, and [validate_repo_access]
    returns for it. *)
Theorem trailing_slash_is_never_sovereign (repo_name action : string) :
  bare_name (repo_name ++ "/") = "" /\
  is_sovereign_territory (repo_name ++ "/") = false /\
  validate_repo_access (repo_name ++ "/") action = Returned ().
Proof.
  assert (is_sovereign_territory (repo_name ++ "/") = false) as Hfree.
  { unfold is_sovereign_territory. by rewrite bare_name_trailing_slash. }
  split; [apply bare_name_trailing_slash|]. split; [exact Hfree|].
  unfold validate_repo_access. by rewrite Hfree.
Qed.

Lemma sort_repos_filter (repos violations permitted : list string) :
  sort_repos repos violations permitted =
  (violations ++ filter (fun repo => is_sovereign_territory repo = true) repos,
   permitted ++ filter (fun repo => is_sovereign_territory repo = false) repos)%list.
Proof.
  revert violations permitted. induction repos as [|repo rest IH]; intros violations permitted.
  - cbn [sort_repos]. by rewrite !filter_nil, !app_nil_r.
  - cbn [sort_repos]. rewrite !filter_cons.
    destruct (is_sovereign_territory repo) eqn:Hsov; rewrite IH.
    + rewrite decide_True by done. rewrite decide_False by done. by rewrite <- app_assoc.
    + rewrite decide_False by done. rewrite decide_True by done. by rewrite <- app_assoc.
Qed.

Lemma filter_sovereign_split (repos : list string) :
  (filter (fun repo => is_sovereign_territory repo = false) repos
   ++ filter (fun repo => is_sovereign_territory repo = true) repos)%list ≡ₚ repos.
Proof.
  induction repos as [|repo rest IH]; [done|]. rewrite !filter_cons.
  destruct (is_sovereign_territory repo).
  - rewrite decide_False by done. rewrite decide_True by done.
    rewrite <- Permutation_middle. by f_equiv.
  - rewrite decide_True by done. rewrite decide_False by done. cbn. by f_equiv.
Qed.

(** X3.  [validate_work_plan] sorts the repositories of a plan without
    losing or reordering any: [permitted] is what [get_permitted_repos]
    keeps, [violations] the sovereign ones, each in plan order, and
    together they are the plan.  The plan is valid exactly when it names
    no sovereign repository, and then [permitted] is the whole plan. *)
Theorem validate_work_plan_partition (self : CouncilGitHubClient) (repos : list string) :
  permitted (validate_work_plan self repos) = get_permitted_repos repos /\
  violations (validate_work_plan self repos) =
    filter (fun repo => is_sovereign_territory repo = true) repos /\
  (permitted (validate_work_plan self repos)
   ++ violations (validate_work_plan self repos))%list ≡ₚ repos /\
  (valid (validate_work_plan self repos) = true <->
   Forall (fun repo => is_sovereign_territory repo = false) repos) /\
  can_proceed (validate_work_plan self repos) = valid (validate_work_plan self repos) /\
  (valid (validate_work_plan self repos) = true ->
   permitted (validate_work_plan self repos) = repos).
Proof.
  unfold validate_work_plan. rewrite sort_repos_filter. cbn [app valid permitted violations can_proceed].
  assert (((length (filter (fun repo => is_sovereign_territory repo = true) repos) =? 0)%nat = true)
          <-> Forall (fun repo => is_sovereign_territory repo = false) repos) as Hvalid.
  { rewrite Nat.eqb_eq, length_zero_iff_nil. split.
    - intros Hnone. apply Forall_forall. intros repo Hin.
      destruct (is_sovereign_territory repo) eqn:Hsov; [|done].
      assert (repo ∈ filter (fun repo => is_sovereign_territory repo = true) repos) as Hbad
        by (by apply list_elem_of_filter).
      rewrite Hnone in Hbad. by apply elem_of_nil in Hbad.
    - intros Hall. induction Hall as [|repo rest Hrepo _ IH]; [done|].
      rewrite filter_cons, decide_False by (by rewrite Hrepo). exact IH. }
  split; [done|]. split; [done|]. split; [apply filter_sovereign_split|].
  split; [exact Hvalid|]. split; [done|].
  intros Hok. apply Hvalid in Hok. clear Hvalid.
  induction Hok as [|repo rest Hrepo _ IH]; [done|].
  rewrite filter_cons, decide_True by done. unfold get_permitted_repos in IH. by rewrite IH.
Qed.

(** X4.  The plan validation and the operations agree: a repository
    that [validate_work_plan] lists as permitted can be cloned, branched,
    committed to and submitted; one it lists as a violation is refused
    by each of the four, with an error that carries the repository and
    the name of the refused operation, and is reported inaccessible. *)
Theorem work_plan_verdict_binds_operations (self : CouncilGitHubClient)
    (repos : list string) (repo : string) :
  (repo ∈ permitted (validate_work_plan self repos) ->
   (forall branch, clone_repo self repo branch = Returned (Cloned repo branch)) /\
   (forall branch base,
       create_branch self repo branch base = Returned (BranchCreated repo branch base)) /\
   (forall branch message files,
       commit_changes self repo branch message files =
       Returned (Committed repo branch message (length files))) /\
   (forall branch title description reviewers,
       exists chosen,
         submit_pr self repo branch title description reviewers =
         Returned (PrSubmitted repo branch title chosen) /\ chosen <> []) /\
   (forall on_disk, accessible (get_repo_status self repo on_disk) = true)) /\
  (repo ∈ violations (validate_work_plan self repos) ->
   (forall branch,
       clone_repo self repo branch = Raised (mkSovereignTerritoryError repo "clone")) /\
   (forall branch base,
       create_branch self repo branch base =
       Raised (mkSovereignTerritoryError repo "create_branch")) /\
   (forall branch message files,
       commit_changes self repo branch message files =
       Raised (mkSovereignTerritoryError repo "commit")) /\
   (forall branch title description reviewers,
       submit_pr self repo branch title description reviewers =
       Raised (mkSovereignTerritoryError repo "submit_pr")) /\
   (forall on_disk, accessible (get_repo_status self repo on_disk) = false)).
Proof.
  unfold validate_work_plan. rewrite sort_repos_filter. cbn [app permitted violations].
  rewrite !list_elem_of_filter.
  unfold clone_repo, create_branch, commit_changes, submit_pr, get_repo_status.
  split; intros [Hsov _]; rewrite Hsov; repeat split.
  intros branch title description reviewers.
  destruct reviewers as [[|r rs]|]; by eexists.
Qed.

Lemma work_plan_verdict_binds_operations_witness :
  clone_repo (mkCouncilGitHubClient None "./workspace" "DudeAdrian") "pollen" "main"
    = Returned (Cloned "pollen" "main") /\
  clone_repo (mkCouncilGitHubClient None "./workspace" "DudeAdrian") "sofie-dashboard" "main"
    = Raised (mkSovereignTerritoryError "sofie-dashboard" "clone").
Proof.
  pose proof (work_plan_verdict_binds_operations
                (mkCouncilGitHubClient None "./workspace" "DudeAdrian")
                PERMITTED_ECOSYSTEM_REPOS) as verdict.
  split.
  - apply (proj1 (verdict "pollen")). apply (bool_decide_unpack _). vm_compute. exact I.
  - apply (proj2 (verdict "sofie-dashboard")). apply (bool_decide_unpack _). vm_compute. exact I.
Defined.

End GuardFacts.

(** ** More on the agents' own operations *)

Section AgentFacts.
Import Py FloatOrder.
Local Open Scope Z_scope.

(** Flooring at zero leaves a level that is neither negative nor NaN. *)
Lemma fmax_zero_floor (x : float) :
  (fmax 0 x <? 0)%float = false /\ comparable (fmax 0 x).
Proof.
  unfold fmax. destruct (0 <? x)%float eqn:E.
  - split; [by apply ltb_asym | by apply ltb_comparable in E as [_ ?]].
  - split; reflexivity.
Qed.

(** X5.  A break, a rest and the completion of a task leave the levels
    they write floored: after [take_break] and after [rest] neither the
    stress level nor the cognitive load is negative or NaN, whatever they
    were before, and the same holds for the cognitive load after a
    [complete_task] that found its task. *)
Theorem levels_are_floored_at_zero (self : BaseAgent.BaseAgent) (now : BaseAgent.datetime) :
  ((BaseAgent.stress_level (BaseAgent.biometrics (BaseAgent.take_break self now)) <? 0)%float = false /\
   comparable (BaseAgent.stress_level (BaseAgent.biometrics (BaseAgent.take_break self now))) /\
   (BaseAgent.cognitive_load (BaseAgent.biometrics (BaseAgent.take_break self now)) <? 0)%float = false /\
   comparable (BaseAgent.cognitive_load (BaseAgent.biometrics (BaseAgent.take_break self now)))) /\
  (BaseAgent.stress_level (BaseAgent.biometrics (BaseAgent.rest self now)) = 0%float /\
   BaseAgent.cognitive_load (BaseAgent.biometrics (BaseAgent.rest self now)) = 0%float) /\
  (forall task_id result quality_score,
      is_Some (BaseAgent.tasks self !! task_id) ->
      (BaseAgent.cognitive_load
         (BaseAgent.biometrics
            (BaseAgent.complete_task self task_id result quality_score now).2) <? 0)%float = false /\
      comparable
        (BaseAgent.cognitive_load
           (BaseAgent.biometrics
              (BaseAgent.complete_task self task_id result quality_score now).2))).
Proof.
  split; [|split].
  - unfold BaseAgent.take_break. cbn -[BaseAgent.can_accept_task fmax PrimFloat.sub].
    destruct (BaseAgent.can_accept_task _);
      cbn -[fmax PrimFloat.sub];
      pose proof (fmax_zero_floor (BaseAgent.stress_level (BaseAgent.biometrics self) - 0.3)%float);
      pose proof (fmax_zero_floor (BaseAgent.cognitive_load (BaseAgent.biometrics self) - 0.3)%float);
      tauto.
  - split; reflexivity.
  - intros task_id result quality_score [task Htask].
    unfold BaseAgent.complete_task. rewrite Htask. cbn -[fmax PrimFloat.sub].
    apply fmax_zero_floor.
Qed.

Lemma levels_are_floored_at_zero_witness :
  (BaseAgent.cognitive_load
     (BaseAgent.biometrics
        (BaseAgent.complete_task Examples.busy_agent "t1" [] 1%float 2%Z).2) <? 0)%float = false /\
  comparable
    (BaseAgent.cognitive_load
       (BaseAgent.biometrics
          (BaseAgent.complete_task Examples.busy_agent "t1" [] 1%float 2%Z).2)).
Proof.
  apply (proj2 (proj2 (levels_are_floored_at_zero Examples.busy_agent 2)) "t1"%string [] 1%float).
  eexists. reflexivity.
Defined.

Lemma recovery_blocks (b : BaseAgent.AgentBiometrics) :
  BaseAgent.current_status b = BaseAgent.RECOVERY -> BaseAgent.can_accept_task b = false.
Proof.
  intros Hstatus. unfold BaseAgent.can_accept_task. rewrite Hstatus.
  destruct (_ <=? _); [done|]. by destruct (BaseAgent.needs_rest b).
Qed.

Lemma take_break_status (self : BaseAgent.BaseAgent) (now : BaseAgent.datetime) :
  BaseAgent.current_status (BaseAgent.biometrics (BaseAgent.take_break self now))
  = BaseAgent.RECOVERY.
Proof.
  unfold BaseAgent.take_break. cbn [BaseAgent.biometrics BaseAgent.set_biometrics].
  by rewrite recovery_blocks.
Qed.

(** X6.  A break and a rest both end in recovery.  [take_break] asks
    [can_accept_task] while the status it has just set is still
    recovery, so it never returns the agent to idle; [rest] does not try.
    After either, [can_accept_task] is false and [assign_task] refuses
    every task and changes nothing. *)
Theorem break_and_rest_end_in_recovery (self : BaseAgent.BaseAgent) (now : BaseAgent.datetime) :
  (BaseAgent.current_status (BaseAgent.biometrics (BaseAgent.take_break self now))
     = BaseAgent.RECOVERY /\
   BaseAgent.can_accept_task (BaseAgent.biometrics (BaseAgent.take_break self now)) = false /\
   forall task later,
     BaseAgent.assign_task (BaseAgent.take_break self now) task later =
     (false, BaseAgent.take_break self now)) /\
  (BaseAgent.current_status (BaseAgent.biometrics (BaseAgent.rest self now))
     = BaseAgent.RECOVERY /\
   BaseAgent.can_accept_task (BaseAgent.biometrics (BaseAgent.rest self now)) = false /\
   forall task later,
     BaseAgent.assign_task (BaseAgent.rest self now) task later =
     (false, BaseAgent.rest self now)).
Proof.
  pose proof (take_break_status self now) as Hbreak.
  assert (BaseAgent.current_status (BaseAgent.biometrics (BaseAgent.rest self now))
          = BaseAgent.RECOVERY) as Hrest by reflexivity.
  split.
  - split; [exact Hbreak|]. split; [by apply recovery_blocks|].
    intros task later. unfold BaseAgent.assign_task. by rewrite (recovery_blocks _ Hbreak).
  - split; [exact Hrest|]. split; [by apply recovery_blocks|].
    intros task later. unfold BaseAgent.assign_task. by rewrite (recovery_blocks _ Hrest).
Qed.

(** An agent in recovery that holds no task stays so under every
    operation. *)
Lemma idle_recovery_step (self : BaseAgent.BaseAgent) (op : BaseAgent.AgentOp) :
  BaseAgent.tasks self = ∅ ->
  BaseAgent.current_status (BaseAgent.biometrics self) = BaseAgent.RECOVERY ->
  BaseAgent.tasks (BaseAgent.step self op) = ∅ /\
  BaseAgent.current_status (BaseAgent.biometrics (BaseAgent.step self op)) = BaseAgent.RECOVERY /\
  BaseAgent.concurrent_tasks (BaseAgent.biometrics (BaseAgent.step self op))
  = BaseAgent.concurrent_tasks (BaseAgent.biometrics self).
Proof.
  intros Hnone Hstatus.
  destruct op as [task now|id now|id result quality now|now|now]; unfold BaseAgent.step.
  - unfold BaseAgent.assign_task. by rewrite (recovery_blocks _ Hstatus).
  - unfold BaseAgent.start_task. by rewrite Hnone, lookup_empty.
  - unfold BaseAgent.complete_task. by rewrite Hnone, lookup_empty.
  - split; [exact Hnone|]. split; [apply take_break_status | apply take_break_concurrent].
  - done.
Qed.

(** X7.  An agent that holds no task and goes into recovery is stuck
    there: no sequence of [assign_task], [start_task], [complete_task],
    [take_break] and [rest] gives it a task or takes it out of recovery,
    and every assignment along the way is refused.  A fresh agent that
    takes a break before its first task is in that position. *)
Theorem recovery_without_tasks_is_final (ops : list BaseAgent.AgentOp)
    (self : BaseAgent.BaseAgent) :
  BaseAgent.tasks self = ∅ ->
  BaseAgent.current_status (BaseAgent.biometrics self) = BaseAgent.RECOVERY ->
  BaseAgent.tasks (BaseAgent.run self ops) = ∅ /\
  BaseAgent.current_status (BaseAgent.biometrics (BaseAgent.run self ops)) = BaseAgent.RECOVERY /\
  BaseAgent.concurrent_tasks (BaseAgent.biometrics (BaseAgent.run self ops))
  = BaseAgent.concurrent_tasks (BaseAgent.biometrics self) /\
  forall task now, (BaseAgent.assign_task (BaseAgent.run self ops) task now).1 = false.
Proof.
  revert self. induction ops as [|op ops IH]; intros self Hnone Hstatus.
  - change (BaseAgent.run self []) with self.
    repeat split; try done. intros task now. unfold BaseAgent.assign_task.
    by rewrite (recovery_blocks _ Hstatus).
  - change (BaseAgent.run self (op :: ops)) with (BaseAgent.run (BaseAgent.step self op) ops).
    destruct (idle_recovery_step self op Hnone Hstatus) as (Hnone' & Hstatus' & Hcount).
    destruct (IH _ Hnone' Hstatus') as (? & ? & Hcount' & ?).
    repeat split; try done. by rewrite <- Hcount.
Qed.

Lemma recovery_without_tasks_is_final_witness :
  BaseAgent.tasks
    (BaseAgent.run (BaseAgent.take_break (BaseAgent.init "veda" "Backend" [] 0 0) 1)
       [BaseAgent.OpAssignTask
          (BaseAgent.new_task "t1" "title" "description" "pollen" BaseAgent.HIGH 8) 2;
        BaseAgent.OpStartTask "t1" 3; BaseAgent.OpTakeBreak 4]) = ∅ /\
  BaseAgent.current_status
    (BaseAgent.biometrics
       (BaseAgent.run (BaseAgent.take_break (BaseAgent.init "veda" "Backend" [] 0 0) 1)
          [BaseAgent.OpAssignTask
             (BaseAgent.new_task "t1" "title" "description" "pollen" BaseAgent.HIGH 8) 2;
           BaseAgent.OpStartTask "t1" 3; BaseAgent.OpTakeBreak 4])) = BaseAgent.RECOVERY.
Proof.
  destruct (recovery_without_tasks_is_final
              [BaseAgent.OpAssignTask
                 (BaseAgent.new_task "t1" "title" "description" "pollen" BaseAgent.HIGH 8) 2;
               BaseAgent.OpStartTask "t1" 3; BaseAgent.OpTakeBreak 4]
              (BaseAgent.take_break (BaseAgent.init "veda" "Backend" [] 0 0) 1))
    as (Hnone & Hstatus & _); [reflexivity | reflexivity |].
  split; [exact Hnone | exact Hstatus].
Defined.

Lemma step_keeps_tasks (self : BaseAgent.BaseAgent) (op : BaseAgent.AgentOp) (task_id : string) :
  is_Some (BaseAgent.tasks self !! task_id) ->
  is_Some (BaseAgent.tasks (BaseAgent.step self op) !! task_id).
Proof.
  intros Hthere. destruct op as [task now|id now|id result quality now|now|now];
    unfold BaseAgent.step.
  - unfold BaseAgent.assign_task. destruct (negb _); [done|].
    cbn [snd BaseAgent.tasks BaseAgent.id]. rewrite lookup_insert_is_Some.
    destruct (decide (BaseAgent.id task = task_id)); [by left | by right].
  - unfold BaseAgent.start_task. destruct (BaseAgent.tasks self !! id); [|done].
    cbn [snd BaseAgent.tasks]. rewrite lookup_insert_is_Some.
    destruct (decide (id = task_id)); [by left | by right].
  - unfold BaseAgent.complete_task. destruct (BaseAgent.tasks self !! id); [|done].
    cbn [snd BaseAgent.tasks]. rewrite lookup_insert_is_Some.
    destruct (decide (id = task_id)); [by left | by right].
  - unfold BaseAgent.take_break. by cbn [BaseAgent.set_biometrics BaseAgent.tasks].
  - done.
Qed.

Lemma step_extends_history (self : BaseAgent.BaseAgent) (op : BaseAgent.AgentOp) :
  BaseAgent.task_history self `prefix_of` BaseAgent.task_history (BaseAgent.step self op).
Proof.
  destruct op as [task now|id now|id result quality now|now|now]; unfold BaseAgent.step.
  - unfold BaseAgent.assign_task. by destruct (negb _).
  - unfold BaseAgent.start_task. by destruct (BaseAgent.tasks self !! id).
  - unfold BaseAgent.complete_task. destruct (BaseAgent.tasks self !! id); [|done].
    cbn [snd BaseAgent.task_history]. by apply prefix_app_r.
  - done.
  - done.
Qed.

(** X8.  An agent never forgets a task: whatever operations follow, a
    task that is in [tasks] stays there, completed or not, and
    [task_history] only grows at its end: the identifiers it held are
    the first identifiers of the later history. *)
Theorem tasks_are_never_removed (ops : list BaseAgent.AgentOp) (self : BaseAgent.BaseAgent)
    (task_id : string) :
  is_Some (BaseAgent.tasks self !! task_id) ->
  is_Some (BaseAgent.tasks (BaseAgent.run self ops) !! task_id) /\
  map BaseAgent.id (BaseAgent.task_history self)
    `prefix_of` map BaseAgent.id (BaseAgent.task_history (BaseAgent.run self ops)).
Proof.
  revert self. induction ops as [|op ops IH]; intros self Hthere; [done|].
  destruct (IH (BaseAgent.step self op) (step_keeps_tasks _ _ _ Hthere)) as [Hkept Hhistory].
  split; [exact Hkept|]. etrans; [|exact Hhistory].
  destruct (step_extends_history self op) as [more ->].
  rewrite map_app. by apply prefix_app_r.
Qed.

Lemma tasks_are_never_removed_witness :
  is_Some (BaseAgent.tasks
             (BaseAgent.run Examples.busy_agent
                [BaseAgent.OpStartTask "t1" 2; BaseAgent.OpCompleteTask "t1" [] 1 3;
                 BaseAgent.OpRest 4; BaseAgent.OpTakeBreak 5])
           !! "t1"%string) /\
  map BaseAgent.id (BaseAgent.task_history Examples.busy_agent)
    `prefix_of`
  map BaseAgent.id
    (BaseAgent.task_history
       (BaseAgent.run Examples.busy_agent
          [BaseAgent.OpStartTask "t1" 2; BaseAgent.OpCompleteTask "t1" [] 1 3;
           BaseAgent.OpRest 4; BaseAgent.OpTakeBreak 5])).
Proof.
  apply tasks_are_never_removed. eexists. reflexivity.
Defined.

(** X9.  Completing a task does not retire it: the same task can be
    completed again, each completion is reported, appended to the
    history and takes one off the count of concurrent tasks, which is
    not floored at zero. *)
Theorem completion_is_repeatable (self : BaseAgent.BaseAgent) (task_id : string)
    (task : BaseAgent.Task) (result1 result2 : list (string * string))
    (quality1 quality2 : float) (now1 now2 : BaseAgent.datetime) :
  BaseAgent.tasks self !! task_id = Some task ->
  exists report1 report2,
    (BaseAgent.complete_task self task_id result1 quality1 now1).1
      = BaseAgent.Completed report1 /\
    (BaseAgent.complete_task
       (BaseAgent.complete_task self task_id result1 quality1 now1).2
       task_id result2 quality2 now2).1 = BaseAgent.Completed report2 /\
    BaseAgent.concurrent_tasks
      (BaseAgent.biometrics
         (BaseAgent.complete_task
            (BaseAgent.complete_task self task_id result1 quality1 now1).2
            task_id result2 quality2 now2).2)
      = BaseAgent.concurrent_tasks (BaseAgent.biometrics self) - 2 /\
    length (BaseAgent.task_history
              (BaseAgent.complete_task
                 (BaseAgent.complete_task self task_id result1 quality1 now1).2
                 task_id result2 quality2 now2).2)
      = (length (BaseAgent.task_history self) + 2)%nat.
Proof.
  intros Htask.
  destruct (BaseAgent.complete_task self task_id result1 quality1 now1) as [out1 self1] eqn:H1.
  unfold BaseAgent.complete_task in H1. rewrite Htask in H1. injection H1 as <- <-.
  unfold BaseAgent.complete_task at 1 2 3. cbn [snd fst BaseAgent.tasks].
  rewrite lookup_insert_eq. cbn [fst snd BaseAgent.biometrics BaseAgent.concurrent_tasks
    BaseAgent.task_history].
  eexists _, _. split; [reflexivity|]. split; [reflexivity|].
  split; [lia|]. rewrite !length_app. cbn [length]. lia.
Qed.

Lemma completion_is_repeatable_witness :
  exists report1 report2,
    (BaseAgent.complete_task Examples.busy_agent "t1" [] 1 2).1
      = BaseAgent.Completed report1 /\
    (BaseAgent.complete_task
       (BaseAgent.complete_task Examples.busy_agent "t1" [] 1 2).2 "t1" [] 1 3).1
      = BaseAgent.Completed report2 /\
    BaseAgent.concurrent_tasks
      (BaseAgent.biometrics
         (BaseAgent.complete_task
            (BaseAgent.complete_task Examples.busy_agent "t1" [] 1 2).2 "t1" [] 1 3).2)
      = BaseAgent.concurrent_tasks (BaseAgent.biometrics Examples.busy_agent) - 2 /\
    length (BaseAgent.task_history
              (BaseAgent.complete_task
                 (BaseAgent.complete_task Examples.busy_agent "t1" [] 1 2).2 "t1" [] 1 3).2)
      = (length (BaseAgent.task_history Examples.busy_agent) + 2)%nat.
Proof.
  eapply completion_is_repeatable. reflexivity.
Defined.

End AgentFacts.

(** ** More on the chair: bookkeeping of the plan, dependencies, deployment *)

Section ChairFacts.
Import Py Agents Council TessAgent Plan.
Local Open Scope string_scope.

Lemma filter_bool_split {A : Type} (f : A -> bool) (xs : list A) :
  (filter (fun x => f x = false) xs ++ filter (fun x => f x = true) xs)%list ≡ₚ xs.
Proof.
  induction xs as [|x rest IH]; [done|]. rewrite !filter_cons.
  destruct (f x).
  - rewrite decide_False by done. rewrite decide_True by done.
    rewrite <- Permutation_middle. by f_equiv.
  - rewrite decide_True by done. rewrite decide_False by done. cbn. by f_equiv.
Qed.

Lemma map_const_replicate {A : Type} (xs : list A) (s : string) :
  map (fun _ => s) xs = replicate (length xs) s.
Proof. induction xs as [|x rest IH]; [done|]. cbn. by rewrite IH. Qed.

(** X10.  [coordinate_dependencies] only annotates and reorders: apart
    from [depends_on] the assignments that come out are those that went
    in, those without dependencies before those with.  A dependency list
    it writes names no task: assignments carry no task id, so the list
    is a run of empty strings, one per task found. *)
Theorem coordinate_dependencies_reorders (assignments : list Assignment) :
  map (fun a => (agent a, assigned_task a, estimated_hours a, repo a,
                 redistributed_from a, status a, reason a))
      (coordinate_dependencies assignments)
  ≡ₚ map (fun a => (agent a, assigned_task a, estimated_hours a, repo a,
                    redistributed_from a, status a, reason a))
         assignments /\
  (exists free bound,
      coordinate_dependencies assignments = (free ++ bound)%list /\
      Forall (fun a => has_dependencies a = false) free /\
      Forall (fun a => has_dependencies a = true) bound) /\
  Forall (fun a =>
            (exists n : nat, depends_on a = Some (replicate n "")) \/
            (exists b, b ∈ assignments /\ depends_on a = depends_on b /\
                       contains "bridge" (lower (assigned_task b)) = false /\
                       contains "api" (lower (assigned_task b)) = false /\
                       contains "integration" (lower (assigned_task b)) = false))
         (coordinate_dependencies assignments).
Proof.
  unfold coordinate_dependencies, _topological_sort.
  match goal with
  | |- context [filter _ (map ?f assignments)] => set (annotate := f)
  end.
  split; [|split].
  - rewrite filter_bool_split, <- list_fmap_compose.
    match goal with |- ?l ≡ₚ ?r => assert (l = r) as ->; [|done] end.
    apply map_ext. intros a. unfold annotate, compose.
    destruct (_ || _), (contains "integration" _); reflexivity.
  - eexists _, _. split; [reflexivity|].
    split; apply Forall_forall; intros a Ha; by apply list_elem_of_filter in Ha as [Ha _].
  - apply Forall_forall. intros a Ha.
    assert (a ∈ map annotate assignments) as Hin.
    { apply elem_of_app in Ha as [Ha|Ha]; by apply list_elem_of_filter in Ha as [_ Ha]. }
    apply list_elem_of_fmap in Hin as (b & -> & Hb). unfold annotate.
    unfold _find_backend_tasks, _find_component_tasks.
    destruct (contains "integration" (lower (assigned_task b))) eqn:Hint.
    { left. eexists. cbn [depends_on set_depends_on]. by rewrite map_const_replicate. }
    destruct (contains "bridge" (lower (assigned_task b))) eqn:Hbridge.
    { left. eexists. cbn [orb depends_on set_depends_on]. by rewrite map_const_replicate. }
    destruct (contains "api" (lower (assigned_task b))) eqn:Hapi.
    { left. eexists. cbn [orb depends_on set_depends_on]. by rewrite map_const_replicate. }
    right. exists b. by cbn [orb].
Qed.

Lemma booked_snoc (name : string) (plan : list Assignment) (a : Assignment) :
  booked name (plan ++ [a])%list =
  (booked name plan + if decide (agent a = name /\ status a = None) then 1 else 0)%Z.
Proof.
  unfold booked. rewrite filter_app, length_app, filter_cons, filter_nil.
  destruct (decide _); cbn [length]; lia.
Qed.

(** The loop only picks a neighbour that has a slot left. *)
Lemma first_able_neighbor_has_room (neighbors : list string) (task : string) (agents : Agents)
    (agent_loads : gmap string AgentLoad) (chosen : string) :
  first_able_neighbor neighbors task agents agent_loads = Returned (Some chosen) ->
  exists load, agent_loads !! chosen = Some load /\ (0 < available_capacity load)%Z.
Proof.
  induction neighbors as [|n rest IH]; [done|]. cbn [first_able_neighbor].
  destruct (get agents n); [|exact IH].
  destruct (agent_loads !! n) as [load|] eqn:Hload; [|done].
  destruct (Z.leb_spec (available_capacity load) 0); [exact IH|].
  destruct (0.3 <? _)%float; [|exact IH].
  intros [= <-]. by exists load.
Qed.

(** What [distribute] does to the loads: each assignment that is not
    queued takes one slot from its agent, and no slot is taken from an
    agent that has none. *)
Lemma distribute_books (proposals : list Proposal) (agents : Agents)
    (agent_loads loads' : gmap string AgentLoad) (done out : list Assignment)
    (name : string) (load : AgentLoad) :
  distribute proposals agents agent_loads done = Returned (out, loads') ->
  agent_loads !! name = Some load ->
  exists load',
    loads' !! name = Some load' /\
    (available_capacity load' + booked name out
     = available_capacity load + booked name done)%Z /\
    (0 <= available_capacity load -> 0 <= available_capacity load')%Z.
Proof.
  revert agent_loads done load.
  induction proposals as [|p rest IH]; intros agent_loads done load H Hload.
  - injection H as <- <-. exists load. by rewrite Hload.
  - cbn [distribute] in H.
    destruct (agent_loads !! assigned_to p) as [preferred_load|] eqn:Hpreferred; [|done].
    destruct (Z.ltb_spec 0 (available_capacity preferred_load)) as [Hroom|Hfull].
    + destruct (decide (assigned_to p = name)) as [Heq|Hne].
      * rewrite Heq in *. assert (preferred_load = load) as -> by congruence.
        destruct (IH _ _ (reserve load) H) as (load' & Hl & Hsum & Hpos);
          [by rewrite lookup_insert_eq|].
        exists load'. split; [done|]. rewrite booked_snoc in Hsum. cbn in Hsum.
        rewrite decide_True in Hsum by done. cbn in Hpos. split; lia.
      * destruct (IH _ _ load H) as (load' & Hl & Hsum & Hpos);
          [by rewrite lookup_insert_ne|].
        exists load'. split; [done|]. rewrite booked_snoc in Hsum. cbn in Hsum.
        rewrite decide_False in Hsum by tauto. split; [lia | done].
    + destruct (_redistribute_to_neighbor _ _ _ _) as [[chosen|]|] eqn:Hr; [| |done].
      * apply first_able_neighbor_has_room in Hr as (chosen_load & Hchosen & Hroom).
        rewrite Hchosen in H.
        destruct (decide (chosen = name)) as [Heq|Hne].
        -- rewrite Heq in *. assert (chosen_load = load) as -> by congruence.
           destruct (IH _ _ (reserve load) H) as (load' & Hl & Hsum & Hpos);
             [by rewrite lookup_insert_eq|].
           exists load'. split; [done|]. rewrite booked_snoc in Hsum. cbn in Hsum.
           rewrite decide_True in Hsum by done. cbn in Hpos. split; lia.
        -- destruct (IH _ _ load H) as (load' & Hl & Hsum & Hpos);
             [by rewrite lookup_insert_ne|].
           exists load'. split; [done|]. rewrite booked_snoc in Hsum. cbn in Hsum.
           rewrite decide_False in Hsum by tauto. split; [lia | done].
      * destruct (IH _ _ load H Hload) as (load' & Hl & Hsum & Hpos).
        exists load'. split; [done|]. rewrite booked_snoc in Hsum. cbn in Hsum.
        rewrite decide_False in Hsum by (by intros [_ ?]). split; [lia | done].
Qed.

Lemma initial_loads_lookup (agents : Agents) (name : string) :
  initial_loads agents !! name =
  (fun agent : Agent =>
     {| current_tasks := BaseAgent.concurrent_tasks (BaseAgent.biometrics (base agent));
        max_tasks := BaseAgent.MAX_CONCURRENT_TASKS;
        stress := BaseAgent.stress_level (BaseAgent.biometrics (base agent));
        available_capacity :=
          BaseAgent.MAX_CONCURRENT_TASKS
          - BaseAgent.concurrent_tasks (BaseAgent.biometrics (base agent)) |})
    <$> get agents name.
Proof.
  unfold initial_loads. induction agents as [|[key a] rest IH]; [done|].
  cbn [map list_to_map foldr fst snd get].
  destruct (String.eqb_spec key name) as [->|Hne].
  - by rewrite lookup_insert_eq.
  - rewrite lookup_insert_ne by done. exact IH.
Qed.

(** X11.  The plan of [optimize_distribution] has one assignment for
    each proposal and never books an agent beyond its free slots: for
    every agent of the council, the capacity reported in [load_balance]
    is its free slots less the assignments it holds that are not queued,
    and an agent that was within its ceiling is given no more of them
    than it has free slots. *)
Theorem plan_never_overbooks (proposals : list Proposal) (agents : Agents)
    (plan : OptimizedPlan) (name : string) (member : Agent) :
  optimize_distribution proposals agents = Returned plan ->
  get agents name = Some member ->
  map assigned_task (assignments plan) = map task proposals /\
  (available_capacity <$> load_balance plan !! name) =
    Some (BaseAgent.MAX_CONCURRENT_TASKS
          - BaseAgent.concurrent_tasks (BaseAgent.biometrics (base member))
          - booked name (assignments plan))%Z /\
  ((BaseAgent.concurrent_tasks (BaseAgent.biometrics (base member))
    <= BaseAgent.MAX_CONCURRENT_TASKS)%Z ->
   (BaseAgent.concurrent_tasks (BaseAgent.biometrics (base member))
    + booked name (assignments plan) <= BaseAgent.MAX_CONCURRENT_TASKS)%Z).
Proof.
  unfold optimize_distribution. intros H Hmember.
  destruct (distribute proposals agents (initial_loads agents) [])
    as [[out loads']|e] eqn:Hd; [|done].
  cbn [and_then fst snd] in H.
  destruct (_calculate_timeline out agents) as [timeline|e]; [|done].
  cbn [and_then] in H. injection H as <-. cbn [assignments load_balance].
  split.
  - apply distribute_adjacent in Hd as (new & -> & Hnew). cbn [app].
    clear Hmember. induction Hnew as [|p a ps new' (Htask & _) _ IH]; [done|].
    cbn [map]. by rewrite Htask, IH.
  - pose proof (initial_loads_lookup agents name) as Hload. rewrite Hmember in Hload.
    destruct (distribute_books _ _ _ _ _ _ _ _ Hd Hload) as (load' & -> & Hsum & Hpos).
    cbn in Hsum, Hpos |- *. change (booked name []) with 0%Z in Hsum.
    split; [f_equal; lia | lia].
Qed.

Lemma plan_never_overbooks_witness :
  exists plan,
    optimize_distribution
      (map (fun t => {| task := t; assigned_to := "hex"; proposal_confidence := 1;
                        alternatives := [] |})
           ["ledger one"; "ledger two"; "ledger three"; "ledger four"])
      (create_council 0%Z) = Returned plan /\
    (BaseAgent.concurrent_tasks (BaseAgent.biometrics (base (new_hex 0%Z)))
     + booked "hex" (assignments plan) <= BaseAgent.MAX_CONCURRENT_TASKS)%Z.
Proof.
  destruct (optimize_distribution
              (map (fun t => {| task := t; assigned_to := "hex"; proposal_confidence := 1;
                                alternatives := [] |})
                   ["ledger one"; "ledger two"; "ledger three"; "ledger four"])
              (create_council 0%Z)) as [plan|e] eqn:H.
  - exists plan. split; [reflexivity|].
    apply (plan_never_overbooks _ _ plan "hex" (new_hex 0%Z) H); [reflexivity | vm_compute; discriminate].
  - exfalso. vm_compute in H. discriminate H.
Defined.

(** ** Routing followed by distribution *)

Lemma get_is_Some_keys (agents : Agents) (name : string) :
  is_Some (get agents name) <-> name ∈ keys agents.
Proof.
  induction agents as [|[key a] rest IH]; cbn [get keys map fst].
  - split; [by intros [? ?] | by intros ?%elem_of_nil].
  - destruct (String.eqb_spec key name) as [->|Hne].
    + split; [intros _; apply elem_of_cons; by left | by eexists].
    + rewrite IH. split; [intros ?; apply elem_of_cons; by right|].
      intros [?|?]%elem_of_cons; [congruence | done].
Qed.

Lemma initial_loads_match (agents : Agents) : loads_match agents (initial_loads agents).
Proof.
  intros name. by rewrite initial_loads_lookup, <- get_is_Some_keys, fmap_is_Some.
Qed.

Lemma insert_keeps_match (agents : Agents) (agent_loads : gmap string AgentLoad)
    (name : string) (load : AgentLoad) :
  is_Some (agent_loads !! name) -> loads_match agents agent_loads ->
  loads_match agents (<[name := load]> agent_loads).
Proof.
  intros Hthere Hmatch key. rewrite lookup_insert_is_Some, <- (Hmatch key).
  split; [intros [<-|[_ ?]]; done | intros ?].
  destruct (decide (name = key)); [by left | by right].
Qed.

Lemma loads_match_cover (agents : Agents) (agent_loads : gmap string AgentLoad) :
  loads_match agents agent_loads ->
  Forall (fun name => is_Some (agent_loads !! name)) (keys agents).
Proof. intros Hmatch. apply Forall_forall. intros name. apply Hmatch. Qed.

(** [distribute] fails on nothing but a proposal for an agent the loads
    do not know, and on the first such proposal. *)
Lemma distribute_outcome (proposals : list Proposal) (agents : Agents)
    (agent_loads : gmap string AgentLoad) (done : list Assignment) :
  loads_match agents agent_loads ->
  (Forall (fun p => assigned_to p ∈ keys agents) proposals /\
   exists out, distribute proposals agents agent_loads done = Returned out) \/
  (exists p, p ∈ proposals /\ (assigned_to p ∉ keys agents) /\
             distribute proposals agents agent_loads done = Raised (KeyError (assigned_to p))).
Proof.
  revert agent_loads done.
  induction proposals as [|p rest IH]; intros agent_loads done Hmatch.
  { left. split; [constructor | by eexists]. }
  cbn [distribute].
  destruct (agent_loads !! assigned_to p) as [load|] eqn:Hload.
  - assert (assigned_to p ∈ keys agents) as Hkey by (apply Hmatch; by eexists).
    assert (forall loads done',
               loads_match agents loads ->
               (Forall (fun p => assigned_to p ∈ keys agents) (p :: rest) /\
                exists out, distribute rest agents loads done' = Returned out) \/
               (exists q, q ∈ p :: rest /\ (assigned_to q ∉ keys agents) /\
                          distribute rest agents loads done' = Raised (KeyError (assigned_to q))))
      as Hrest.
    { intros loads done' Hloads.
      destruct (IH loads done' Hloads) as [[Hall Hout]|(q & Hq & Hkeyq & Hraise)].
      - left. split; [by constructor | done].
      - right. exists q. split; [apply elem_of_cons; by right | done]. }
    destruct (0 <? available_capacity load)%Z.
    { apply Hrest, insert_keeps_match; [by eexists | done]. }
    unfold _redistribute_to_neighbor.
    rewrite first_able_neighbor_find by by apply loads_match_cover.
    destruct (List.find _ _) as [alternative|] eqn:Hfind.
    + apply find_some_elem_of in Hfind as [_ Hable]. unfold able_neighbor in Hable.
      destruct (get agents alternative); [|done].
      destruct (agent_loads !! alternative) as [alternative_load|] eqn:Halt; [|done].
      apply Hrest, insert_keeps_match; [by eexists | done].
    + by apply Hrest.
  - right. exists p. split; [apply elem_of_cons; by left|]. split; [|done].
    intros Hkey. apply Hmatch in Hkey as [? Hkey]. congruence.
Qed.

(** Whom the chair proposes for a task: the first of the sorted
    candidates, and "veda" when there is none. *)
Lemma deliberate_task_assignee (agents : Agents) (task_desc : string) (p : Proposal) :
  (deliberate_task agents task_desc).2 = Some p ->
  (contenders_of agents task_desc = [] /\ assigned_to p = "veda") \/
  assigned_to p ∈ keys agents.
Proof.
  unfold deliberate_task.
  pose proof (sort_by_confidence_perm (contenders_of agents task_desc)) as Hperm.
  destruct (sort_by_confidence (contenders_of agents task_desc)) as [|first others] eqn:Hsort.
  - apply Permutation_nil_l in Hperm. cbn. intros [= <-]. by left.
  - assert (first ∈ contenders_of agents task_desc) as Hfirst.
    { rewrite <- Hperm. apply elem_of_cons. by left. }
    apply contenders_of_spec in Hfirst as (name & member & Hin & _ & ->).
    assert (name ∈ keys agents) as Hkey.
    { unfold keys. change name with (fst (name, member)). by apply list_elem_of_fmap_2. }
    intros H. right.
    destruct others as [|second others'].
    + cbn in H. destruct (nonempty name); [|done]. by injection H as <-.
    + cbn -[nonempty PrimFloat.ltb PrimFloat.sub] in H.
      destruct (_ <? _)%float; cbn -[nonempty] in H;
        (destruct (nonempty name); [|done]); by injection H as <-.
Qed.

Lemma deliberate_task_without_contenders (agents : Agents) (task_desc : string) :
  contenders_of agents task_desc = [] ->
  exists p, (deliberate_task agents task_desc).2 = Some p /\ assigned_to p = "veda".
Proof.
  intros Hnone. unfold deliberate_task. rewrite Hnone. cbn. by eexists.
Qed.

(** X12.  The chair's routing and its distribution fit together exactly
    when "veda" sits in the council.  With "veda" present, the proposals
    that [deliberate_task] makes for any list of tasks are distributed
    without an error.  Without it, a task that no agent scores above the
    threshold for is proposed to the absent "veda", and
    [optimize_distribution] fails on the missing key. *)
Theorem routed_plan_needs_veda (agents : Agents) (tasks : list string) :
  (is_Some (get agents "veda") ->
   exists plan,
     optimize_distribution (omap snd (map (deliberate_task agents) tasks)) agents
     = Returned plan) /\
  (get agents "veda" = None ->
   Exists (fun task_desc => contenders_of agents task_desc = []) tasks ->
   optimize_distribution (omap snd (map (deliberate_task agents) tasks)) agents
   = Raised (KeyError "veda")).
Proof.
  assert (Forall (fun p => assigned_to p = "veda" \/ assigned_to p ∈ keys agents)
                 (omap snd (map (deliberate_task agents) tasks))) as Hwho.
  { apply Forall_forall. intros p Hp. apply list_elem_of_omap in Hp as (turn & Hturn & Hp).
    apply list_elem_of_fmap in Hturn as (task_desc & -> & _).
    apply deliberate_task_assignee in Hp as [[_ ?]|?]; [by left | by right]. }
  pose proof (distribute_outcome (omap snd (map (deliberate_task agents) tasks)) agents
                (initial_loads agents) [] (initial_loads_match agents)) as Hout.
  unfold optimize_distribution. split.
  - intros Hveda.
    destruct Hout as [[_ [[out loads'] ->]]|(p & Hp & Hkey & _)].
    + cbn [and_then fst snd]. unfold _calculate_timeline.
      destruct agents as [|entry rest]; [by destruct Hveda|].
      destruct (Z.eqb_spec (Z.of_nat (length (entry :: rest)) * 8) 0) as [Hzero|_];
        [cbn [length] in Hzero; lia|].
      by eexists.
    + exfalso. rewrite Forall_forall in Hwho.
      destruct (Hwho p Hp) as [Hp'|Hp']; [|done].
      apply Hkey. rewrite Hp'. by apply get_is_Some_keys.
  - intros Hveda Hexists.
    assert ("veda" ∉ keys agents) as Habsent.
    { intros Hin%get_is_Some_keys. rewrite Hveda in Hin. by destruct Hin. }
    destruct Hout as [[Hall _]|(p & Hp & Hkey & ->)].
    + exfalso. apply Exists_exists in Hexists as (task_desc & Htask & Hnone).
      apply deliberate_task_without_contenders in Hnone as (p & Hp & Hveda').
      rewrite Forall_forall in Hall. apply Habsent. rewrite <- Hveda'. apply Hall.
      apply list_elem_of_omap. exists (deliberate_task agents task_desc).
      split; [by apply list_elem_of_fmap_2 | done].
    + rewrite Forall_forall in Hwho.
      destruct (Hwho p Hp) as [->|Hp']; [done | by destruct Hkey].
Qed.

(** ** Deployment *)

Lemma keys_put (agents : Agents) (name : string) (agent : Agent) :
  keys (put agents name agent) = keys agents.
Proof.
  induction agents as [|[key a] rest IH]; [done|]. cbn [put].
  destruct (String.eqb key name); [done|]. cbn [keys map fst]. f_equal. exact IH.
Qed.

Lemma get_Some_elem_of (agents : Agents) (name : string) (agent : Agent) :
  get agents name = Some agent -> (name, agent) ∈ agents.
Proof.
  induction agents as [|[key a] rest IH]; [done|]. cbn [get].
  destruct (String.eqb_spec key name) as [->|_].
  - intros [= ->]. apply elem_of_cons. by left.
  - intros H. apply elem_of_cons. right. by apply IH.
Qed.

Lemma put_Forall (P : string * Agent -> Prop) (agents : Agents) (name : string)
    (agent : Agent) :
  Forall P agents -> P (name, agent) -> Forall P (put agents name agent).
Proof.
  intros Hall Hnew. induction Hall as [|[key a] rest Hhead Hrest IH]; [constructor|].
  cbn [put]. destruct (String.eqb_spec key name) as [->|_]; by constructor.
Qed.

(** X13.  [deploy_assignments] accounts for every assignment of the
    plan, in order, with one result each: failed exactly when the agent
    is not in the council, deployed or queued otherwise.  It neither adds
    nor removes a council member, and it leaves no agent above the
    ceiling of concurrent tasks that was not above it before. *)
Theorem deployment_accounts_for_every_assignment (plan : list Assignment) (agents : Agents)
    (clock : nat -> BaseAgent.datetime) (n : nat) :
  map (fun r => match r with Failed a _ | Deployed a _ _ | Queued a _ _ => a end)
      (deploy_assignments plan agents clock n).1 = plan /\
  keys (deploy_assignments plan agents clock n).2 = keys agents /\
  Forall (fun r => match r with
                   | Failed a missing => missing = agent a /\ get agents (agent a) = None
                   | Deployed a _ name | Queued a _ name =>
                       name = agent a /\ is_Some (get agents (agent a))
                   end)
         (deploy_assignments plan agents clock n).1 /\
  (Forall (fun entry : string * Agent =>
             (BaseAgent.concurrent_tasks (BaseAgent.biometrics (base entry.2))
              <= BaseAgent.MAX_CONCURRENT_TASKS)%Z) agents ->
   Forall (fun entry : string * Agent =>
             (BaseAgent.concurrent_tasks (BaseAgent.biometrics (base entry.2))
              <= BaseAgent.MAX_CONCURRENT_TASKS)%Z)
          (deploy_assignments plan agents clock n).2).
Proof.
  revert agents n. induction plan as [|a rest IH]; intros agents n.
  { cbn. repeat split; done. }
  cbn [deploy_assignments].
  destruct (get agents (agent a)) as [target|] eqn:Hget.
  - set (task := BaseAgent.new_task _ _ _ _ _ _).
    pose proof (assign_task_concurrent (base target) task (clock n)) as Hcount.
    destruct (BaseAgent.assign_task (base target) task (clock n)) as [assigned b] eqn:Hassign.
    cbn [snd] in Hcount.
    assert (keys_same : forall b' : BaseAgent.BaseAgent,
               keys (put agents (agent a) (set_base target b')) = keys agents)
      by (intros; apply keys_put).
    assert (Hstill : forall (b' : BaseAgent.BaseAgent) name,
               is_Some (get (put agents (agent a) (set_base target b')) name)
               <-> is_Some (get agents name)).
    { intros b' name. by rewrite !get_is_Some_keys, keys_put. }
    assert (Hnone : forall (b' : BaseAgent.BaseAgent) name,
               get (put agents (agent a) (set_base target b')) name = None
               <-> get agents name = None).
    { intros b' name. rewrite !eq_None_not_Some. by rewrite Hstill. }
    assert (Hresults : forall (b' : BaseAgent.BaseAgent) results,
               Forall (fun r => match r with
                   | Failed a0 missing =>
                       missing = agent a0 /\
                       get (put agents (agent a) (set_base target b')) (agent a0) = None
                   | Deployed a0 _ name | Queued a0 _ name =>
                       name = agent a0 /\
                       is_Some (get (put agents (agent a) (set_base target b')) (agent a0))
                   end) results ->
               Forall (fun r => match r with
                   | Failed a0 missing => missing = agent a0 /\ get agents (agent a0) = None
                   | Deployed a0 _ name | Queued a0 _ name =>
                       name = agent a0 /\ is_Some (get agents (agent a0))
                   end) results).
    { intros b' results Hall. eapply Forall_impl; [exact Hall|].
      intros [a0 missing|a0 ? name|a0 ? name]; cbn; rewrite ?Hnone, ?Hstill; done. }
    assert (Hcap : forall b' : BaseAgent.BaseAgent,
               (BaseAgent.concurrent_tasks (BaseAgent.biometrics b')
                <= BaseAgent.MAX_CONCURRENT_TASKS)%Z ->
               Forall (fun entry : string * Agent =>
                         (BaseAgent.concurrent_tasks (BaseAgent.biometrics (base entry.2))
                          <= BaseAgent.MAX_CONCURRENT_TASKS)%Z) agents ->
               Forall (fun entry : string * Agent =>
                         (BaseAgent.concurrent_tasks (BaseAgent.biometrics (base entry.2))
                          <= BaseAgent.MAX_CONCURRENT_TASKS)%Z)
                      (put agents (agent a) (set_base target b'))).
    { intros b' Hb Hall. by apply put_Forall. }
    assert (Hb : Forall (fun entry : string * Agent =>
                         (BaseAgent.concurrent_tasks (BaseAgent.biometrics (base entry.2))
                          <= BaseAgent.MAX_CONCURRENT_TASKS)%Z) agents ->
                 (BaseAgent.concurrent_tasks (BaseAgent.biometrics b)
                  <= BaseAgent.MAX_CONCURRENT_TASKS)%Z).
    { intros Hall. rewrite Forall_forall in Hall.
      pose proof (Hall _ (get_Some_elem_of _ _ _ Hget)) as Htarget. cbn [snd] in Htarget.
      rewrite Hcount.
      destruct (BaseAgent.can_accept_task (BaseAgent.biometrics (base target))) eqn:Hgate;
        [|done].
      apply can_accept_task_below_max in Hgate. lia. }
    destruct assigned.
    + pose proof (start_task_concurrent b (BaseAgent.id task) (clock n)) as Hstart.
      destruct (BaseAgent.start_task b (BaseAgent.id task) (clock n)) as [started b'].
      cbn [snd] in Hstart.
      destruct (IH (put agents (agent a) (set_base target b')) (S n))
        as (Hplan & Hkeys & Hres & Hceil).
      destruct (deploy_assignments rest _ clock (S n)) as [results agents'].
      cbn [fst snd map] in *. split; [by rewrite Hplan|]. split; [by rewrite Hkeys|].
      split.
      * constructor; [split; [done | by rewrite Hget]|]. by eapply Hresults.
      * intros Hall. apply Hceil, Hcap; [|done]. rewrite Hstart. by apply Hb.
    + destruct (IH (put agents (agent a) (set_base target b)) (S n))
        as (Hplan & Hkeys & Hres & Hceil).
      destruct (deploy_assignments rest _ clock (S n)) as [results agents'].
      cbn [fst snd map] in *. split; [by rewrite Hplan|]. split; [by rewrite Hkeys|].
      split.
      * constructor; [split; [done | by rewrite Hget]|]. by eapply Hresults.
      * intros Hall. apply Hceil, Hcap; [|done]. by apply Hb.
  - destruct (IH agents (S n)) as (Hplan & Hkeys & Hres & Hceil).
    destruct (deploy_assignments rest agents clock (S n)) as [results agents'].
    cbn [fst snd map] in *. split; [by rewrite Hplan|]. split; [done|].
    split; [by constructor | done].
Qed.

(** ** The ring, as the agents see it *)

Lemma ring_step_moves (p n : Z) :
  (2 <= n)%Z -> ((p - 1) mod n <> p /\ (p + 1) mod n <> p)%Z.
Proof.
  intros Hn. split; intros Heq.
  - pose proof (Z.div_mod (p - 1) n ltac:(lia)) as Hdiv. rewrite Heq in Hdiv.
    generalize dependent ((p - 1) / n)%Z. intros q Hq.
    assert (q <= -1 \/ q = 0 \/ 1 <= q)%Z as [?|[?|?]] by lia; nia.
  - pose proof (Z.div_mod (p + 1) n ltac:(lia)) as Hdiv. rewrite Heq in Hdiv.
    generalize dependent ((p + 1) / n)%Z. intros q Hq.
    assert (q <= -1 \/ q = 0 \/ 1 <= q)%Z as [?|[?|?]] by lia; nia.
Qed.

(** X14.  [get_neighbor_agents] fails on an empty list, where it takes
    a position modulo zero.  Among two agents or more no agent is its
    own neighbour, wherever it sits.  On the council that
    [create_council] seats, the neighbours of each member are the two
    agents the chair's neighbour map names for it, in council order
    rather than left before right. *)
Theorem ring_neighbors_agree (self : BaseAgent.BaseAgent) (all_agents : list BaseAgent.BaseAgent) :
  BaseAgent.get_neighbor_agents self [] = None /\
  ((2 <= length all_agents)%nat ->
   exists neighbors,
     BaseAgent.get_neighbor_agents self all_agents = Some neighbors /\
     Forall (fun a => BaseAgent.hexagonal_position a <> BaseAgent.hexagonal_position self)
            neighbors) /\
  (forall (now : BaseAgent.datetime) (name : string) (member : Agent),
      (name, member) ∈ create_council now ->
      exists neighbors,
        BaseAgent.get_neighbor_agents (base member)
          (map (fun entry : string * Agent => base entry.2) (create_council now))
        = Some neighbors /\
        map BaseAgent.name neighbors ≡ₚ neighbors_of neighbor_map name).
Proof.
  split; [reflexivity|]. split.
  - intros Hlen. unfold BaseAgent.get_neighbor_agents.
    destruct (Z.eqb_spec (Z.of_nat (length all_agents)) 0) as [Hzero|_]; [lia|].
    eexists. split; [reflexivity|]. apply Forall_forall. intros a Ha.
    apply list_elem_of_filter in Ha as [Hpos _].
    destruct (ring_step_moves (BaseAgent.hexagonal_position self)
                (Z.of_nat (length all_agents)) ltac:(lia)) as [Hleft Hright].
    destruct Hpos as [-> | ->]; done.
  - intros now name member Hin. unfold create_council in Hin.
    repeat (apply elem_of_cons in Hin as [[= -> ->]|Hin];
            [eexists; split; [reflexivity|]; vm_compute;
             first [reflexivity | apply Permutation_swap]|]).
    by apply elem_of_nil in Hin.
Qed.

End ChairFacts.

(** ** More on the ledger: what a call can and cannot change *)

Section LedgerBooks.
Import Py DiligenceLedger.

Lemma apply_completion_record (self : Ledger) (c : Completion) :
  exists record,
    records (apply_completion self c) = records self ++ [record] /\
    agent_name record = c_agent_name c /\
    hours_worked record = c_hours_worked c /\
    agent_totals (apply_completion self c) =
      <[c_agent_name c :=
          {| total_nectar :=
               (total_nectar (default zero_totals (agent_totals self !! c_agent_name c))
                + nectar_accrued record)%float;
             total_hours :=
               (total_hours (default zero_totals (agent_totals self !! c_agent_name c))
                + c_hours_worked c)%float;
             tasks_completed :=
               tasks_completed (default zero_totals (agent_totals self !! c_agent_name c))
               + 1 |}]>
        (agent_totals self).
Proof.
  unfold apply_completion, record_completion. cbv zeta. cbn [snd records agent_totals].
  eexists. split; [reflexivity|]. by repeat split.
Qed.

(** X15.  The ledger is append-only and keeps the agents apart: a
    sequence of [record_completion] calls leaves the records it found in
    place and adds one record per call, in call order, for the agent and
    the hours of that call; the task count of an agent's summary grows
    by the number of calls that name it; and an agent that no call names
    keeps its totals and its records. *)
Theorem ledger_is_append_only (calls : list Completion) (self : Ledger) (agent : string) :
  (exists new,
      records (record_all self calls) = records self ++ new /\
      map agent_name new = map c_agent_name calls /\
      map hours_worked new = map c_hours_worked calls) /\
  tasks_completed (get_agent_summary (record_all self calls) agent) =
    (tasks_completed (get_agent_summary self agent)
     + Z.of_nat (length (filter (fun c => c_agent_name c = agent) calls)))%Z /\
  (Forall (fun c => c_agent_name c <> agent) calls ->
   agent_totals (record_all self calls) !! agent = agent_totals self !! agent /\
   records_of (record_all self calls) agent = records_of self agent).
Proof.
  revert self. induction calls as [|c calls IH]; intros self.
  { cbn. split; [exists []; by rewrite app_nil_r|]. split; [lia | done]. }
  change (record_all self (c :: calls)) with (record_all (apply_completion self c) calls).
  destruct (IH (apply_completion self c)) as ((new & Hrecords & Hnames & Hhours) & Hcount & Hother).
  destruct (apply_completion_record self c) as (record & Hrecord & Hname & Hhour & Htotals).
  split; [|split].
  - exists (record :: new). rewrite Hrecords, Hrecord, <- app_assoc.
    split; [done|]. cbn [map]. by rewrite Hnames, Hhours, Hname, Hhour.
  - rewrite Hcount. unfold get_agent_summary. rewrite Htotals, filter_cons.
    destruct (decide (c_agent_name c = agent)) as [->|Hne].
    + rewrite lookup_insert_eq. cbn [from_option id tasks_completed length]. lia.
    + by rewrite lookup_insert_ne.
  - intros Hall. apply Forall_cons in Hall as [Hne Hall].
    destruct (Hother Hall) as [-> ->]. rewrite Htotals, lookup_insert_ne by done.
    split; [done|]. unfold records_of. rewrite Hrecord, filter_app, filter_cons, filter_nil.
    rewrite decide_False by congruence. by rewrite app_nil_r.
Qed.


End LedgerBooks.

(** ** More on the scores of the agents *)

Section ScoreFacts.
Import Py Agents.
Local Open Scope string_scope.

Lemma lower_ascii_idempotent (c : ascii) : lower_ascii (lower_ascii c) = lower_ascii c.
Proof. by destruct c as [[] [] [] [] [] [] [] []]. Qed.

Lemma lower_idempotent (s : string) : lower (lower s) = lower s.
Proof.
  induction s as [|c s IH]; [done|]. cbn [lower]. by rewrite lower_ascii_idempotent, IH.
Qed.

Lemma count_in_bounds (keywords : list string) (s : string) :
  exists n : nat, count_in keywords s = Z.of_nat n /\ (n <= length keywords)%nat.
Proof. eexists. split; [reflexivity|]. apply length_filter. Qed.



(** The score of an agent depends on the description through the
    number of keywords found and one or two flags: the cases are
    finitely many. *)
Ltac each_match_count n Hle :=
  do 19 (destruct n as [|n];
         [first [vm_compute; repeat split; reflexivity | exfalso; simpl in *; lia]|]);
  exfalso; simpl in Hle; lia.

(** X17.  Every agent scores a task between 0 and 1, both included, and
    never with a NaN; and the score does not depend on the case of the
    letters of the description. *)
Theorem scores_within_unit_interval (kind : AgentKind) (task_description : string) :
  (0 <=? can_handle_task kind task_description)%float = true /\
  (can_handle_task kind task_description <=? 1)%float = true /\
  can_handle_task kind (lower task_description) = can_handle_task kind task_description.
Proof.
  split; [|split].
  - destruct kind; unfold can_handle_task.
    + unfold veda_can_handle_task. cbv zeta.
      destruct (count_in_bounds VEDA_KEYWORDS (lower task_description)) as (n & -> & Hle).
      destruct (any_in _ _), (any_in _ _); each_match_count n Hle.
    + unfold aura_can_handle_task. cbv zeta.
      destruct (count_in_bounds AURA_KEYWORDS (lower task_description)) as (n & -> & Hle).
      destruct (any_in _ _); each_match_count n Hle.
    + unfold hex_can_handle_task. cbv zeta.
      destruct (count_in_bounds HEX_KEYWORDS (lower task_description)) as (n & -> & Hle).
      each_match_count n Hle.
    + unfold node_can_handle_task. cbv zeta.
      destruct (count_in_bounds NODE_KEYWORDS (lower task_description)) as (n & -> & Hle).
      destruct (_ || _); each_match_count n Hle.
    + unfold spark_can_handle_task. cbv zeta.
      destruct (count_in_bounds SPARK_KEYWORDS (lower task_description)) as (n & -> & Hle).
      destruct (any_in _ _), (any_in _ _); each_match_count n Hle.
    + unfold tess_can_handle_task. cbv zeta.
      destruct (count_in_bounds TESS_KEYWORDS (lower task_description)) as (n & -> & Hle).
      destruct (any_in _ _); each_match_count n Hle.
  - destruct kind; unfold can_handle_task.
    + unfold veda_can_handle_task. cbv zeta.
      destruct (count_in_bounds VEDA_KEYWORDS (lower task_description)) as (n & -> & Hle).
      destruct (any_in _ _), (any_in _ _); each_match_count n Hle.
    + unfold aura_can_handle_task. cbv zeta.
      destruct (count_in_bounds AURA_KEYWORDS (lower task_description)) as (n & -> & Hle).
      destruct (any_in _ _); each_match_count n Hle.
    + unfold hex_can_handle_task. cbv zeta.
      destruct (count_in_bounds HEX_KEYWORDS (lower task_description)) as (n & -> & Hle).
      each_match_count n Hle.
    + unfold node_can_handle_task. cbv zeta.
      destruct (count_in_bounds NODE_KEYWORDS (lower task_description)) as (n & -> & Hle).
      destruct (_ || _); each_match_count n Hle.
    + unfold spark_can_handle_task. cbv zeta.
      destruct (count_in_bounds SPARK_KEYWORDS (lower task_description)) as (n & -> & Hle).
      destruct (any_in _ _), (any_in _ _); each_match_count n Hle.
    + unfold tess_can_handle_task. cbv zeta.
      destruct (count_in_bounds TESS_KEYWORDS (lower task_description)) as (n & -> & Hle).
      destruct (any_in _ _); each_match_count n Hle.
  - destruct kind; unfold can_handle_task, veda_can_handle_task, aura_can_handle_task,
      hex_can_handle_task, node_can_handle_task, spark_can_handle_task, tess_can_handle_task;
      by rewrite lower_idempotent.
Qed.


End ScoreFacts.

(** ** More on the ceremony: reports, recorded completions, estimates *)

Section CeremonyBooks.
Import Py Agents Council Convening Reports.
Local Open Scope string_scope.

Lemma completed_today_clean (history : list BaseAgent.Task) :
  Forall (fun t => BaseAgent.completed_at t = None) history ->
  completed_today history = Returned 0%Z.
Proof.
  induction 1 as [|t rest Ht _ IH]; [done|]. cbn [completed_today]. by rewrite Ht.
Qed.

Lemma completed_today_raises (history : list BaseAgent.Task) :
  Exists (fun t => is_Some (BaseAgent.completed_at t)) history ->
  completed_today history = Raised (AttributeError "startswith").
Proof.
  induction history as [|t rest IH]; intros Hex; [by apply Exists_nil in Hex|].
  cbn [completed_today]. destruct (BaseAgent.completed_at t) eqn:Ht; [done|].
  apply Exists_cons in Hex as [[? ?]|Hex]; [congruence | by apply IH].
Qed.

Lemma completed_today_outcome (history : list BaseAgent.Task) :
  completed_today history = Returned 0%Z \/
  completed_today history = Raised (AttributeError "startswith").
Proof.
  induction history as [|t rest IH]; [by left|]. cbn [completed_today].
  destruct (BaseAgent.completed_at t); [by right | exact IH].
Qed.

Lemma standup_reports_raises (agents : Agents) :
  Exists (fun entry : string * Agent =>
            Exists (fun t => is_Some (BaseAgent.completed_at t))
                   (BaseAgent.task_history (base entry.2))) agents ->
  standup_reports agents = Raised (AttributeError "startswith").
Proof.
  induction agents as [|[name agent] rest IH]; intros Hex; [by apply Exists_nil in Hex|].
  cbn [standup_reports].
  apply Exists_cons in Hex as [Hex|Hex].
  - cbn [snd] in Hex. by rewrite (completed_today_raises _ Hex).
  - destruct (completed_today_outcome (BaseAgent.task_history (base agent))) as [-> | ->];
      [|done].
    cbn [and_then]. by rewrite (IH Hex).
Qed.

Lemma standup_reports_clean (agents : Agents) :
  Forall (fun entry : string * Agent =>
            Forall (fun t => BaseAgent.completed_at t = None)
                   (BaseAgent.task_history (base entry.2))) agents ->
  exists reports,
    standup_reports agents = Returned reports /\
    map report_agent reports = keys agents /\
    Forall (fun r => tasks_completed_today r = 0%Z) reports.
Proof.
  induction 1 as [|[name agent] rest Hclean _ (reports & IH & Hnames & Hzero)].
  { by exists []. }
  cbn [standup_reports snd] in *. rewrite (completed_today_clean _ Hclean), IH.
  cbn [and_then]. eexists. split; [reflexivity|].
  split; [cbn; by rewrite Hnames | by constructor].
Qed.

Lemma put_elem_of (agents : Agents) (name : string) (old new : Agent) :
  get agents name = Some old -> (name, new) ∈ put agents name new.
Proof.
  induction agents as [|[key a] rest IH]; [done|]. cbn [get put].
  destruct (String.eqb_spec key name) as [->|_].
  - intros _. apply elem_of_cons. by left.
  - intros H. apply elem_of_cons. right. by apply IH.
Qed.

(** X19.  [daily_standup] cannot count completed tasks: it fails with
    an attribute error as soon as the history of some agent holds a
    completed task, and when it returns, with one report per agent in
    council order, every report counts zero tasks completed today.  In
    particular it fails after every completion that
    [record_task_completion] records. *)
Theorem standup_fails_on_completed_work (self : CouncilConvening) (now : BaseAgent.datetime) :
  (Exists (fun entry : string * Agent =>
             Exists (fun t => is_Some (BaseAgent.completed_at t))
                    (BaseAgent.task_history (base entry.2))) (agents self) ->
   daily_standup self now = Raised (AttributeError "startswith")) /\
  (Forall (fun entry : string * Agent =>
             Forall (fun t => BaseAgent.completed_at t = None)
                    (BaseAgent.task_history (base entry.2))) (agents self) ->
   exists standup,
     daily_standup self now = Returned standup /\
     map report_agent (reports standup) = keys (agents self) /\
     Forall (fun r => tasks_completed_today r = 0%Z) (reports standup)) /\
  (forall (agent_name task_id : string) (hours_worked quality_score total nectar : float)
          (rendering : string) (before later : BaseAgent.datetime),
      (record_task_completion self agent_name task_id hours_worked quality_score
                              rendering before later).1
      = Recorded task_id agent_name nectar total ->
      daily_standup
        (record_task_completion self agent_name task_id hours_worked quality_score
                                rendering before later).2 now
      = Raised (AttributeError "startswith")).
Proof.
  split; [|split].
  - intros Hex. unfold daily_standup. by rewrite (standup_reports_raises _ Hex).
  - intros Hclean. unfold daily_standup.
    destruct (standup_reports_clean _ Hclean) as (reports & -> & Hnames & Hzero).
    cbn [and_then]. by eexists.
  - intros agent_name task_id hours_worked quality_score total nectar rendering before later.
    unfold record_task_completion.
    destruct (get (agents self) agent_name) as [member|] eqn:Hget; [|done].
    destruct (BaseAgent.tasks (base member) !! task_id) as [task|] eqn:Htask; [|done].
    cbn [fst snd]. intros _. unfold daily_standup. cbn [agents].
    rewrite standup_reports_raises; [done|].
    apply Exists_exists. eexists. split; [by eapply put_elem_of|].
    cbn [snd set_base base]. unfold BaseAgent.complete_task. rewrite Htask.
    cbn [snd BaseAgent.task_history]. apply Exists_app. right.
    apply Exists_cons. left. by eexists.
Qed.




(** The fold of [calculate_accrual_estimate], from any estimate that
    is all zeros. *)
Lemma estimate_stays_zero (assignments : list TessAgent.Assignment) (seen : list string)
    (estimate : NectarEstimate) :
  total_nectar estimate = 0%float ->
  (forall name, by_agent estimate !! name
                = if bool_decide (name ∈ seen) then Some (0%Z, 0%float) else None) ->
  let final :=
    fold_left
      (fun estimate assignment =>
         let agent := TessAgent.agent assignment in
         let hours := 0%Z in
         let estimated_nectar := (float_of_Z hours * 10.0)%float in
         let entry := default (0%Z, float_of_Z 0) (by_agent estimate !! agent) in
         {| by_agent :=
              <[agent := ((fst entry + hours)%Z, (snd entry + estimated_nectar)%float)]>
                (by_agent estimate);
            total_nectar := (total_nectar estimate + estimated_nectar)%float |})
      assignments estimate in
  total_nectar final = 0%float /\
  forall name, by_agent final !! name
               = if bool_decide (name ∈ (seen ++ map TessAgent.agent assignments)%list)
                 then Some (0%Z, 0%float) else None.
Proof.
  revert seen estimate. induction assignments as [|a rest IH]; intros seen estimate Htotal Hby.
  { cbn. by rewrite app_nil_r. }
  cbn [fold_left map]. cbv zeta.
  specialize (IH (seen ++ [TessAgent.agent a])%list). cbv zeta in IH.
  rewrite <- app_assoc in IH. apply IH.
  - cbn [total_nectar]. rewrite Htotal. reflexivity.
  - intros name. cbn [by_agent].
    destruct (decide (TessAgent.agent a = name)) as [<-|Hne].
    + rewrite lookup_insert_eq, Hby.
      rewrite (bool_decide_eq_true_2 (TessAgent.agent a ∈ (seen ++ [TessAgent.agent a])%list))
        by (apply elem_of_app; right; apply elem_of_cons; by left).
      by destruct (bool_decide (TessAgent.agent a ∈ seen)).
    + rewrite lookup_insert_ne, Hby by done.
      rewrite (bool_decide_ext (name ∈ seen) (name ∈ (seen ++ [TessAgent.agent a])%list));
        [done|].
      rewrite elem_of_app, list_elem_of_singleton.
      split; [by left | intros [?|?]; [done | congruence]].
Qed.

(** X21.  The accrual estimate of a plan is always zero.
    [calculate_accrual_estimate] reads the hours of an assignment under
    a key that no assignment carries, so whatever the plan, the total is
    0.0 and every agent of the plan is listed with zero hours and zero
    nectar. *)
Theorem accrual_estimate_is_always_zero (assignments : list TessAgent.Assignment) :
  total_nectar (calculate_accrual_estimate assignments) = 0%float /\
  forall name,
    by_agent (calculate_accrual_estimate assignments) !! name
    = if bool_decide (name ∈ map TessAgent.agent assignments)
      then Some (0%Z, 0%float) else None.
Proof.
  unfold calculate_accrual_estimate.
  apply (estimate_stays_zero assignments [] {| by_agent := ∅; total_nectar := 0.0 |});
    [reflexivity|].
  intros name. cbn [by_agent]. rewrite lookup_empty.
  by rewrite bool_decide_eq_false_2 by (by intros ?%elem_of_nil).
Qed.

(** ** What the phases of the ceremony leave alone *)

Lemma keys_map_values (agents : Agents) (f : string * Agent -> Agent) :
  keys (map (fun entry : string * Agent => (fst entry, f entry)) agents) = keys agents.
Proof. unfold keys. rewrite map_map. by apply map_ext. Qed.

Lemma convene_council_keys (agents : Agents) (briefing : BaseAgent.Briefing)
    (now : BaseAgent.datetime) :
  keys (TessAgent.convene_council agents briefing now).2 = keys agents.
Proof.
  unfold TessAgent.convene_council.
  destruct (TessAgent.chair_state agents) as [[[tess meeting] history]|e]; [|done].
  cbn [snd]. by rewrite keys_map_values, keys_put.
Qed.

Lemma facilitate_deliberation_keys (agents : Agents) (now : BaseAgent.datetime) :
  keys (TessAgent.facilitate_deliberation agents now).2 = keys agents.
Proof.
  unfold TessAgent.facilitate_deliberation.
  destruct (TessAgent.chair_state agents) as [[[tess meeting] history]|e]; [|done].
  destruct (head agents) as [[key first]|]; [|done].
  destruct (BaseAgent.sofie_briefing (base first)); [|done].
  destruct (TessAgent.max_float _); [|done].
  cbn [snd]. apply keys_put.
Qed.

Lemma deploy_assignments_keys (plan : list TessAgent.Assignment) (agents : Agents)
    (clock : nat -> BaseAgent.datetime) (n : nat) :
  keys (TessAgent.deploy_assignments plan agents clock n).2 = keys agents.
Proof.
  revert agents n. induction plan as [|a rest IH]; intros agents n; [done|].
  cbn [TessAgent.deploy_assignments].
  destruct (get agents (TessAgent.agent a)) as [target|].
  - destruct (BaseAgent.assign_task _ _ _) as [[] b].
    + destruct (BaseAgent.start_task _ _ _) as [started b'].
      specialize (IH (put agents (TessAgent.agent a) (set_base target b')) (S n)).
      destruct (TessAgent.deploy_assignments rest _ clock (S n)) as [results agents'].
      cbn [snd] in *. by rewrite IH, keys_put.
    + specialize (IH (put agents (TessAgent.agent a) (set_base target b)) (S n)).
      destruct (TessAgent.deploy_assignments rest _ clock (S n)) as [results agents'].
      cbn [snd] in *. by rewrite IH, keys_put.
  - specialize (IH agents (S n)).
    by destruct (TessAgent.deploy_assignments rest agents clock (S n)) as [results agents'].
Qed.

Lemma execute_deployment_keys (plan : list TessAgent.Assignment) (agents : Agents)
    (clock : nat -> BaseAgent.datetime) :
  keys (TessAgent.execute_deployment plan agents clock).2 = keys agents.
Proof.
  unfold TessAgent.execute_deployment.
  destruct (TessAgent.chair_state agents) as [?|e]; [|done].
  pose proof (deploy_assignments_keys plan agents clock 0) as Hkeys.
  destruct (TessAgent.deploy_assignments plan agents clock 0) as [results agents'].
  cbn [snd] in Hkeys.
  destruct (TessAgent.chair_state agents') as [[[tess [meeting|]] history]|e]; try done.
  cbn [snd]. by rewrite keys_put.
Qed.

(** X22.  No phase of the ceremony reads or writes the ledger, and none
    changes who sits in the council: after [receive_briefing],
    [deliberate], [generate_proposal], [authorize] and [deploy], whether
    they return or raise, the ledger is the one the ceremony had and the
    council has the same members in the same order. *)
Theorem phases_leave_ledger_and_seats (self : CouncilConvening)
    (briefing : BaseAgent.Briefing) (proposal_id : string) (authorized : bool)
    (now : BaseAgent.datetime) (clock : nat -> BaseAgent.datetime) :
  Forall (fun after : CouncilConvening =>
            ledger after = ledger self /\ keys (agents after) = keys (agents self))
         [(receive_briefing self briefing now).2;
          (deliberate self now).2;
          (generate_proposal self now).2;
          (authorize self proposal_id authorized now).2;
          (deploy self clock).2].
Proof.
  repeat apply Forall_cons_2; [| | | | |constructor].
  - unfold receive_briefing. destruct (is_empty_briefing briefing); [done|].
    cbn [agents].
    pose proof (convene_council_keys (agents self) (with_default_notice briefing) now) as Hkeys.
    by destruct (TessAgent.convene_council _ _ _) as [[result|e] agents'].
  - unfold deliberate. cbn [set_phase agents].
    pose proof (facilitate_deliberation_keys (agents self) now) as Hkeys.
    destruct (TessAgent.facilitate_deliberation _ _) as [[deliberation|e] agents']; [|done].
    cbn [snd set_agents agents] in *.
    destruct (TessAgent.optimize_distribution _ _) as [optimized|e]; [|done].
    destruct (get agents' "aura") as [aura|]; [|done].
    destruct (negb _).
    + destruct (veto_proposal _ _ _ _) as [[veto aura']|]; [|done].
      cbn [snd set_deliberation_record set_agents agents ledger]. by rewrite keys_put.
    + destruct (get agents' "hex") as [hex_agent|]; [|done].
      by destruct (subclass hex_agent).
  - unfold generate_proposal. cbn [set_phase deliberation_record agents].
    destruct (deliberation_record self) as [record|]; [|done].
    destruct (get (agents self) "tess"); [|done]. by destruct record.
  - unfold authorize. destruct (current_proposal self); [|done]. by destruct authorized.
  - unfold deploy. cbn [set_phase current_proposal agents].
    destruct (current_proposal self) as [proposal|]; [|done].
    destruct (negb _); [done|].
    pose proof (execute_deployment_keys (plan_assignments (council_plan proposal))
                  (agents self) clock) as Hkeys.
    by destruct (TessAgent.execute_deployment _ _ _) as [[results|e] agents'].
Qed.

End CeremonyBooks.

(** ** Aura's reviews *)

Section ReviewFacts.
Import Py AuraReview.
Local Open Scope string_scope.







Lemma ltb_leb (a b : float) : (a <? b)%float = true -> (a <=? b)%float = true.
Proof.
  rewrite FloatAxioms.ltb_spec, FloatAxioms.leb_spec.
  unfold SpecFloat.SFltb, SpecFloat.SFleb.
  by destruct (SpecFloat.SFcompare _ _) as [[| |]|].
Qed.

(** X24.  Aura's fitness check and the agent's own gate do not test the
    same things.  An agent that can accept a task is found fit for duty
    unless a break is overdue; an agent found fit may still refuse every
    task, and one that has worked eight hours exactly is such an agent:
    Aura asks for more than eight hours, the gate for eight or more. *)
Theorem fit_for_duty_is_not_the_gate (agent : BaseAgent.BaseAgent) (now : BaseAgent.datetime) :
  (BaseAgent.can_accept_task (BaseAgent.biometrics agent) = true ->
   fit_for_duty (validate_agent_wellness agent now)
   = negb (BaseAgent.needs_break (BaseAgent.biometrics agent) now)) /\
  (BaseAgent.hours_worked_today (BaseAgent.biometrics agent) = 8%float ->
   (0.7 <? BaseAgent.stress_level (BaseAgent.biometrics agent))%float = false ->
   BaseAgent.needs_break (BaseAgent.biometrics agent) now = false ->
   fit_for_duty (validate_agent_wellness agent now) = true /\
   BaseAgent.can_accept_task (BaseAgent.biometrics agent) = false).
Proof.
  unfold validate_agent_wellness. cbv zeta. cbn [fit_for_duty]. split.
  - unfold BaseAgent.can_accept_task, BaseAgent.needs_rest.
    destruct (_ <=? _)%Z; [done|].
    change BaseAgent.STRESS_THRESHOLD with 0.7%float.
    destruct (0.7 <? _)%float; [done|].
    destruct (BaseAgent.MAX_HOURS_PER_DAY <=? _)%float eqn:Hhours; [done|].
    destruct (8 <? BaseAgent.hours_worked_today _)%float eqn:Hover.
    { apply ltb_leb in Hover. unfold BaseAgent.MAX_HOURS_PER_DAY in Hhours. congruence. }
    intros _. by destruct (BaseAgent.needs_break _ _).
  - intros Hhours Hcalm Hbreak. rewrite Hhours, Hcalm, Hbreak.
    split; [by vm_compute|].
    unfold BaseAgent.can_accept_task, BaseAgent.needs_rest. rewrite Hhours.
    destruct (_ <=? _)%Z; [done|].
    destruct (BaseAgent.STRESS_THRESHOLD <? _)%float; [done|]. by vm_compute.
Qed.

End ReviewFacts.

(** ** The plan and the guard *)

Section BoundaryFacts.
Import Py ProtectedRepos GitHubClient Agents Council TessAgent.
Local Open Scope string_scope.

Lemma determine_repo_is_permitted (task : string) :
  is_sovereign_territory (_determine_repo task) = false /\
  _determine_repo task ∈ PERMITTED_ECOSYSTEM_REPOS.
Proof.
  unfold _determine_repo. cbv zeta.
  destruct (contains "wellness" _); [|destruct (_ || _); [|destruct (contains "hive" _)]];
    (split; [by vm_compute|]); unfold PERMITTED_ECOSYSTEM_REPOS;
    repeat first [by apply list_elem_of_here | apply list_elem_of_further].
Qed.

Lemma distribute_repos (proposals : list Proposal) (agents : Agents)
    (agent_loads loads' : gmap string AgentLoad) (done out : list Assignment) :
  distribute proposals agents agent_loads done = Returned (out, loads') ->
  Forall (fun a => repo a = None \/ repo a = Some (_determine_repo (assigned_task a))) done ->
  Forall (fun a => repo a = None \/ repo a = Some (_determine_repo (assigned_task a))) out.
Proof.
  revert agent_loads done. induction proposals as [|p rest IH]; intros agent_loads done H Hdone.
  - by injection H as <- _.
  - cbn [distribute] in H.
    destruct (agent_loads !! assigned_to p) as [load|]; [|done].
    destruct (0 <? available_capacity load)%Z.
    + eapply IH; [exact H|]. apply Forall_app. split; [done|]. constructor; [|done]. by right.
    + destruct (_redistribute_to_neighbor _ _ _ _) as [[chosen|]|]; [| |done].
      * destruct (agent_loads !! chosen); [|done].
        eapply IH; [exact H|]. apply Forall_app. split; [done|]. constructor; [|done].
        by right.
      * eapply IH; [exact H|]. apply Forall_app. split; [done|]. constructor; [|done].
        by left.
Qed.

(** X25.  The chair never plans work in sovereign territory.  Every
    assignment of a plan of [optimize_distribution] that names a
    repository names one of the ecosystem repositories, the guard lets
    every operation of the client through on it, and the repository that
    [deploy_assignments] falls back on for an assignment without one,
    "unknown", is not sovereign either. *)
Theorem chair_plans_outside_sovereign_territory (proposals : list Proposal) (agents : Agents)
    (plan : OptimizedPlan) :
  optimize_distribution proposals agents = Returned plan ->
  Forall (fun a =>
            is_sovereign_territory (default "unknown" (repo a)) = false /\
            (forall action, validate_repo_access (default "unknown" (repo a)) action
                            = Returned ()) /\
            (forall r, repo a = Some r -> r ∈ PERMITTED_ECOSYSTEM_REPOS))
         (assignments plan).
Proof.
  unfold optimize_distribution. intros H.
  destruct (distribute proposals agents (initial_loads agents) [])
    as [[out loads']|e] eqn:Hd; [|done].
  cbn [and_then fst snd] in H.
  destruct (_calculate_timeline out agents) as [timeline|e]; [|done].
  cbn [and_then] in H. injection H as <-. cbn [assignments].
  apply distribute_repos in Hd; [|constructor].
  eapply Forall_impl; [exact Hd|]. intros a [Hrepo|Hrepo]; rewrite Hrepo; cbn [from_option id].
  - split; [by vm_compute|]. split; [intros action; by vm_compute | done].
  - destruct (determine_repo_is_permitted (assigned_task a)) as [Hfree Hlisted].
    split; [exact Hfree|]. split.
    + intros action. unfold validate_repo_access. by rewrite Hfree.
    + by intros r [= <-].
Qed.

Lemma chair_plans_outside_sovereign_territory_witness :
  exists plan,
    optimize_distribution
      [{| task := "build the sofie api bridge"; assigned_to := "node";
          proposal_confidence := 1; alternatives := [] |}]
      (create_council 0%Z) = Returned plan /\
    map repo (assignments plan) = [Some "terracare-bridge"] /\
    Forall (fun a => is_sovereign_territory (default "unknown" (repo a)) = false)
           (assignments plan).
Proof.
  destruct (optimize_distribution
              [{| task := "build the sofie api bridge"; assigned_to := "node";
                  proposal_confidence := 1; alternatives := [] |}]
              (create_council 0%Z)) as [plan|e] eqn:H.
  - exists plan. split; [reflexivity|]. split.
    + vm_compute in H. injection H as <-. reflexivity.
    + eapply Forall_impl; [exact (chair_plans_outside_sovereign_territory _ _ _ H)|].
      by intros a [Hfree _].
  - exfalso. vm_compute in H. discriminate H.
Defined.

(** X26.  The client's two lists against the guard.  Every name on the
    protected list is refused by the guard.  The list of permitted
    repositories does not pass the client's own validation: it names
    "sofie-dashboard", which the guard takes for sovereign territory, so
    the validation of that list reports one violation and every
    operation on that repository raises. *)
Theorem permitted_list_fails_own_validation (self : CouncilGitHubClient) :
  Forall (fun repo_name => is_sovereign_territory repo_name = true) (get_protected_list self) /\
  get_ecosystem_build_targets = list_permitted_repos self /\
  violations (validate_work_plan self (list_permitted_repos self)) = ["sofie-dashboard"] /\
  valid (validate_work_plan self (list_permitted_repos self)) = false /\
  permitted (validate_work_plan self (list_permitted_repos self))
  = get_permitted_repos (list_permitted_repos self) /\
  length (permitted (validate_work_plan self (list_permitted_repos self))) = 10%nat /\
  (forall branch,
      clone_repo self "sofie-dashboard" branch
      = Raised (mkSovereignTerritoryError "sofie-dashboard" "clone")).
Proof.
  split.
  { unfold get_protected_list, SOVEREIGN_TERRITORY.
    repeat (apply Forall_cons_2; [by vm_compute|]). constructor. }
  split; [reflexivity|].
  split; [by vm_compute|]. split; [by vm_compute|]. split; [by vm_compute|].
  split; [by vm_compute|]. intros branch. by vm_compute.
Qed.

End BoundaryFacts.

(** ** The timeline and the briefing *)

Section TimelineFacts.
Import Py Agents Council TessAgent Convening.
Local Open Scope string_scope.



Lemma convene_council_briefs (agents : Agents) (briefing : BaseAgent.Briefing)
    (now : BaseAgent.datetime) (names : list string)
    (capacity : list BaseAgent.CapacityReport) :
  (convene_council agents briefing now).1 = Returned (names, capacity) ->
  names = keys agents /\
  Forall (fun entry : string * Agent =>
            BaseAgent.sofie_briefing (base entry.2) = Some briefing /\
            BaseAgent.deliberation_notes (base entry.2) = [])
         (convene_council agents briefing now).2.
Proof.
  unfold convene_council.
  destruct (chair_state agents) as [[[tess meeting] history]|e]; [|done].
  cbn [fst snd]. intros [= <- _]. split.
  - by rewrite keys_map_values, keys_put.
  - apply Forall_forall. intros entry Hin.
    by apply list_elem_of_fmap in Hin as ([key member] & -> & _).
Qed.

Lemma with_default_notice_present (briefing : BaseAgent.Briefing) :
  exists notice,
    BaseAgent.protected_notice (with_default_notice briefing) = Some notice /\ notice <> "".
Proof.
  unfold with_default_notice.
  destruct (BaseAgent.protected_notice briefing) as [[|c notice]|] eqn:Hnotice;
    cbn [BaseAgent.protected_notice]; eexists; (split; [done || exact Hnotice | done]).
Qed.

(** X28.  A briefing that convenes the council reaches every agent, and
    never without a notice of the sovereign territory: each agent of the
    council holds the briefing the ceremony stored, with its
    deliberation notes cleared, and that briefing carries a non-empty
    protected notice, the default one if Sofie's had none or an empty
    one.  The names reported are the council's, in its order. *)
Theorem briefing_reaches_every_agent (self : CouncilConvening) (briefing : BaseAgent.Briefing)
    (now : BaseAgent.datetime) (names : list string) :
  (receive_briefing self briefing now).1 = Returned (Convened names) ->
  names = keys (agents self) /\
  is_empty_briefing briefing = false /\
  current_briefing (receive_briefing self briefing now).2
  = Some (with_default_notice briefing) /\
  Forall (fun entry : string * Agent =>
            BaseAgent.sofie_briefing (base entry.2) = Some (with_default_notice briefing) /\
            BaseAgent.deliberation_notes (base entry.2) = [])
         (agents (receive_briefing self briefing now).2) /\
  (exists notice,
      BaseAgent.protected_notice (with_default_notice briefing) = Some notice /\
      notice <> "") /\
  (forall notice rest,
      BaseAgent.protected_notice briefing = Some (String notice rest) ->
      with_default_notice briefing = briefing).
Proof.
  unfold receive_briefing.
  destruct (is_empty_briefing briefing); [done|]. cbn [agents].
  pose proof (convene_council_briefs (agents self) (with_default_notice briefing) now) as Hbrief.
  destruct (convene_council (agents self) (with_default_notice briefing) now)
    as [[[names' capacity]|e] agents']; [|done].
  cbn [fst snd set_agents agents current_briefing] in *. intros [= <-].
  destruct (Hbrief names' capacity eq_refl) as [-> Hall].
  split; [done|]. split; [done|]. split; [done|]. split; [exact Hall|].
  split; [apply with_default_notice_present|].
  intros notice rest Hnotice. unfold with_default_notice. by rewrite Hnotice.
Qed.

Lemma briefing_reaches_every_agent_witness :
  Forall (fun entry : string * Agent =>
            BaseAgent.sofie_briefing (base entry.2)
            = Some (Scenarios.briefing_of ["build backend API"]))
         (agents (receive_briefing (init 0%Z None)
                    (Scenarios.briefing_of ["build backend API"]) 1%Z).2).
Proof.
  destruct (briefing_reaches_every_agent (init 0%Z None)
              (Scenarios.briefing_of ["build backend API"]) 1%Z
              ["veda"; "aura"; "hex"; "node"; "spark"; "tess"] eq_refl)
    as (_ & _ & _ & Hall & _ & Hsame).
  rewrite (Hsame _ _ eq_refl) in Hall.
  eapply Forall_impl; [exact Hall|]. by intros entry [Hbriefing _].
Defined.

End TimelineFacts.
